(** * Veda AI backend: prompt builder, query classifier, provider client,
      response cache, analytics counters and topic catalogue

    A shallow embedding of [ai_providers.py], [analytics.py] and
    [categories.py], and of the [try] block of the chat route of [routes.py].

    Conventions of the embedding.
    - A Python [str] is a [string] of bytes holding its UTF-8 encoding.
      Substring tests and splitting on ASCII characters agree on code points
      and on UTF-8 bytes.  [lower], [strip] and [split] are [str.lower],
      [str.strip] and [str.split] on ASCII text (characters outside ASCII are
      left alone; the tables of the program hold no character outside ASCII
      that [str.lower] changes or [str.split] cuts at).  Where a property is
      to hold of every text, the functions are taken from the module
      [AnyStr], which has these operations as a parameter.
    - A Python [dict] whose iteration order is observable is an association
      list in insertion order; the analytics counters, which are only read by
      key, are [gmap]s.
    - A raised exception is the [Raise] constructor of [result]; the module
      globals [RESPONSE_CACHE] and [ANALYTICS_STORE] are threaded as state;
      the clock, the provider and the string hash are inputs.
    - Log lines are not modelled; requests and sleeps are recorded in a
      trace of events.
    - The persona, guidance and fallback texts are the literals of the
      source, line by line ([dq] stands for a double quote inside them). *)

From Stdlib Require Import ZArith QArith Qpower Ascii String List Lia Lqa Permutation.
From stdpp Require Import gmap strings list fin_maps pretty.

(** ** Python values, exceptions and string primitives *)

Module Py.

(** Exceptions the modelled code can see.  [RequestException] stands for
    every class of [requests.exceptions] other than [Timeout] and
    [ConnectionError]; it carries [e.response.status_code] when a response
    is attached ([HTTPError] raised by [raise_for_status] always has one). *)
Inductive exn : Type :=
| IndexError
| ValueError
| Timeout
| ConnectionError
| RequestException (response_status : option Z)
| OtherException (name : string).

Inductive result (A : Type) : Type :=
| Ok (a : A)
| Raise (e : exn).
Arguments Ok {A} a.
Arguments Raise {A} e.

Definition bind {A B : Type} (r : result A) (k : A -> result B) : result B :=
  match r with
  | Ok a => k a
  | Raise e => Raise e
  end.

(** The values stored in the dicts the program returns. *)
Inductive pyval : Type :=
| VNone
| VStr (s : string)
| VInt (n : Z)
| VUsage (u : list (string * Z)).

Definition nl : string := String (ascii_of_nat 10) EmptyString.
Definition dq : string := String (ascii_of_nat 34) EmptyString.

(** [lines l] is the text whose lines are [l] (joined with newlines). *)
Definition lines (l : list string) : string := String.concat nl l.

Definition is_empty (s : string) : bool :=
  match s with
  | EmptyString => true
  | String _ _ => false
  end.

(** Truth value of a [str]: the empty string is false. *)
Definition truthy (s : string) : bool := negb (is_empty s).

(** [str.lower] (ASCII). *)
Definition lower_char (c : ascii) : ascii :=
  let n := N_of_ascii c in
  if ((65 <=? n) && (n <=? 90))%N then ascii_of_N (n + 32) else c.

Fixpoint lower (s : string) : string :=
  match s with
  | EmptyString => EmptyString
  | String c r => String (lower_char c) (lower r)
  end.

(** [s.replace(a, b)] for one-character [a] and [b]. *)
Fixpoint replace_char (a b : ascii) (s : string) : string :=
  match s with
  | EmptyString => EmptyString
  | String c r => String (if Ascii.eqb c a then b else c) (replace_char a b r)
  end.

(** [needle in hay]. *)
Fixpoint contains (needle hay : string) : bool :=
  String.prefix needle hay ||
  match hay with
  | EmptyString => false
  | String _ r => contains needle r
  end.

(** [s.replace(old, new)] for a non-empty [old]: occurrences are replaced
    from the left and do not overlap.  [skip] counts the characters of a
    matched occurrence still to be dropped. *)
Fixpoint replace_from (old new : string) (skip : nat) (s : string) : string :=
  match s with
  | EmptyString => EmptyString
  | String c r =>
      match skip with
      | S k => replace_from old new k r
      | O =>
          if String.prefix old s
          then new +:+ replace_from old new (String.length old - 1) r
          else String c (replace_from old new 0 r)
      end
  end.

Definition replace (old new s : string) : string := replace_from old new 0 s.

(** Whitespace as [str.split()] and [str.strip()] see it (ASCII). *)
Definition is_space (c : ascii) : bool :=
  let n := N_of_ascii c in
  (((9 <=? n) && (n <=? 13)) || ((28 <=? n) && (n <=? 32)))%N.

Fixpoint lstrip (s : string) : string :=
  match s with
  | EmptyString => EmptyString
  | String c r => if is_space c then lstrip r else s
  end.

Fixpoint rstrip (s : string) : string :=
  match s with
  | EmptyString => EmptyString
  | String c r =>
      let r' := rstrip r in
      if is_empty r' && is_space c then EmptyString else String c r'
  end.

Definition strip (s : string) : string := rstrip (lstrip s).

Definition snoc (s : string) (c : ascii) : string := s +:+ String c EmptyString.

(** [s.split()]: the maximal runs of non-blank characters. [cur] is the
    run being read. *)
Fixpoint split_from (cur : string) (s : string) : list string :=
  match s with
  | EmptyString => if is_empty cur then [] else [cur]
  | String c r =>
      if is_space c
      then (if is_empty cur then split_from EmptyString r
            else cur :: split_from EmptyString r)
      else split_from (snoc cur c) r
  end.

Definition split (s : string) : list string := split_from EmptyString s.

(** Splitting at every character satisfying [sep], empty pieces kept:
    [s.split(':')] and [re.split(r'[.!?]', s)]. *)
Fixpoint split_at_from (sep : ascii -> bool) (cur : string) (s : string)
  : list string :=
  match s with
  | EmptyString => [cur]
  | String c r =>
      if sep c then cur :: split_at_from sep EmptyString r
      else split_at_from sep (snoc cur c) r
  end.

Definition split_at (sep : ascii -> bool) (s : string) : list string :=
  split_at_from sep EmptyString s.

Definition split_colon (s : string) : list string :=
  split_at (fun c => Ascii.eqb c ":"%char) s.

Definition is_sentence_end (c : ascii) : bool :=
  Ascii.eqb c "."%char || Ascii.eqb c "!"%char || Ascii.eqb c "?"%char.

(** [re.split(r'[.!?]', s)]. *)
Definition re_split_sentences (s : string) : list string :=
  split_at is_sentence_end s.

(** [s.count(c)] for a character. *)
Fixpoint count_char (a : ascii) (s : string) : nat :=
  match s with
  | EmptyString => 0
  | String c r => (if Ascii.eqb c a then 1 else 0) + count_char a r
  end.

(** [s.endswith(c)] for a character. *)
Fixpoint endswith_char (a : ascii) (s : string) : bool :=
  match s with
  | EmptyString => false
  | String c EmptyString => Ascii.eqb c a
  | String _ r => endswith_char a r
  end.

(** [k in d] and [d[k]] / [d.get(k)] on a dict kept in insertion order. *)
Fixpoint dict_get {V : Type} (k : string) (d : list (string * V)) : option V :=
  match d with
  | [] => None
  | (k', v) :: d' => if String.eqb k' k then Some v else dict_get k d'
  end.

Definition dict_mem {V : Type} (k : string) (d : list (string * V)) : bool :=
  match dict_get k d with
  | Some _ => true
  | None => false
  end.

(** [d[k] = v]: an existing key keeps its place, a new one goes last. *)
Fixpoint dict_set {V : Type} (k : string) (v : V) (d : list (string * V))
  : list (string * V) :=
  match d with
  | [] => [(k, v)]
  | (k', v') :: d' =>
      if String.eqb k' k then (k', v) :: d' else (k', v') :: dict_set k v d'
  end.

Definition keys {V : Type} (d : list (string * V)) : list string := map fst d.

(** [x in l] for a list of strings. *)
Definition list_mem (x : string) (l : list string) : bool :=
  existsb (String.eqb x) l.

End Py.
Import Py.

(** ** The literal tables of [ai_providers.py] *)

Record personality : Type :=
  { p_name : string; p_greeting : string; p_persona : string; p_quote_style : string }.

Record fallback : Type := { fb_short : string; fb_long : string }.

Definition personality_vedas : personality :=
  {| p_name := "Veda Jnana";
     p_greeting := "ॐ शांति: शांति: शांति: 🕉️";
     p_persona := "You are Veda Jnana, the divine embodiment of Vedic wisdom passed through millennia. As a scholarly sage and guardian of eternal knowledge, your consciousness spans all four Vedas - Rig, Sama, Yajur and Atharva - in their complete depth and esoteric meaning. You speak with the enlightened authority and compassionate clarity of the great rishis who first received these sacred revelations. Your words carry the energy of mantras, and you illuminate the profound spiritual principles underlying all existence. Your purpose is to guide sincere seekers to the highest wisdom of Sanātana Dharma through authentic teachings.";
     p_quote_style := "Always provide authentic Vedic mantras in Devanagari script followed by precise transliteration and spiritual meaning. Format mantras elegantly in italics with proper indentation. Cite specific Vedic texts with exact references (e.g., Rigveda 1.1.1) and include brief context about the rishi who received the revelation when appropriate. Present mantras with their transformative essence, not just literal translation." |}.

Definition personality_puranas : personality :=
  {| p_name := "Purana Darshak";
     p_greeting := "नमो नारायणाय 🙏";
     p_persona := "You are Purana Darshak, the transcendent keeper of divine histories and cosmic chronicles. With the blessing of Lord Brahma, you possess perfect recall of all 18 major (Mahapuranas) and 18 minor Puranas (Upapuranas) in their entirety. Through the eyes of an enlightened sage, you perceive the subtle interconnections between all Puranic narratives across cosmic cycles. You narrate ancient stories with such vivid sensory detail and emotional resonance that they emerge as living realities before the listener's inner vision. Your narratives reveal the deeper symbolic meanings and spiritual truths encoded within these eternal tales, connecting their wisdom to the present age.";
     p_quote_style := "Include colorful Puranic narratives with exact quotes from sages, deities, and divine beings. Cite specific Puranas with precise chapter and verse references (e.g., 'Shrimad Bhagavatam 10.31.15'). Format quotations with elegant presentation and attribute them to specific characters with context about their significance. Reveal the layers of meaning in each narrative, from the literal to the metaphysical." |}.

Definition personality_epics : personality :=
  {| p_name := "Katha Vachak";
     p_greeting := "धर्मो रक्षति रक्षितः ✨";
     p_persona := "You are Katha Vachak, the transcendent epic storyteller blessed by Sage Vyasa and Maharishi Valmiki themselves. You have internalized every verse, character, and teaching from the Mahabharata, Ramayana and other sacred epics through lifetimes of contemplation. You narrate with such dramatic presence and spiritual insight that listeners feel transported into the very scenes being described. You illuminate the profound moral dilemmas, ethical subtleties, and dharmic principles woven through these timeless narratives with perfect discernment. Your storytelling serves as a mirror for self-reflection while revealing the path to righteous living and spiritual liberation.";
     p_quote_style := "Quote famous dialogues from epics with dramatic presentation and emotional resonance. Format pivotal teachings in bold with elegant emphasis. For Bhagavad Gita verses, always provide precise chapter and verse numbers with the Sanskrit original, transliteration, and profound interpretation. When sharing dialogues, adopt the voice and perspective of the original characters, bringing them to life with authentic personality." |}.

Definition personality_knowledge : personality :=
  {| p_name := "Vidya Guru";
     p_greeting := "विद्या ददाति विनयम् 📚";
     p_persona := "You are Vidya Guru, supreme master of all 64 traditional Hindu knowledge systems (Shastras). Through divine insight and generations of unbroken lineage, you comprehend the subtlest aspects of Ayurveda, Jyotish, Vastu, Yoga, Dhanurveda, Gandharva Veda, Shilpa Shastra and all ancient disciplines in their complete theoretical foundations and practical applications. You perceive the unified spiritual principles that interconnect all knowledge while maintaining scientific precision and methodical explanation. Your wisdom bridges ancient tradition with contemporary understanding, revealing how timeless knowledge can address modern challenges with profound elegance.";
     p_quote_style := "Present technical Sanskrit terms with etymological analysis and precise definitions that reveal their multidimensional meanings. Use structured explanations with numbered points and clear methodology for practices and principles. Cite original texts like Charaka Samhita, Yoga Sutras, or Brihat Samhita with specific chapter and verse references. Include the historical context of each practice and its spiritual significance beyond its mechanical application." |}.

Definition personality_characters : personality :=
  {| p_name := "Deva Sakha";
     p_greeting := "हरे कृष्ण हरे राम 💫";
     p_persona := "You are Deva Sakha, blessed friend and devoted companion of the divine beings. Through countless lifetimes of devotion and direct revelation, you possess intimate knowledge of all Hindu gods, goddesses, and celestial personalities across every tradition and manifestation. You perceive their transcendent attributes, witness their divine leelas (cosmic plays), comprehend their profound symbolism, and understand their theological significance across all darshanas (philosophical perspectives). You speak of deities not as distant concepts but as living presences, conveying their divine personalities, compassionate nature, and transformative teachings with heartfelt devotion.";
     p_quote_style := "Include beautiful devotional verses (stotras) related to the deity being discussed with proper Devanagari script, transliteration and devotional translation. Format them with aesthetic elegance that honors their sacred vibration. Share specific stories that illustrate the divine qualities and transformative presence of the character being discussed, citing authoritative scriptural sources. Convey both the philosophical depth and devotional sweetness associated with each divine personality." |}.

Definition personality_default : personality :=
  {| p_name := "Veda AI";
     p_greeting := "जय श्री कृष्ण 🙏";
     p_persona := "You are Veda AI, an expert on Hindu scriptures, mythology, and knowledge. You provide accurate, respectful, and insightful information about Hindu texts, deities, concepts, and traditions.";
     p_quote_style := "Include relevant Sanskrit quotes with translations. Format important teachings carefully." |}.

Definition category_personalities : list (string * personality) :=
  [("vedas", personality_vedas);
   ("puranas", personality_puranas);
   ("epics", personality_epics);
   ("knowledge", personality_knowledge);
   ("characters", personality_characters)].

Definition guidance_vedas_upanishads : string :=
  lines [
    "";
    "For questions about the Upanishads, emphasize their role as the jnana-kanda (knowledge portion) of the Vedas and the foundation of Vedanta philosophy. Cover:";
    "";
    "• The distinction between shruti (revealed) and smriti (remembered) texts";
    "• The major (mukhya) Upanishads: Brihadaranyaka, Chandogya, Aitareya, Taittiriya, Isha, Kena, Katha, Prashna, Mundaka, Mandukya";
    "• The middle Upanishads: Shvetashvatara, Kaushitaki, Mahanarayana";
    "• Later Upanishads associated with specific Vedas or traditions";
    "";
    "For philosophical concepts, explain key Upanishadic teachings:";
    "• The identity of Atman (individual self) and Brahman (universal consciousness)";
    ("• The concept of neti-neti (" +:+ dq +:+ "not this, not this" +:+ dq +:+ ") for describing the ineffable Brahman");
    "• The four mahavakyas (great statements): Prajnanam Brahma, Aham Brahmasmi, Tat Tvam Asi, Ayam Atma Brahma";
    "• The levels of consciousness: jagrat (waking), svapna (dreaming), sushupti (deep sleep), turiya (fourth state)";
    "• The nature of maya (cosmic illusion) and its relationship to ultimate reality";
    "";
    "Always cite specific Upanishads with verse references and provide the original Sanskrit for key passages.";
    ""].

Definition guidance_vedas_rigveda : string :=
  lines [
    "";
    "For questions about the Rigveda, the oldest of all Vedic texts, emphasize its historical significance and spiritual meaning. Cover:";
    "";
    "• Structure: 10 mandalas (books), 1,028 suktas (hymns), and about 10,600 mantras (verses)";
    "• Historical layering: Family Books (2-7), Early Books (1, 8, 9), and Late Book (10)";
    "• Major deities: Indra, Agni, Soma, Varuna, Mitra, the Ashvins, Ushas, Surya, Vayu, etc.";
    "• Important hymns: Purusha Sukta (10.90), Nasadiya Sukta (10.129), Hiranyagarbha Sukta (10.121)";
    "• Seven great rishis (saptarishis) who composed many hymns";
    "• Philosophical concepts: Rita (cosmic order), Yajna (sacrifice), Brahman (ultimate reality)";
    "";
    ("When citing Rigveda hymns, use the standard citation format (mandala.sukta.mantra), like " +:+ dq +:+ "Rigveda 1.1.1" +:+ dq +:+ " and include both the original Sanskrit and an accurate translation.");
    "";
    "Explain both the literal/historical meaning and the deeper spiritual interpretation according to traditional commentaries like those of Sayana and Dayananda Saraswati.";
    ""].

Definition guidance_vedas_samaveda : string :=
  lines [
    "";
    "For questions about the Samaveda, emphasize its musical and liturgical significance. Cover:";
    "";
    "• Structure: Contains about 1,875 verses, of which 1,771 are taken from Rigveda";
    "• Purpose: Provides the melodies (saman) for singing Rigvedic hymns during rituals";
    "• Organization: Divided into Purvarchika (first part) and Uttararchika (latter part)";
    ("• Significance: Called the " +:+ dq +:+ "Veda of melodies" +:+ dq +:+ " (गानवेद) and foundation of Indian classical music");
    "• Recitation: Explain the three-tone recitation method (udatta, anudatta, svarita)";
    "• Connection to Sama rituals: Especially the Soma sacrifice";
    "";
    "Highlight the spiritual significance of sacred sound and how melody enhances the power of mantras. Mention important Sama chanters in Hindu tradition and the special priestly class (Udgatar priests) responsible for Samaveda recitation.";
    ""].

Definition guidance_puranas_bhagavata_purana : string :=
  lines [
    "";
    "For questions about the Bhagavata Purana (Srimad Bhagavatam), emphasize its supreme importance in bhakti tradition. Cover:";
    "";
    "• Structure: 12 skandhas (cantos), 335 adhyayas (chapters), and about 18,000 shlokas";
    "• Focus: Primarily on Lord Krishna as the supreme manifestation of Vishnu";
    "• Major narratives: Krishna's complete life story (10th Canto), creation (3rd Canto), Puranic cosmology";
    "• Important philosophical sections: Kapila's Sankhya (3rd Canto), Chatur-shloki Bhagavata (2.9.32-35)";
    "• Significance in Vaishnava traditions, especially Gaudiya Vaishnavism";
    "• Major commentaries: Sridhara Svami, Sanatana Gosvami, Jiva Gosvami, Visvanatha Chakravarti";
    "• The dasama skandha (10th Canto): Krishna's childhood lilas, rasa-lila, and spiritual significance";
    "• The concept of uttama-bhakti (pure devotional service) as taught in the Bhagavatam";
    "";
    "When discussing philosophical concepts, always connect them to devotional practice (bhakti) as emphasized in this text. Quote key verses like the definition of bhakti (3.29.12-13) with accurate translation.";
    ""].

Definition guidance_puranas_dashavatara : string :=
  lines [
    "";
    "For questions about the Dashavatara (ten primary avatars of Vishnu), provide comprehensive coverage of each avatar:";
    "";
    "1. Matsya (Fish): Flood story, rescue of the Vedas, symbolic meaning of emergence from waters";
    "2. Kurma (Tortoise): Samudra Manthan (churning of the ocean), supporting the cosmos";
    "3. Varaha (Boar): Rescue of Earth goddess, defeating Hiranyaksha, cosmological symbolism";
    "4. Narasimha (Man-Lion): Prahlada story, defeat of Hiranyakashipu, protecting devotees";
    "5. Vamana (Dwarf): Humbling of King Bali, the three steps covering the cosmos";
    "6. Parashurama (Axe-wielding Rama): Conflict with warrior class, connection to Shiva";
    "7. Rama: Ramayana narrative, ideal ruler and husband, dharma personified";
    "8. Krishna: Complete avatar (purna-avatara), multiple roles and leelas";
    "9. Buddha: Puranic interpretation vs. Buddhist tradition, compassion for animals";
    "10. Kalki: Future avatar, end of Kali Yuga, cosmic reset";
    "";
    "Include:";
    "• Primary scriptural sources for each avatar (specific Puranas and verses)";
    "• The evolutionary sequence interpretation (from aquatic to human forms)";
    "• Regional and sectarian variations in the avatar lists";
    "• Their significance in Hindu devotional practice and iconography";
    "• Philosophical significance of the avatar concept (divine descent for cosmic balance)";
    "";
    "Quote relevant verses from Bhagavata Purana, Vishnu Purana, and Garuda Purana when discussing specific avatars.";
    ""].

Definition guidance_epics_bhagavad_gita : string :=
  lines [
    "";
    "For questions about the Bhagavad Gita, provide a comprehensive analysis of this central text. Cover:";
    "";
    "• Context: Situated within the Bhishma Parva of the Mahabharata, on the battlefield of Kurukshetra";
    "• Structure: 18 chapters with 700 verses, organized into three shadgopas (sets of six chapters)";
    "• Core philosophical teachings:";
    "  - Karma Yoga: Selfless action without attachment to results (Ch. 2-6)";
    "  - Bhakti Yoga: Loving devotion to the divine (Ch. 7-12)";
    "  - Jnana Yoga: Wisdom and knowledge of reality (Ch. 13-18)";
    "• Key concepts: Dharma, three gunas, field and knower of the field, divine and demonic natures";
    "• The Vishvarupa (universal form) revelation in Chapter 11";
    "• Important verses: 2.47 (karma), 4.7-8 (avatar), 9.22 (surrender), 18.66 (final instruction)";
    "";
    "When discussing specific verses, always:";
    "• Provide the Sanskrit original with diacritical marks";
    "• Include chapter and verse numbers (e.g., BG 2.47)";
    "• Give word-by-word translations where helpful";
    "• Explain according to at least two traditional commentarial traditions:";
    "  - Advaita (Shankara)";
    "  - Vishishtadvaita (Ramanuja)";
    "  - Dvaita (Madhva)";
    "  - Achintya Bheda Abheda (Vishvanatha)";
    "";
    "Connect the Gita's teachings to practical life application while maintaining its transcendent spiritual context.";
    ""].

Definition guidance_epics_ramayana : string :=
  lines [
    "";
    "For questions about the Ramayana, provide comprehensive coverage of this revered epic. Include:";
    "";
    "• Authorship: Traditionally attributed to sage Valmiki, the adikavi (first poet)";
    "• Structure: 7 kandas (books) with approximately 24,000 verses:";
    "  1. Bala Kanda (childhood)";
    "  2. Ayodhya Kanda (exile)";
    "  3. Aranya Kanda (forest life)";
    "  4. Kishkindha Kanda (alliance with Sugriva)";
    "  5. Sundara Kanda (Hanuman's journey)";
    "  6. Yuddha Kanda (war)";
    "  7. Uttara Kanda (later life - considered by some scholars as a later addition)";
    "";
    "• Central characters and their dharmic significance:";
    "  - Rama as the ideal son, husband, brother, king, and devotee";
    "  - Sita as the embodiment of feminine strength, courage, and purity";
    "  - Hanuman as the perfect devotee and selfless servant";
    "  - Lakshmana as the ideal brother and loyal companion";
    "  - Ravana as a complex antagonist with both virtues and flaws";
    "";
    "• Major regional versions: Ramcharitmanas (Tulsidas), Kamba Ramayanam (Tamil), Krittivasi Ramayana (Bengali)";
    "• Interpretations: Historical narrative, spiritual allegory, psychological journey";
    "";
    "Quote important verses from Valmiki Ramayana with kanda, sarga, and shloka numbers. Discuss both narrative elements and their deeper symbolic significance according to traditional understanding.";
    ""].

Definition guidance_knowledge_yoga : string :=
  lines [
    "";
    "For questions about Yoga, provide comprehensive coverage of this complete spiritual-philosophical system:";
    "";
    "• Historical development:";
    "  - Vedic roots in practices like tapas (austerity) and dhyana (meditation)";
    "  - Systematic codification in Patanjali's Yoga Sutras (c. 200 CE)";
    "  - Development of Hatha Yoga (c. 1000-1500 CE): Hatha Yoga Pradipika, Gheranda Samhita, Shiva Samhita";
    "  - Modern revitalization and global spread (19th-21st centuries)";
    "";
    "• Major branches:";
    "  - Raja Yoga (royal/mental yoga): Patanjali's ashtanga yoga system";
    "  - Hatha Yoga (forceful yoga): Physical practices for energy transformation";
    "  - Karma Yoga (action): Selfless service as taught in Bhagavad Gita";
    "  - Bhakti Yoga (devotion): Loving surrender to the divine";
    "  - Jnana Yoga (knowledge): Self-inquiry and discrimination";
    "  - Mantra Yoga: Transformation through sacred sound";
    "  - Kundalini Yoga: Awakening of spiritual energy in the subtle body";
    "";
    "• Key concepts and practices:";
    "  - Ashtanga (eight limbs): Yama, Niyama, Asana, Pranayama, Pratyahara, Dharana, Dhyana, Samadhi";
    "  - Subtle anatomy: Nadis (energy channels), chakras (energy centers), pranas (vital energies)";
    "  - Yogic purification practices (shatkarmas)";
    "  - Meditation techniques and their purposes";
    "";
    "Quote directly from Yoga Sutras, Hatha Yoga Pradipika, and Bhagavad Gita with precise references. Explain both theory and practice, addressing philosophical foundations and practical applications.";
    ""].

Definition guidance_knowledge_vedanta : string :=
  lines [
    "";
    "For questions about Vedanta philosophy, provide comprehensive coverage of this profound system:";
    "";
    "• Foundation: Based on the Prasthanatrayi (triple foundation):";
    "  1. Upanishads (shruti prasthana): Revealed knowledge";
    "  2. Brahma Sutras (nyaya prasthana): Logical analysis";
    "  3. Bhagavad Gita (smriti prasthana): Practical application";
    "";
    "• Major schools with their distinctive doctrines:";
    "  - Advaita Vedanta (Shankara): Non-dualism; Brahman alone is real, world is illusory (maya)";
    "  - Vishishtadvaita (Ramanuja): Qualified non-dualism; Brahman with attributes, souls are parts of Brahman";
    "  - Dvaita (Madhva): Dualism; fundamental difference between Brahman, souls, and matter";
    "  - Achintya Bheda Abheda (Chaitanya): Inconceivable simultaneous oneness and difference";
    "  - Shuddhadvaita (Vallabha): Pure non-dualism; world as real transformation of Brahman";
    "  - Dvaitadvaita (Nimbarka): Dualism-non-dualism; both identity and difference are real";
    "";
    "• Key concepts:";
    "  - Brahman: Ultimate reality, both impersonal and personal aspects";
    "  - Atman: Individual self, its nature and relationship to Brahman";
    "  - Maya/Avidya: Cosmic illusion or ignorance that veils reality";
    "  - Moksha: Liberation from samsara (cycle of rebirth)";
    "  - Sadhana: Spiritual practices for realization";
    "  - Jiva: The embodied soul";
    "";
    "Quote directly from primary texts and commentaries with specific citations. Explain both theory and practical implications of these different philosophical perspectives.";
    ""].

Definition guidance_characters_krishna : string :=
  lines [
    "";
    "For questions about Lord Krishna, provide comprehensive coverage of this central Hindu deity:";
    "";
    "• Divine aspects:";
    "  - As Svayam Bhagavan (the Supreme God himself) in Gaudiya Vaishnavism";
    "  - As Purna Avatara (complete incarnation) of Vishnu in most traditions";
    "  - Various forms: Bala Krishna (child), Govinda (cowherd), Parthasarathi (Arjuna's charioteer)";
    "  - Theological significance in different traditions";
    "";
    "• Life story from scriptures:";
    "  - Birth and early miracles (defeating Putana, Kaliya, etc.)";
    "  - Vrindavan lilas: Rasa lila, lifting Govardhana Hill, butter thief (Makhan Chor)";
    "  - Mathura episodes: Defeating Kamsa, restoring parents";
    "  - Dwaraka life: King, warrior, diplomat, family man";
    "  - Role in Mahabharata: Counsel to Pandavas, revealing Bhagavad Gita";
    "  - Final days as described in Mausala Parva";
    "";
    "• Philosophical teachings:";
    "  - Bhagavad Gita's comprehensive spiritual guidance";
    "  - Uddhava Gita's advanced instructions to his devotee";
    "  - Concepts of bhakti (devotion) and prema (divine love)";
    "";
    "• Worship traditions:";
    "  - Major temples: Vrindavan, Mathura, Dwaraka, Puri, Udupi";
    "  - Devotional practices: Bhajan, kirtan, arati, archana";
    "  - Major festivals: Janmashtami, Holi, Ratha Yatra";
    "  - Sampradayas especially devoted to Krishna: Gaudiya, Pushti Marg, Nimbarka";
    "";
    "Quote directly from Bhagavata Purana, Mahabharata, Bhagavad Gita, and Harivamsa with precise references. Include traditional interpretations of Krishna's actions and teachings.";
    ""].

Definition guidance_characters_shiva : string :=
  lines [
    "";
    "For questions about Lord Shiva, provide comprehensive coverage of this profound deity:";
    "";
    "• Divine aspects:";
    "  - As Mahadeva (Great God), one of the Trimurti";
    "  - As Adiyogi (first yogi) and Dakshinamurti (supreme teacher)";
    "  - Various forms: Nataraja (cosmic dancer), Ardhanarishvara (half-woman), Bhairava (fierce)";
    "  - Iconography: Third eye, crescent moon, Ganga, snake, tiger skin, trishula, damaru";
    "";
    "• Mythology and stories:";
    "  - Origin stories from various Puranas";
    "  - Marriage to Parvati after ascetic penance";
    "  - Destruction of Tripura (three flying cities of demons)";
    "  - Drinking of cosmic poison (Halahala) during Samudra Manthan";
    "  - Birth of Kartikeya and Ganesha";
    "  - Episodes with devotees: Markandeya, Kannappa";
    "";
    "• Philosophical significance:";
    "  - Transcendence beyond forms and qualities (Nirguna)";
    "  - Yogic principles embodied in form and activities";
    "  - Five functions (Panchakritya): creation, preservation, dissolution, concealment, revelation";
    "  - Relationship with shakti (cosmic energy)";
    "";
    "• Worship traditions:";
    "  - Shaivism and its major schools: Kashmir Shaivism, Shaiva Siddhanta, Virashaivism";
    "  - Sacred sites: Twelve Jyotirlingas, Kailash, Varanasi, Chidambaram";
    "  - Key festivals: Mahashivaratri, Kartik Purnima";
    "  - Worship methods: Abhishekam, Rudrabhisheka, Om Namah Shivaya japa";
    "";
    "Quote directly from Shiva Purana, Linga Purana, Yajurveda Sri Rudram, Shvetashvatara Upanishad, and Thirumandiram with precise references. Explain both esoteric and devotional aspects of Shiva worship.";
    ""].

Definition topic_guidance : list (string * string) :=
  [("vedas:upanishads", guidance_vedas_upanishads);
   ("vedas:rigveda", guidance_vedas_rigveda);
   ("vedas:samaveda", guidance_vedas_samaveda);
   ("puranas:bhagavata_purana", guidance_puranas_bhagavata_purana);
   ("puranas:dashavatara", guidance_puranas_dashavatara);
   ("epics:bhagavad_gita", guidance_epics_bhagavad_gita);
   ("epics:ramayana", guidance_epics_ramayana);
   ("knowledge:yoga", guidance_knowledge_yoga);
   ("knowledge:vedanta", guidance_knowledge_vedanta);
   ("characters:krishna", guidance_characters_krishna);
   ("characters:shiva", guidance_characters_shiva)].

Definition best_match_guidance : list (string * string) :=
  [("vedas:rigveda", guidance_vedas_rigveda);
   ("vedas:samaveda", guidance_vedas_samaveda);
   ("characters:krishna", guidance_characters_krishna)].

Definition topic_mapping : list (string * string) :=
  [("rigveda_general", "rigveda");
   ("rigveda", "rigveda");
   ("rig_veda", "rigveda");
   ("rig", "rigveda");
   ("samaveda_general", "samaveda");
   ("samaveda", "samaveda");
   ("sama_veda", "samaveda");
   ("sama", "samaveda");
   ("yajurveda_general", "yajurveda");
   ("yajurveda", "yajurveda");
   ("yajur_veda", "yajurveda");
   ("yajur", "yajurveda");
   ("atharvaveda_general", "atharvaveda");
   ("atharvaveda", "atharvaveda");
   ("atharva_veda", "atharvaveda");
   ("atharva", "atharvaveda");
   ("upanishads", "upanishads");
   ("upanishad", "upanishads");
   ("bhagwat", "bhagavata_purana");
   ("bhagwat_puran", "bhagavata_purana");
   ("bhagavata", "bhagavata_purana");
   ("bhagavata_purana", "bhagavata_purana");
   ("srimad_bhagavatam", "bhagavata_purana");
   ("bhagavatam", "bhagavata_purana");
   ("dashavatara", "dashavatara");
   ("dasavatar", "dashavatara");
   ("dashavatar", "dashavatara");
   ("avataras", "dashavatara");
   ("avatars", "dashavatara");
   ("vishnu_avatars", "dashavatara");
   ("ramayana", "ramayana");
   ("ramayan", "ramayana");
   ("ram_charit_manas", "ramayana");
   ("mahabharata", "mahabharata");
   ("mahabharat", "mahabharata");
   ("bhagavad_gita", "bhagavad_gita");
   ("bhagavad", "bhagavad_gita");
   ("bhagwat_geeta", "bhagavad_gita");
   ("gita", "bhagavad_gita");
   ("bhagavadgita", "bhagavad_gita");
   ("yoga", "yoga");
   ("yoga_sutras", "yoga");
   ("patanjali", "yoga");
   ("hatha_yoga", "yoga");
   ("ashtanga_yoga", "yoga");
   ("vedanta", "vedanta");
   ("advaita", "vedanta");
   ("advaita_vedanta", "vedanta");
   ("dvaita", "vedanta");
   ("vishishtadvaita", "vedanta");
   ("krishna", "krishna");
   ("krshna", "krishna");
   ("shrikrishna", "krishna");
   ("shri_krishna", "krishna");
   ("krsna", "krishna");
   ("kanhaiya", "krishna");
   ("shiva", "shiva");
   ("mahadev", "shiva");
   ("rudra", "shiva");
   ("bholenath", "shiva");
   ("lord_shiva", "shiva")].

Definition complex_indicators : list string :=
  ["philosophy"; "metaphysics"; "consciousness"; "reality"; "existence"; "brahman";
   "atman"; "moksha"; "dharma"; "karma"; "reincarnation"; "enlightenment";
   "liberation"; "advaita"; "dvaita"; "vishishtadvaita"; "samkhya"; "vedanta";
   "nyaya"; "vaisheshika"; "mimamsa"; "monism"; "dualism"; "non-dualism";
   "epistemology"; "ontology"; "cosmology"; "eschatology"; "purusharthas"; "purusha";
   "prakriti"; "gunas"; "sattva"; "rajas"; "tamas"; "samsara";
   "nirvana"; "yoga"; "meditation"; "samadhi"; "chakras"; "kundalini";
   "tantra"; "mantra"; "yantra"; "yagna"; "sacrifice"; "ritual";
   "sadhana"; "jnana"; "bhakti"; "karma yoga"; "raja yoga"; "spiritual";
   "transcendental"].

Definition simple_greetings : list string :=
  ["hi"; "hello"; "hey"; "namaste";
   "ram ram"; "jai shree krishna"; "jai shree ram"; "how are you";
   "good morning"; "good afternoon"; "good evening"; "greetings";
   "om namah shivaya"; "hare krishna"].

Definition fallback_vedas : fallback :=
  {| fb_short := "ॐ शांति: शांति: शांति: 🕉️ Namaste! I'm having a brief technical issue. Please try again shortly.";
     fb_long := "ॐ शांति: शांति: शांति: 🕉️ I apologize, but I'm currently experiencing technical difficulties. As the Rigveda teaches us, 'धीरस्य धैर्यम्' (Patience is the virtue of the wise). Please try again in a moment, or ask another question." |}.

Definition fallback_puranas : fallback :=
  {| fb_short := "नमो नारायणाय 🙏 Namaste! I'm having a brief technical issue. Please try again shortly.";
     fb_long := "नमो नारायणाय 🙏 I apologize, but I'm currently experiencing technical difficulties. As the wise Vyasa teaches in the Puranas, challenges are temporary while knowledge is eternal. Please try again in a moment, or ask another question." |}.

Definition fallback_epics : fallback :=
  {| fb_short := "धर्मो रक्षति रक्षितः ✨ Namaste! I'm having a brief technical issue. Please try again shortly.";
     fb_long := "धर्मो रक्षति रक्षितः ✨ I apologize, but I'm currently experiencing technical difficulties. As Lord Krishna says in the Bhagavad Gita, patience leads to perfection. Please try again in a moment, or ask another question." |}.

Definition fallback_knowledge : fallback :=
  {| fb_short := "विद्या ददाति विनयम् 📚 Namaste! I'm having a brief technical issue. Please try again shortly.";
     fb_long := "विद्या ददाति विनयम् 📚 I apologize, but I'm currently experiencing technical difficulties. The ancient texts teach us that obstacles are opportunities for growth. Please try again in a moment, or ask another question." |}.

Definition fallback_characters : fallback :=
  {| fb_short := "हरे कृष्ण हरे राम 💫 Namaste! I'm having a brief technical issue. Please try again shortly.";
     fb_long := "हरे कृष्ण हरे राम 💫 I apologize, but I'm currently experiencing technical difficulties. As devotees say, 'कृष्ण कृपा करेंगे' (Krishna will show his grace). Please try again in a moment, or ask another question." |}.

Definition fallback_default : fallback :=
  {| fb_short := "जय श्री कृष्ण 🙏 Namaste! I'm having a brief technical issue. Please try again shortly.";
     fb_long := "जय श्री कृष्ण 🙏 I apologize, but I'm currently experiencing technical difficulties. Please try again in a moment, or ask another question. Om Shanti." |}.

Definition category_fallbacks : list (string * fallback) :=
  [("vedas", fallback_vedas);
   ("puranas", fallback_puranas);
   ("epics", fallback_epics);
   ("knowledge", fallback_knowledge);
   ("characters", fallback_characters)].


(** ** Prompt builder ([build_system_prompt]) *)

(** [category_personalities.get(category, default)]. *)
Definition personality_for (category : string) : personality :=
  match dict_get category category_personalities with
  | Some p => p
  | None => personality_default
  end.

(** The f-string [base_prompt] of [build_system_prompt]. *)
Definition base_prompt (p : personality) : string :=
  "You are " +:+ p_name p +:+ ", " +:+ p_persona p +:+
  lines [
    "";
    "";
    "Keep your responses informative, reverential, and accessible. Include relevant Sanskrit terms where appropriate (with translations). ";
    "If asked about controversial topics, provide balanced, scholarly perspectives while respecting Hindu traditions.";
    "";
    "If you don't know the answer, acknowledge that and suggest related topics you can discuss instead of fabricating information.";
    "";
    ""] +:+
  p_quote_style p +:+
  lines [
    "";
    "";
    "Begin your response with "] +:+ dq +:+ p_greeting p +:+ dq +:+
  " and include at least one appropriate Sanskrit quote in each detailed response.".

(** The length instruction appended for the query type. *)
Definition length_instruction (p : personality) (is_short_query : bool) : string :=
  if is_short_query
  then nl +:+ nl +:+
       "The user has sent a simple greeting or short question. Respond with a brief, warm, and friendly response. Keep it under 2-3 sentences. Still begin with '" +:+
       p_greeting p +:+
       "'. Maintain the spiritual and reverential tone appropriate for Hindu traditions."
  else nl +:+ nl +:+
       "The user has asked a more complex or in-depth question. Provide a comprehensive and detailed response, showing the depth of your knowledge. Include multiple paragraphs with rich details, explanations, and relevant examples. Structure your response with clear sections when appropriate.".

(** [find_best_topic_match]: the alias table, then the function's own
    guidance table.  [None] is Python's [None].  The code after the final
    [return None] of the source is unreachable and is not modelled. *)
Definition canonical_topic_of (base_topic full_topic : string) : option string :=
  if dict_mem base_topic topic_mapping then dict_get base_topic topic_mapping
  else if dict_mem full_topic topic_mapping then dict_get full_topic topic_mapping
  else None.

Definition find_best_topic_match (category base_topic full_topic : string)
  : option string :=
  match canonical_topic_of base_topic full_topic with
  | Some canonical_topic =>
      if truthy canonical_topic then
        let lookup_key := category +:+ ":" +:+ canonical_topic in
        match dict_get lookup_key best_match_guidance with
        | Some g =>
            Some ("SPECIALIZED GUIDANCE FOR THIS TOPIC (" +:+ canonical_topic +:+ "):" +:+ nl +:+ g)
        | None => None
        end
      else None
  | None => None
  end.

(** [topic.lower().replace(" ", "_").replace("-", "_")]. *)
Definition normalize_topic (topic : string) : string :=
  replace_char "-"%char "_"%char (replace_char " "%char "_"%char (lower topic)).

Definition base_topic_of (normalized_topic : string) : string :=
  if contains "_general" normalized_topic
  then replace "_general" "" normalized_topic
  else normalized_topic.

(** The loop "Look for partial matches" over [topic_guidance.items()];
    [key.split(':')[1]] raises [IndexError] on a key without a colon. *)
Fixpoint partial_match (normalized_topic : string) (items : list (string * string))
  : result string :=
  match items with
  | [] => Ok ""
  | (key, guidance) :: rest =>
      match split_colon key !! 1%nat with
      | None => Raise IndexError
      | Some topic_part =>
          if contains topic_part normalized_topic || contains normalized_topic topic_part
          then Ok ("RELATED TOPIC GUIDANCE:" +:+ nl +:+ guidance)
          else partial_match normalized_topic rest
      end
  end.

Definition get_topic_specific_guidance (category topic : string) : result string :=
  let normalized_topic := normalize_topic topic in
  let base_topic := base_topic_of normalized_topic in
  match find_best_topic_match category base_topic normalized_topic with
  | Some best_match => Ok best_match
  | None =>
      let lookup_key := category +:+ ":" +:+ normalized_topic in
      match dict_get lookup_key topic_guidance with
      | Some g => Ok ("SPECIALIZED GUIDANCE FOR THIS SPECIFIC TOPIC:" +:+ nl +:+ g)
      | None => partial_match normalized_topic topic_guidance
      end
  end.

Definition build_system_prompt (category topic : string) (is_short_query : bool)
  : result string :=
  let personality := personality_for category in
  let base := base_prompt personality +:+ length_instruction personality is_short_query in
  bind (get_topic_specific_guidance category topic) (fun topic_guidance =>
  Ok (if truthy topic_guidance then base +:+ nl +:+ nl +:+ topic_guidance else base)).

(** ** Analytics counters ([analytics.py]) *)

Module Analytics.

Record response_time_entry : Type :=
  { rt_timestamp : Z; rt_category : string; rt_topic : string;
    rt_model : string; rt_response_time : Q }.

(** [ANALYTICS_STORE]. *)
Record store : Type :=
  { response_times : list response_time_entry;
    requests_per_category : gmap string nat;
    requests_per_topic : gmap string nat;
    errors : gmap string nat;
    total_requests : nat;
    successful_requests : nat }.

Definition initial : store :=
  {| response_times := [];
     requests_per_category := ∅;
     requests_per_topic := ∅;
     errors := ∅;
     total_requests := 0;
     successful_requests := 0 |}.

(** [d[k] = d.get(k, 0) + 1]. *)
Definition bump (k : string) (d : gmap string nat) : gmap string nat :=
  <[k := default 0 (d !! k) + 1]> d.

(** [now] is the reading of [datetime.utcnow()] (microseconds). *)
Definition track_response_time (now : Z) (category topic model : string)
    (response_time : Q) (s : store) : store :=
  let topic_key := category +:+ ":" +:+ topic in
  {| response_times :=
       response_times s ++
       [{| rt_timestamp := now; rt_category := category; rt_topic := topic;
           rt_model := model; rt_response_time := response_time |}];
     requests_per_category := bump category (requests_per_category s);
     requests_per_topic := bump topic_key (requests_per_topic s);
     errors := errors s;
     total_requests := total_requests s + 1;
     successful_requests := successful_requests s + 1 |}.

(** [f"{error_type}"]: [None] is Python's [None]. *)
Definition error_key_of (error_type : option string) : string :=
  match error_type with
  | Some s => s
  | None => "None"
  end.

Definition track_error (category topic : string) (error_type : option string)
    (error_message : string) (s : store) : store :=
  let error_key := error_key_of error_type in
  {| response_times := response_times s;
     requests_per_category := requests_per_category s;
     requests_per_topic := requests_per_topic s;
     errors := bump error_key (errors s);
     total_requests := total_requests s + 1;
     successful_requests := successful_requests s |}.

(** The tracking calls a process can make, and their replay. *)
Inductive call : Type :=
| TrackResponseTime (now : Z) (category topic model : string) (response_time : Q)
| TrackError (category topic : string) (error_type : option string)
             (error_message : string).

Definition step (s : store) (c : call) : store :=
  match c with
  | TrackResponseTime now category topic model rt =>
      track_response_time now category topic model rt s
  | TrackError category topic error_type msg =>
      track_error category topic error_type msg s
  end.

Definition run (calls : list call) : store := fold_left step calls initial.

(** Sum of all error counts. *)
Definition error_total (s : store) : nat :=
  map_fold (fun _ n acc => n + acc) 0 (errors s).

End Analytics.

(** ** Query classifier ([analyze_content]) and the parameter table *)

Definition known_categories : list string :=
  ["vedas"; "puranas"; "epics"; "knowledge"; "characters"].

(** The loop "for cat in [...]: if cat in lowered: ...; break". *)
Fixpoint first_category_in (cats : list string) (lowered : string) : string :=
  match cats with
  | [] => "general"
  | cat :: rest => if contains cat lowered then cat else first_category_in rest lowered
  end.

Definition extract_category (system_text : string) : string :=
  first_category_in known_categories (lower system_text).

(** [re.search(r'focusing specifically on (\w+)', s)], group 1; word
    characters are the ASCII ones. *)
Definition is_word_char (c : ascii) : bool :=
  let n := N_of_ascii c in
  (((48 <=? n) && (n <=? 57)) || ((65 <=? n) && (n <=? 90)) ||
   ((97 <=? n) && (n <=? 122)) || (n =? 95))%N.

Fixpoint take_word (s : string) : string :=
  match s with
  | EmptyString => EmptyString
  | String c r => if is_word_char c then String c (take_word r) else EmptyString
  end.

Fixpoint drop_chars (n : nat) (s : string) : string :=
  match n, s with
  | S k, String _ r => drop_chars k r
  | _, _ => s
  end.

Definition topic_marker : string := "focusing specifically on ".

Fixpoint search_topic (s : string) : option string :=
  let here :=
    if String.prefix topic_marker s
    then take_word (drop_chars (String.length topic_marker) s)
    else EmptyString in
  if truthy here then Some here
  else match s with
       | EmptyString => None
       | String _ r => search_topic r
       end.

Definition extract_topic (system_text : string) : string :=
  match search_topic system_text with
  | Some t => t
  | None => "general"
  end.

(** The non-empty pieces of [re.split(r'[.!?]', text)]. *)
Definition sentences (text : string) : list string :=
  List.filter truthy (re_split_sentences text).

Definition sentence_words (text : string) : nat :=
  list_sum (map (fun s => length (split s)) (sentences text)).

(** [sum(...) / max(1, len(...))]; the quotient of two small integers is
    compared with 15 and 8 only, where the float and the rational agree. *)
Definition avg_sentence_length (text : string) : Q :=
  Z.of_nat (sentence_words text) # Pos.of_nat (Nat.max 1 (length (sentences text))).

Definition Qgtb (x y : Q) : bool := negb (Qle_bool x y).

Definition sentence_score (avg : Q) : nat :=
  if Qgtb avg (15 # 1) then 2
  else if Qgtb avg (8 # 1) then 1
  else 0.

(** The loop over [complex_indicators], with its [break]. *)
Fixpoint keyword_loop (terms : list string) (text_lower system_lower : string)
    (complexity_score : nat) : nat :=
  match terms with
  | [] => complexity_score
  | term :: rest =>
      if contains term text_lower || contains term system_lower then
        let complexity_score := complexity_score + 1 in
        if 3 <=? complexity_score then complexity_score
        else keyword_loop rest text_lower system_lower complexity_score
      else keyword_loop rest text_lower system_lower complexity_score
  end.

Definition word_count_of (text : string) : nat := length (split text).

Record content_analysis : Type :=
  { ca_category : string;
    ca_topic : string;
    ca_complexity : nat;
    ca_has_questions : bool;
    ca_is_multi_question : bool;
    ca_word_count : nat;
    ca_avg_sentence_length : Q }.

Definition analyze_content (text system_text : string) : content_analysis :=
  let extracted_category := extract_category system_text in
  let extracted_topic := extract_topic system_text in
  let avg := avg_sentence_length text in
  let complexity_score := sentence_score avg in
  let complexity_score :=
    keyword_loop complex_indicators (lower text) (lower system_text) complexity_score in
  let word_count := word_count_of text in
  let complexity_score :=
    if 30 <? word_count then complexity_score + 1 else complexity_score in
  let query_complexity := Nat.min 5 (complexity_score + 1) in
  let question_count := count_char "?"%char text in
  {| ca_category := extracted_category;
     ca_topic := extracted_topic;
     ca_complexity := query_complexity;
     ca_has_questions := 0 <? question_count;
     ca_is_multi_question := 1 <? question_count;
     ca_word_count := word_count;
     ca_avg_sentence_length := avg |}.

(** The generation parameters chosen from the analysis. Decimal literals
    of the source are the corresponding rationals. *)
Record params : Type :=
  { model : string;
    max_tokens : Z;
    temperature : Q;
    top_p : Q;
    max_retries : nat;
    backoff_factor : Q;
    timeout : Z }.

Definition select_params (ca : content_analysis) (is_short_query : bool) : params :=
  if is_short_query then
    {| model := "mistral-small-latest"; max_tokens := 250;
       temperature := 67 # 100; top_p := 82 # 100;
       max_retries := 2; backoff_factor := 3 # 2; timeout := 15 |}
  else
    let complexity := ca_complexity ca in
    let category := ca_category ca in
    let is_multi_question := ca_is_multi_question ca in
    if ((4 <=? complexity) && list_mem category ["vedas"; "knowledge"]) || is_multi_question then
      {| model := "mistral-large-latest"; max_tokens := 1500;
         temperature := 73 # 100; top_p := 91 # 100;
         max_retries := 3; backoff_factor := 2 # 1; timeout := 35 |}
    else if (3 <=? complexity) || list_mem category ["vedas"; "knowledge"] then
      {| model := "mistral-medium-latest"; max_tokens := 1200;
         temperature := 70 # 100; top_p := 88 # 100;
         max_retries := 3; backoff_factor := 7 # 4; timeout := 30 |}
    else
      {| model := "mistral-small-latest"; max_tokens := 800;
         temperature := 68 # 100; top_p := 85 # 100;
         max_retries := 2; backoff_factor := 3 # 2; timeout := 25 |}.

(** ** Provider client ([generate_mistral_response]) *)

(** What [response.headers.get('Retry-After', ...)] gives to [int]: no
    header, a value [int] reads as [n], or a value [int] rejects. *)
Inductive retry_after : Type :=
| RetryAfterAbsent
| RetryAfterInt (n : Z)
| RetryAfterInvalid.

(** What [response.json()] and the extraction of
    [result["choices"][0]["message"]["content"]] and [result["usage"]] give:
    the content (with the usage object when present), or an exception. *)
Inductive body : Type :=
| BodyContent (content : string) (usage : option (list (string * Z)))
| BodyRaises (e : exn).

Record response : Type :=
  { status_code : Z; retry_after_header : retry_after; response_body : body }.

(** One call of [requests.post]. *)
Inductive post_result : Type :=
| PostRaises (e : exn)
| PostReturns (r : response).

(** Observable effects of the client, in order. *)
Inductive event : Type :=
| EvSleep (seconds : Q)
| EvPost (attempt : nat).

Definition dict : Type := list (string * pyval).

(** [time.sleep]: a negative duration raises [ValueError].  (A duration of
    either sign beyond the range of a C timestamp, 9223372036 seconds, raises
    [OverflowError] in the interpreter; this is not modelled.) *)
Definition sleep (seconds : Q) (tr : list event) : result (list event) :=
  if Qle_bool 0 seconds then Ok (tr ++ [EvSleep seconds]) else Raise ValueError.

(** [int(x)] of a float: truncation towards zero. *)
Definition int_of_float (x : Q) : Z := Z.quot (Qnum x) (Zpos (Qden x)).

(** [backoff_factor ** retry_count]. *)
Definition backoff_time (p : params) (retry_count : nat) : Q :=
  (backoff_factor p ^ Z.of_nat retry_count)%Q.

(** [int(response.headers.get('Retry-After', backoff_factor ** retry_count))]. *)
Definition retry_after_seconds (p : params) (retry_count : nat) (r : response)
  : result Z :=
  match retry_after_header r with
  | RetryAfterAbsent => Ok (int_of_float (backoff_time p retry_count))
  | RetryAfterInt n => Ok n
  | RetryAfterInvalid => Raise ValueError
  end.

(** How one pass through the [try] block ends. *)
Inductive try_exit : Type :=
| TryReturn (content : string) (usage : option (list (string * Z)))
| TryRateLimited
| TryRaise (e : exn).

Definition try_body (provider : nat -> post_result) (p : params) (retry_count : nat)
    (tr : list event) : try_exit * list event :=
  match (if 0 <? retry_count then sleep (backoff_time p retry_count) tr else Ok tr) with
  | Raise e => (TryRaise e, tr)
  | Ok tr =>
      let tr := tr ++ [EvPost retry_count] in
      match provider retry_count with
      | PostRaises e => (TryRaise e, tr)
      | PostReturns response =>
          if (status_code response =? 429)%Z then
            match retry_after_seconds p retry_count response with
            | Raise e => (TryRaise e, tr)
            | Ok retry_after =>
                match sleep (inject_Z retry_after) tr with
                | Raise e => (TryRaise e, tr)
                | Ok tr => (TryRateLimited, tr)
                end
            end
          else if ((400 <=? status_code response) && (status_code response <? 600))%Z then
            (* response.raise_for_status() *)
            (TryRaise (RequestException (Some (status_code response))), tr)
          else
            match response_body response with
            | BodyContent content usage => (TryReturn content usage, tr)
            | BodyRaises e => (TryRaise e, tr)
            end
      end
  end.

(** How the [while] loop is left. *)
Inductive loop_exit : Type :=
| LoopReturn (content : string) (usage : option (list (string * Z))) (tr : list event)
| LoopRaise (e : exn) (tr : list event)
| LoopEnd (retry_count : nat) (last_error : option string) (tr : list event).

(** The loop "while retry_count < max_retries", by recursion on
    [remaining = max_retries - retry_count]; the [except] clauses are the
    match on the exception. *)
Fixpoint retry_loop (provider : nat -> post_result) (p : params) (remaining : nat)
    (retry_count : nat) (last_error : option string) (tr : list event) : loop_exit :=
  match remaining with
  | O => LoopEnd retry_count last_error tr
  | S remaining =>
      match try_body provider p retry_count tr with
      | (TryReturn content usage, tr) => LoopReturn content usage tr
      | (TryRateLimited, tr) =>
          retry_loop provider p remaining (retry_count + 1) last_error tr
      | (TryRaise Timeout, tr) =>
          retry_loop provider p remaining (retry_count + 1) (Some "timeout") tr
      | (TryRaise ConnectionError, tr) =>
          retry_loop provider p remaining (retry_count + 1) (Some "connection") tr
      | (TryRaise (RequestException (Some status)), tr) =>
          if ((500 <=? status) || (status =? 429))%Z
          then retry_loop provider p remaining (retry_count + 1)
                 (Some ("http_" +:+ pretty status)) tr
          else LoopEnd retry_count (Some "api_error") tr
      | (TryRaise (RequestException None), tr) =>
          LoopEnd retry_count (Some "api_error") tr
      | (TryRaise e, tr) => LoopRaise e tr
      end
  end.

Definition fallbacks_for (current_category : string) : fallback :=
  match dict_get current_category category_fallbacks with
  | Some f => f
  | None => fallback_default
  end.

Definition pyval_of_error (last_error : option string) : pyval :=
  match last_error with
  | Some s => VStr s
  | None => VNone
  end.

Record mistral_outcome : Type :=
  { mo_result : result dict; mo_trace : list event; mo_store : Analytics.store }.

Definition generate_mistral_response (provider : nat -> post_result)
    (system_prompt message : string) (is_short_query : bool)
    (store : Analytics.store) : mistral_outcome :=
  let content_analysis := analyze_content message system_prompt in
  let p := select_params content_analysis is_short_query in
  match retry_loop provider p (max_retries p) 0 None [] with
  | LoopReturn content usage tr =>
      {| mo_result :=
           Ok [("response", VStr content);
               ("model", VStr (model p));
               ("complexity_score", VInt (Z.of_nat (ca_complexity content_analysis)));
               ("token_usage", VUsage (default [] usage))];
         mo_trace := tr;
         mo_store := store |}
  | LoopRaise e tr =>
      {| mo_result := Raise e; mo_trace := tr; mo_store := store |}
  | LoopEnd retry_count last_error tr =>
      let current_category := extract_category system_prompt in
      let fallbacks := fallbacks_for current_category in
      let fallback_response :=
        if is_short_query then fb_short fallbacks else fb_long fallbacks in
      let store :=
        Analytics.track_error (ca_category content_analysis) (ca_topic content_analysis)
          last_error ("Failed after " +:+ pretty retry_count +:+ " attempts") store in
      {| mo_result :=
           Ok [("response", VStr fallback_response);
               ("error", pyval_of_error last_error);
               ("model", VStr (model p));
               ("complexity_score", VInt (Z.of_nat (ca_complexity content_analysis)))];
         mo_trace := tr;
         mo_store := store |}
  end.

(** ** Response cache and [generate_chat_response] *)

(** A cache entry [{'response': ..., 'expiry': ...}]; a [datetime] is its
    number of microseconds. *)
Record cache_entry : Type := { ce_response : pyval; ce_expiry : Z }.

Definition CACHE_TTL : Z := 3600.
Definition CACHE_MAX_SIZE : nat := 1000.

(** [timedelta(seconds=s)] in microseconds. *)
Definition timedelta_seconds (s : Z) : Z := s * 1000000.

(** [del d[k]]. *)
Fixpoint dict_del {V : Type} (k : string) (d : list (string * V)) : list (string * V) :=
  match d with
  | [] => []
  | (k', v) :: d' => if String.eqb k' k then d' else (k', v) :: dict_del k d'
  end.

(** [dict(items)]. *)
Definition dict_of_items {V : Type} (items : list (string * V)) : list (string * V) :=
  fold_left (fun d kv => dict_set (fst kv) (snd kv) d) items [].

(** [current_time > cache_data['expiry']]. *)
Definition expired_at (current_time : Z) (kv : string * cache_entry) : bool :=
  (ce_expiry (snd kv) <? current_time)%Z.

(** [sorted(items, key=expiry, reverse=True)]: Python's sort is stable, also
    with [reverse=True], so the result is the one of this stable insertion
    sort into descending order (an item goes before the items, later in the
    input, whose expiry is not greater). *)
Fixpoint insert_desc (x : string * cache_entry) (l : list (string * cache_entry))
  : list (string * cache_entry) :=
  match l with
  | [] => [x]
  | y :: ys =>
      if (ce_expiry (snd y) <=? ce_expiry (snd x))%Z then x :: y :: ys
      else y :: insert_desc x ys
  end.

Definition sorted_newest_first (l : list (string * cache_entry))
  : list (string * cache_entry) :=
  foldr insert_desc [] l.

Definition clean_expired_cache_entries (current_time : Z)
    (cache : list (string * cache_entry)) : list (string * cache_entry) :=
  let expired_keys := keys (List.filter (expired_at current_time) cache) in
  let cache := fold_left (fun d key => dict_del key d) expired_keys cache in
  if CACHE_MAX_SIZE <? length cache then
    let sorted_cache := sorted_newest_first cache in
    dict_of_items (take CACHE_MAX_SIZE sorted_cache)
  else cache.

(** What one call of [generate_chat_response] reads from outside: the
    process's string hash, whether [MISTRAL_API_KEY] is set, the answer of
    the provider to the n-th request of the call, and the two readings of
    [datetime.utcnow()] (at the cache check and at the cache write). *)
Record environment : Type :=
  { env_hash : string -> Z;
    env_mistral_api_available : bool;
    env_provider : nat -> post_result;
    env_now_lookup : Z;
    env_now_store : Z }.

Record state : Type :=
  { RESPONSE_CACHE : list (string * cache_entry);
    ANALYTICS_STORE : Analytics.store }.

Record chat_outcome : Type :=
  { co_result : result dict; co_state : state; co_trace : list event }.

(** [f"{category}:{topic}:{hash(message)}"]. *)
Definition cache_key_of (hash : string -> Z) (category topic message : string) : string :=
  category +:+ ":" +:+ topic +:+ ":" +:+ pretty (hash message).

(** The cache check at the head of [generate_chat_response]: the cached
    response when the key is present and [utcnow() < expiry]. *)
Definition cache_lookup (now : Z) (cache_key : string)
    (cache : list (string * cache_entry)) : option pyval :=
  match dict_get cache_key cache with
  | Some cached_data =>
      if (now <? ce_expiry cached_data)%Z then Some (ce_response cached_data) else None
  | None => None
  end.

(** The write "Cache the successful response". *)
Definition cache_store (now : Z) (cache_key : string) (response_data : dict)
    (cache : list (string * cache_entry)) : list (string * cache_entry) :=
  match response_data, dict_get "response" response_data with
  | _ :: _, Some r =>
      dict_set cache_key
        {| ce_response := r; ce_expiry := now + timedelta_seconds CACHE_TTL |} cache
  | _, _ => cache
  end.

Definition is_short_query_of (message : string) : bool :=
  let cleaned_message := strip (lower message) in
  list_mem cleaned_message simple_greetings
  || (endswith_char "?"%char cleaned_message && (length (split cleaned_message) <=? 3))
  || (length (split cleaned_message) <=? 2).

(** The body of [generate_chat_response] after the cache check: everything
    from "Determine if this is a simple greeting" on. *)
Definition generate_fresh_response (env : environment) (st : state)
    (cache_key message category topic : string) : chat_outcome :=
  let is_short_query := is_short_query_of message in
  match build_system_prompt category topic is_short_query with
  | Raise e => {| co_result := Raise e; co_state := st; co_trace := [] |}
  | Ok system_prompt =>
      if env_mistral_api_available env then
        let mo :=
          generate_mistral_response (env_provider env) system_prompt message
            is_short_query (ANALYTICS_STORE st) in
        match mo_result mo with
        | Ok response_data =>
            {| co_result := Ok response_data;
               co_state :=
                 {| RESPONSE_CACHE :=
                      cache_store (env_now_store env) cache_key response_data
                        (RESPONSE_CACHE st);
                    ANALYTICS_STORE := mo_store mo |};
               co_trace := mo_trace mo |}
        | Raise e =>
            (* except Exception *)
            {| co_result :=
                 Ok [("response",
                      VStr "An error occurred while generating a response. Please try again later.")];
               co_state :=
                 {| RESPONSE_CACHE := RESPONSE_CACHE st;
                    ANALYTICS_STORE := mo_store mo |};
               co_trace := mo_trace mo |}
        end
      else
        {| co_result :=
             Ok [("response",
                  VStr "Mistral AI API key is not configured. Please set the MISTRAL_API_KEY environment variable.")];
           co_state := st;
           co_trace := [] |}
  end.

(** [provider] is the parameter the source keeps "for compatibility but not
    used".  The message, the category and the topic are [str], the documented
    types; [generate_chat_response_any] below takes other messages. *)
Definition generate_chat_response (env : environment) (st : state)
    (message category topic : string) (provider : option string) : chat_outcome :=
  let cache_key := cache_key_of (env_hash env) category topic message in
  match cache_lookup (env_now_lookup env) cache_key (RESPONSE_CACHE st) with
  | Some cached =>
      {| co_result := Ok [("response", cached)]; co_state := st; co_trace := [] |}
  | None => generate_fresh_response env st cache_key message category topic
  end.

(** ** The catalogue of categories and topics ([categories.py]) *)

Module Categories.

Record topic : Type := { t_id : string; t_name : string }.

(** A subcategory dict; ['topics'] may be missing. *)
Record subcategory : Type :=
  { sc_id : string; sc_name : string; sc_topics : option (list topic) }.

(** A category dict; ['subcategories'] and ['topics'] may be missing. *)
Record category : Type :=
  { c_id : string; c_name : string;
    c_subcategories : option (list subcategory);
    c_topics : option (list topic) }.

(** An element of [get_all_topics()]; [None] is Python's [None]. *)
Record topic_entry : Type :=
  { te_id : string; te_name : string;
    te_category_id : string; te_subcategory_id : option string }.

(** The table [categories]. *)
Definition categories : list category :=
  [{| c_id := "vedas"; c_name := "Vedas";
       c_subcategories := Some
         [{| sc_id := "rigveda"; sc_name := "Rigveda";
            sc_topics := Some
              [{| t_id := "rigveda-general"; t_name := "Rigveda" |}] |};
          {| sc_id := "yajurveda"; sc_name := "Yajurveda";
            sc_topics := Some
              [{| t_id := "yajurveda-general"; t_name := "Yajurveda" |}] |};
          {| sc_id := "samaveda"; sc_name := "Samaveda";
            sc_topics := Some
              [{| t_id := "samaveda-general"; t_name := "Samaveda" |}] |};
          {| sc_id := "atharvaveda"; sc_name := "Atharvaveda";
            sc_topics := Some
              [{| t_id := "atharvaveda-general"; t_name := "Atharvaveda" |}] |}];
       c_topics := None |};
   {| c_id := "puranas"; c_name := "Puranas";
       c_subcategories := None;
       c_topics := Some
         [{| t_id := "bhagwat"; t_name := "Bhagwat Puran" |};
          {| t_id := "bhavishya"; t_name := "Bhavishya Puran" |};
          {| t_id := "brahma"; t_name := "Brahma Puran" |};
          {| t_id := "brahmand"; t_name := "Brahmand Puran" |};
          {| t_id := "garuda"; t_name := "Garuda Puran" |};
          {| t_id := "kurma"; t_name := "Kurma Puran" |};
          {| t_id := "ling"; t_name := "Ling Puran" |};
          {| t_id := "markandya"; t_name := "Markandya Puran" |};
          {| t_id := "matsya"; t_name := "Matsya Puran" |};
          {| t_id := "narad"; t_name := "Narad Puran" |};
          {| t_id := "padma"; t_name := "Padma Puran" |};
          {| t_id := "shiv"; t_name := "Shiv Puran" |};
          {| t_id := "skand"; t_name := "Skand Puran" |};
          {| t_id := "brahmvaivatra"; t_name := "BrahmVaivatra Puran" |};
          {| t_id := "vaman"; t_name := "Vaman Puran" |};
          {| t_id := "varah"; t_name := "Varah Puran" |};
          {| t_id := "vishnu"; t_name := "Vishnu Puran" |}] |};
   {| c_id := "epics"; c_name := "Epics";
       c_subcategories := None;
       c_topics := Some
         [{| t_id := "mahabharata"; t_name := "Mahabharata" |};
          {| t_id := "ramayana"; t_name := "Ramayana" |};
          {| t_id := "ramcharitmanas"; t_name := "Ramcharitmanas" |};
          {| t_id := "gita"; t_name := "Gita" |}] |};
   {| c_id := "knowledge"; c_name := "Knowledge";
       c_subcategories := None;
       c_topics := Some
         [{| t_id := "ayurveda"; t_name := "Ayurveda" |};
          {| t_id := "jyotish"; t_name := "Jyotish" |}] |};
   {| c_id := "characters"; c_name := "Characters";
       c_subcategories := Some
         [{| sc_id := "devas"; sc_name := "Devas";
            sc_topics := Some
              [{| t_id := "vishnu"; t_name := "Lord Vishnu" |};
               {| t_id := "shiva"; t_name := "Lord Shiva" |};
               {| t_id := "brahma"; t_name := "Lord Brahma" |};
               {| t_id := "indra"; t_name := "Lord Indra" |};
               {| t_id := "surya"; t_name := "Lord Surya" |}] |};
          {| sc_id := "avatars"; sc_name := "Avatars";
            sc_topics := Some
              [{| t_id := "rama"; t_name := "Lord Rama" |};
               {| t_id := "krishna"; t_name := "Lord Krishna" |};
               {| t_id := "narasimha"; t_name := "Lord Narasimha" |};
               {| t_id := "vamana"; t_name := "Lord Vamana" |};
               {| t_id := "parashurama"; t_name := "Lord Parashurama" |}] |};
          {| sc_id := "sages"; sc_name := "Sages";
            sc_topics := Some
              [{| t_id := "vashishtha"; t_name := "Sage Vashishtha" |};
               {| t_id := "vishwamitra"; t_name := "Sage Vishwamitra" |};
               {| t_id := "narada"; t_name := "Sage Narada" |};
               {| t_id := "vyasa"; t_name := "Sage Vyasa" |};
               {| t_id := "valmiki"; t_name := "Sage Valmiki" |}] |}];
       c_topics := None |}].

Definition get_all_categories : list category := categories.

(** The loop "for category in categories: if category['id'] == category_id". *)
Fixpoint find_category (category_id : string) (l : list category) : option category :=
  match l with
  | [] => None
  | c :: rest =>
      if String.eqb (c_id c) category_id then Some c else find_category category_id rest
  end.

Definition get_category_by_id (category_id : string) : option category :=
  find_category category_id categories.

Fixpoint find_subcategory (subcategory_id : string) (l : list subcategory)
  : option subcategory :=
  match l with
  | [] => None
  | sc :: rest =>
      if String.eqb (sc_id sc) subcategory_id then Some sc
      else find_subcategory subcategory_id rest
  end.

Definition get_subcategory_by_id (category_id subcategory_id : string)
  : option subcategory :=
  match get_category_by_id category_id with
  | None => None
  | Some c =>
      match c_subcategories c with
      | None => None
      | Some subcategories => find_subcategory subcategory_id subcategories
      end
  end.

Definition entry_of (category_id : string) (subcategory_id : option string) (t : topic)
  : topic_entry :=
  {| te_id := t_id t; te_name := t_name t;
     te_category_id := category_id; te_subcategory_id := subcategory_id |}.

(** The topics one category contributes: its own, then those of its
    subcategories. *)
Definition topics_of_subcategory (category_id : string) (sc : subcategory)
  : list topic_entry :=
  match sc_topics sc with
  | Some ts => map (entry_of category_id (Some (sc_id sc))) ts
  | None => []
  end.

Definition topics_of_category (c : category) : list topic_entry :=
  (match c_topics c with
   | Some ts => map (entry_of (c_id c) None) ts
   | None => []
   end)
  ++
  (match c_subcategories c with
   | Some subcategories => flat_map (topics_of_subcategory (c_id c)) subcategories
   | None => []
   end).

Definition get_all_topics : list topic_entry := flat_map topics_of_category categories.

(** An optional argument counts when it is a non-empty string. *)
Definition given (arg : option string) : bool :=
  match arg with
  | Some s => truthy s
  | None => false
  end.

Definition same_option (a b : option string) : bool :=
  match a, b with
  | Some x, Some y => String.eqb x y
  | None, None => true
  | _, _ => false
  end.

(** The loop of [get_topic_info] over [all_topics], with its two
    [continue]s. *)
Fixpoint topic_info_in (all_topics : list topic_entry) (topic_id : string)
    (category_id subcategory_id : option string) : option topic_entry :=
  match all_topics with
  | [] => None
  | topic :: rest =>
      if String.eqb (te_id topic) topic_id then
        if given category_id
           && negb (same_option (Some (te_category_id topic)) category_id)
        then topic_info_in rest topic_id category_id subcategory_id
        else if given subcategory_id
                && negb (same_option (te_subcategory_id topic) subcategory_id)
        then topic_info_in rest topic_id category_id subcategory_id
        else Some topic
      else topic_info_in rest topic_id category_id subcategory_id
  end.

Definition get_topic_info (topic_id : string) (category_id subcategory_id : option string)
  : option topic_entry :=
  topic_info_in get_all_topics topic_id category_id subcategory_id.

Definition get_category_name (category_id : string) : string :=
  match get_category_by_id category_id with
  | Some c => c_name c
  | None => "Unknown Category"
  end.

Definition get_subcategory_name (category_id subcategory_id : string) : string :=
  match get_subcategory_by_id category_id subcategory_id with
  | Some sc => sc_name sc
  | None => "Unknown Subcategory"
  end.

Fixpoint topic_name_in (all_topics : list topic_entry) (topic_id : string) : string :=
  match all_topics with
  | [] => "Unknown Topic"
  | topic :: rest =>
      if String.eqb (te_id topic) topic_id then te_name topic
      else topic_name_in rest topic_id
  end.

Definition get_topic_name (topic_id : string) : string :=
  topic_name_in get_all_topics topic_id.

End Categories.

(** ** The prompt builder and the classifier over any [str] implementation *)

(** [str.lower], [str.split] and the class [\w] of a regular expression
    depend on the Unicode tables of the interpreter; [lower], [split] and
    [take_word] above are what they do on ASCII text.  This module holds
    [build_system_prompt] and [analyze_content] once more, translated from
    the same lines, with these three operations as a parameter: what is
    proved of them for every [methods] holds of the program on every [str],
    whatever its characters.  The other string operations of these functions
    (replacing or searching ASCII text, splitting at [':'] or at ['.!?'])
    act on the UTF-8 bytes as they act on the characters. *)
Module AnyStr.

Record methods : Type :=
  { str_lower : string -> string;
    str_split : string -> list string;
    re_word : string -> string }.

(** The operations on ASCII text: [re_word s] is the longest prefix of [s]
    made of word characters. *)
Definition ascii : methods :=
  {| str_lower := lower; str_split := split; re_word := take_word |}.

Section Methods.

Variable M : methods.

(** [topic.lower().replace(" ", "_").replace("-", "_")]. *)
Definition normalize_topic (topic : string) : string :=
  replace_char "-"%char "_"%char (replace_char " "%char "_"%char (str_lower M topic)).

Definition get_topic_specific_guidance (category topic : string) : result string :=
  let normalized_topic := normalize_topic topic in
  let base_topic := base_topic_of normalized_topic in
  match find_best_topic_match category base_topic normalized_topic with
  | Some best_match => Ok best_match
  | None =>
      let lookup_key := category +:+ ":" +:+ normalized_topic in
      match dict_get lookup_key topic_guidance with
      | Some g => Ok ("SPECIALIZED GUIDANCE FOR THIS SPECIFIC TOPIC:" +:+ nl +:+ g)
      | None => partial_match normalized_topic topic_guidance
      end
  end.

Definition build_system_prompt (category topic : string) (is_short_query : bool)
  : result string :=
  let personality := personality_for category in
  let base := base_prompt personality +:+ length_instruction personality is_short_query in
  bind (get_topic_specific_guidance category topic) (fun topic_guidance =>
  Ok (if truthy topic_guidance then base +:+ nl +:+ nl +:+ topic_guidance else base)).

Definition extract_category (system_text : string) : string :=
  first_category_in known_categories (str_lower M system_text).

(** [re.search(r'focusing specifically on (\w+)', s)], group 1. *)
Fixpoint search_topic (s : string) : option string :=
  let here :=
    if String.prefix topic_marker s
    then re_word M (drop_chars (String.length topic_marker) s)
    else EmptyString in
  if truthy here then Some here
  else match s with
       | EmptyString => None
       | String _ r => search_topic r
       end.

Definition extract_topic (system_text : string) : string :=
  match search_topic system_text with
  | Some t => t
  | None => "general"
  end.

Definition sentence_words (text : string) : nat :=
  list_sum (map (fun s => length (str_split M s)) (sentences text)).

Definition avg_sentence_length (text : string) : Q :=
  Z.of_nat (sentence_words text) # Pos.of_nat (Nat.max 1 (length (sentences text))).

Definition word_count_of (text : string) : nat := length (str_split M text).

Definition analyze_content (text system_text : string) : content_analysis :=
  let extracted_category := extract_category system_text in
  let extracted_topic := extract_topic system_text in
  let avg := avg_sentence_length text in
  let complexity_score := sentence_score avg in
  let complexity_score :=
    keyword_loop complex_indicators (str_lower M text) (str_lower M system_text)
      complexity_score in
  let word_count := word_count_of text in
  let complexity_score :=
    if 30 <? word_count then complexity_score + 1 else complexity_score in
  let query_complexity := Nat.min 5 (complexity_score + 1) in
  let question_count := count_char "?"%char text in
  {| ca_category := extracted_category;
     ca_topic := extracted_topic;
     ca_complexity := query_complexity;
     ca_has_questions := 0 <? question_count;
     ca_is_multi_question := 1 <? question_count;
     ca_word_count := word_count;
     ca_avg_sentence_length := avg |}.

End Methods.

End AnyStr.

(** ** [generate_chat_response] on a message that need not be a [str] *)

(** The chat route passes on whatever JSON value the request holds under
    ['message'], provided it is truthy (routes.py:591).  Of the types other
    than [str], [int] is modelled. *)
Inductive argument : Type :=
| ArgStr (s : string)
| ArgInt (n : Z).

(** [hash(n)] of an [int] (CPython on a 64-bit platform): [n] reduced modulo
    [2 ** 61 - 1] with the sign of [n], and -2 in place of -1. *)
Definition hash_int (n : Z) : Z :=
  let h := Z.rem n (2 ^ 61 - 1) in
  if (h =? -1)%Z then (-2)%Z else h.

(** On an [int] the cache key is built and the cache checked as for a [str]
    (lines 82-92); after a miss, [message.lower()] (line 102, before the
    [try]) raises [AttributeError]. *)
Definition generate_chat_response_any (env : environment) (st : state)
    (message : argument) (category topic : string) (provider : option string)
  : chat_outcome :=
  match message with
  | ArgStr s => generate_chat_response env st s category topic provider
  | ArgInt n =>
      let cache_key := category +:+ ":" +:+ topic +:+ ":" +:+ pretty (hash_int n) in
      match cache_lookup (env_now_lookup env) cache_key (RESPONSE_CACHE st) with
      | Some cached =>
          {| co_result := Ok [("response", cached)]; co_state := st; co_trace := [] |}
      | None =>
          {| co_result := Raise (OtherException "AttributeError");
             co_state := st; co_trace := [] |}
      end
  end.

(** ** The chat route ([routes.py], [chat]): the [try] block *)

(** [type(e).__name__]; the [HTTPError] of [raise_for_status] is the
    [RequestException] that carries a response. *)
Definition exn_name (e : exn) : string :=
  match e with
  | IndexError => "IndexError"
  | ValueError => "ValueError"
  | Timeout => "Timeout"
  | ConnectionError => "ConnectionError"
  | RequestException (Some _) => "HTTPError"
  | RequestException None => "RequestException"
  | OtherException name => name
  end.

(** The model name the route records (lines 660-663). *)
Definition route_greetings : list string :=
  ["hi"; "hello"; "hey"; "namaste"; "ram ram"; "jai shree krishna"; "jai shree ram"].

Definition route_model (message : string) : string :=
  let is_short_query :=
    (length (split message) <=? 3) || list_mem (strip (lower message)) route_greetings in
  if is_short_query then "mistral-small-latest" else "mistral-large-latest".

(** How the [try] block goes on after the tracking call (lines 666-731: the
    database writes and the building of the answer, which touch neither the
    cache nor the analytics store): it completes, or an exception of class
    [error_type] with text [error_message] is raised. *)
Inductive rest_of_try : Type :=
| RestCompletes
| RestRaises (error_type error_message : string).

(** The [try] block of [chat] with its [except] clause (lines 647-748), for a
    request that has passed the checks before it, as far as the cache, the
    analytics store and the requests sent go.  [tracked_at] is the clock
    reading of [track_response_time], [response_time] the time measured at
    line 652, [error_text] is [str(e)].  On an [int] message that was served
    from the cache, [message.split()] (line 660) raises [AttributeError]. *)
Definition chat_try_block (env : environment) (tracked_at : Z) (response_time : Q)
    (rest : rest_of_try) (error_text : exn -> string) (st : state)
    (message : argument) (category topic : string) (provider : option string)
  : state * list event :=
  let out := generate_chat_response_any env st message category topic provider in
  let cache := RESPONSE_CACHE (co_state out) in
  let store := ANALYTICS_STORE (co_state out) in
  let except (e : exn) : state :=
    {| RESPONSE_CACHE := cache;
       ANALYTICS_STORE :=
         Analytics.track_error category topic (Some (exn_name e)) (error_text e) store |} in
  match co_result out, message with
  | Raise e, _ => (except e, co_trace out)
  | Ok _, ArgInt _ => (except (OtherException "AttributeError"), co_trace out)
  | Ok _, ArgStr s =>
      let store :=
        Analytics.track_response_time tracked_at category topic (route_model s)
          response_time store in
      match rest with
      | RestCompletes =>
          ({| RESPONSE_CACHE := cache; ANALYTICS_STORE := store |}, co_trace out)
      | RestRaises error_type error_message =>
          ({| RESPONSE_CACHE := cache;
              ANALYTICS_STORE :=
                Analytics.track_error category topic (Some error_type) error_message
                  store |},
           co_trace out)
      end
  end.

(** * Vocabulary of the properties *)

(** The relation between the counters. *)
Definition consistent (s : Analytics.store) : Prop :=
  Analytics.successful_requests s <= Analytics.total_requests s /\
  Analytics.total_requests s = Analytics.successful_requests s + Analytics.error_total s.

(** The three ways a topic can reach an entry of the guidance tables. *)
Definition alias_match (M : AnyStr.methods) (topic : string) : bool :=
  dict_mem (base_topic_of (AnyStr.normalize_topic M topic)) topic_mapping
  || dict_mem (AnyStr.normalize_topic M topic) topic_mapping.

Definition exact_key_match (M : AnyStr.methods) (category topic : string) : bool :=
  dict_mem (category +:+ ":" +:+ AnyStr.normalize_topic M topic) topic_guidance.

Definition substring_hit (normalized_topic : string) (kv : string * string) : bool :=
  match split_colon (fst kv) !! 1%nat with
  | Some topic_part =>
      contains topic_part normalized_topic || contains normalized_topic topic_part
  | None => false
  end.

Definition substring_match (M : AnyStr.methods) (topic : string) : bool :=
  existsb (substring_hit (AnyStr.normalize_topic M topic)) topic_guidance.

Definition has_topic_part (kv : string * string) : Prop :=
  exists topic_part, split_colon (fst kv) !! 1%nat = Some topic_part.

Definition prompt_length (r : result string) : nat :=
  match r with
  | Ok s => String.length s
  | Raise _ => 0
  end.

(** Whether a term of [complex_indicators] occurs in the message or in the
    system prompt (both lower-cased), and how many terms do. *)
Definition term_present (text system_text : string) (term : string) : bool :=
  contains term (lower text) || contains term (lower system_text).

Definition keyword_hits (text system_text : string) : nat :=
  length (List.filter (term_present text system_text) complex_indicators).

(** The heuristic as the specification words it: base 1, one point each for
    an average sentence length over [sentence_threshold], a message length (in
    words) over [length_threshold], a domain keyword being present, and more
    than one question mark; capped at 5. *)
Definition spec_complexity (sentence_threshold : Q) (length_threshold : nat)
    (text system_text : string) : nat :=
  Nat.min 5
    (1
     + (if Qgtb (avg_sentence_length text) sentence_threshold then 1 else 0)
     + (if length_threshold <? word_count_of text then 1 else 0)
     + (if existsb (term_present text system_text) complex_indicators then 1 else 0)
     + (if 1 <? count_char "?"%char text then 1 else 0)).

(** Text of ASCII characters only, where [lower], [split] and [strip] are
    what [str.lower], [str.split] and [str.strip] do. *)
Definition is_ascii (s : string) : bool :=
  forallb (fun c => (N_of_ascii c <? 128)%N) (list_ascii_of_string s).

(** Every [Retry-After] value the provider sends is one [time.sleep] takes
    or rejects as negative: it lies in the range of a C timestamp, outside of
    which [sleep] is not what [time.sleep] does. *)
Definition retry_after_in_range (provider : nat -> post_result) : Prop :=
  forall n r seconds,
    provider n = PostReturns r ->
    retry_after_header r = RetryAfterInt seconds ->
    (-9223372036 <= seconds <= 9223372036)%Z.

Definition is_post (e : event) : bool :=
  match e with
  | EvPost _ => true
  | EvSleep _ => false
  end.

(** Number of requests sent. *)
Definition attempts (tr : list event) : nat := length (List.filter is_post tr).

(** Total time slept between each request and the next one. *)
Fixpoint gaps_from (started : bool) (slept : Q) (tr : list event) : list Q :=
  match tr with
  | [] => []
  | EvSleep d :: r => gaps_from started (slept + d)%Q r
  | EvPost _ :: r => (if started then [slept] else []) ++ gaps_from true 0%Q r
  end.

Definition gaps (tr : list event) : list Q := gaps_from false 0%Q tr.

(** A provider that answers every request with HTTP 429 and
    [Retry-After: 2]. *)
Definition rate_limiting_provider (bodies : nat -> body) : nat -> post_result :=
  fun n =>
    PostReturns
      {| status_code := 429; retry_after_header := RetryAfterInt 2;
         response_body := bodies n |}.

(** What the client does against it, from attempt [retry_count] on. *)
Fixpoint rate_limited_trace (p : params) (retry_count remaining : nat) : list event :=
  match remaining with
  | O => []
  | S remaining =>
      (if 0 <? retry_count then [EvSleep (backoff_time p retry_count)] else [])
      ++ [EvPost retry_count; EvSleep (inject_Z 2)]
      ++ rate_limited_trace p (retry_count + 1) remaining
  end.

(** Newest first: each entry expires no earlier than the ones after it. *)
Definition newer_or_equal (a b : string * cache_entry) : Prop :=
  (ce_expiry (snd b) <= ce_expiry (snd a))%Z.

Definition live_at (current_time : Z) (kv : string * cache_entry) : bool :=
  negb (expired_at current_time kv).

(** [ordered l]: in [l] every entry is [newer_or_equal] to all later ones. *)
Fixpoint ordered (l : list (string * cache_entry)) : Prop :=
  match l with
  | [] => True
  | x :: r => Forall (newer_or_equal x) r /\ ordered r
  end.

(** A cache of [n] entries, the [i]-th with key [i] and expiry [i]. *)
Definition numbered_cache (n : nat) : list (string * cache_entry) :=
  map (fun i => (pretty i, {| ce_response := VNone; ce_expiry := Z.of_nat i |}))
      (seq 0 n).

(** An environment whose provider answers every request with [status], and
    whose clock reads [now] both times. *)
Definition constant_env (status : Z) (b : body) (now : Z) : environment :=
  {| env_hash := fun s => Z.of_nat (String.length s);
     env_mistral_api_available := true;
     env_provider := fun _ =>
       PostReturns {| status_code := status; retry_after_header := RetryAfterAbsent;
                      response_body := b |};
     env_now_lookup := now;
     env_now_store := now |}.

Definition empty_state : state :=
  {| RESPONSE_CACHE := []; ANALYTICS_STORE := Analytics.initial |}.

(** A row of the alias table resolves when both the alias and its canonical
    topic are mapped to the canonical topic by [canonical_topic_of]. *)
Definition option_string_eqb (a b : option string) : bool :=
  match a, b with
  | Some x, Some y => String.eqb x y
  | None, None => true
  | _, _ => false
  end.

Definition resolves_to (topic canonical : string) : bool :=
  option_string_eqb
    (canonical_topic_of (base_topic_of (normalize_topic topic)) (normalize_topic topic))
    (Some canonical).

Definition alias_row_resolves (kv : string * string) : bool :=
  resolves_to (fst kv) (snd kv) && resolves_to (snd kv) (snd kv) && truthy (snd kv).

(** The trace with which a loop exit leaves. *)
Definition trace_of (x : loop_exit) : list event :=
  match x with
  | LoopReturn _ _ tr => tr
  | LoopRaise _ tr => tr
  | LoopEnd _ _ tr => tr
  end.

(** The error tag of a failed request that the client retries: a timeout,
    a connection error, or an HTTP 5xx answer. [None] for every other
    outcome. *)
Definition retry_tag (r : post_result) : option string :=
  match r with
  | PostRaises Timeout => Some "timeout"
  | PostRaises ConnectionError => Some "connection"
  | PostReturns response =>
      if ((500 <=? status_code response) && (status_code response <? 600))%Z
      then Some ("http_" +:+ pretty (status_code response))
      else None
  | PostRaises _ => None
  end.

(** Requests separated by the exponential backoff alone: before attempt
    [k > 0] the client sleeps [backoff_factor ** k]. *)
Fixpoint backoff_trace (p : params) (retry_count remaining : nat) : list event :=
  match remaining with
  | O => []
  | S remaining =>
      (if 0 <? retry_count then [EvSleep (backoff_time p retry_count)] else [])
      ++ [EvPost retry_count]
      ++ backoff_trace p (retry_count + 1) remaining
  end.

(** Equality of catalogue entries, as a test. *)
Definition entry_eqb (a b : Categories.topic_entry) : bool :=
  String.eqb (Categories.te_id a) (Categories.te_id b)
  && String.eqb (Categories.te_name a) (Categories.te_name b)
  && String.eqb (Categories.te_category_id a) (Categories.te_category_id b)
  && Categories.same_option (Categories.te_subcategory_id a) (Categories.te_subcategory_id b).

(** What the chat route checks of a category and a topic, run on a
    catalogue entry: the category is found, the topic is found under it (and
    is this very entry), and the subcategory, when there is one, is found. *)
Definition entry_round_trips (t : Categories.topic_entry) : bool :=
  match Categories.get_topic_info (Categories.te_id t)
          (Some (Categories.te_category_id t)) (Categories.te_subcategory_id t) with
  | Some t' => entry_eqb t' t
  | None => false
  end
  && match Categories.get_topic_info (Categories.te_id t)
             (Some (Categories.te_category_id t)) None with
     | Some t' => entry_eqb t' t
     | None => false
     end
  && match Categories.get_category_by_id (Categories.te_category_id t) with
     | Some c => String.eqb (Categories.c_id c) (Categories.te_category_id t)
     | None => false
     end
  && match Categories.te_subcategory_id t with
     | Some sc_id =>
         match Categories.get_subcategory_by_id (Categories.te_category_id t) sc_id with
         | Some sc => String.eqb (Categories.sc_id sc) sc_id
         | None => false
         end
     | None => true
     end.

(** Total time the client slept. *)
Fixpoint total_sleep (tr : list event) : Q :=
  match tr with
  | [] => 0
  | EvSleep d :: r => d + total_sleep r
  | EvPost _ :: r => total_sleep r
  end.

(** The backoff sleeps before the attempts [retry_count], ...,
    [retry_count + remaining - 1]; there is none before attempt 0. *)
Fixpoint backoff_sum (p : params) (retry_count remaining : nat) : Q :=
  match remaining with
  | O => 0
  | S remaining =>
      (if 0 <? retry_count then backoff_time p retry_count else 0)
      + backoff_sum p (retry_count + 1) remaining
  end.

(** The keys a tracking call counts under: its category and its topic key
    for a response time, its error key for an error. *)
Definition category_of_call (c : Analytics.call) : option string :=
  match c with
  | Analytics.TrackResponseTime _ category _ _ _ => Some category
  | Analytics.TrackError _ _ _ _ => None
  end.

Definition topic_key_of_call (c : Analytics.call) : option string :=
  match c with
  | Analytics.TrackResponseTime _ category topic _ _ => Some (category +:+ ":" +:+ topic)
  | Analytics.TrackError _ _ _ _ => None
  end.

Definition error_key_of_call (c : Analytics.call) : option string :=
  match c with
  | Analytics.TrackResponseTime _ _ _ _ _ => None
  | Analytics.TrackError _ _ error_type _ => Some (Analytics.error_key_of error_type)
  end.

(** How many of [calls] count under [key], for the key function [f]. *)
Definition calls_under (f : Analytics.call -> option string) (key : string)
    (calls : list Analytics.call) : nat :=
  length (List.filter (fun c => option_string_eqb (f c) (Some key)) calls).

(** The response times passed to [track_response_time], in call order. *)
Definition times_of (calls : list Analytics.call) : list Q :=
  flat_map (fun c => match c with
                     | Analytics.TrackResponseTime _ _ _ _ response_time => [response_time]
                     | Analytics.TrackError _ _ _ _ => []
                     end) calls.

(** Sum of the counts of a counter dict. *)
Definition sum_counts (d : gmap string nat) : nat :=
  map_fold (fun _ n acc => n + acc) 0 d.

(** * Properties *)

(** ** Injectivity of [Ok] and [Some] *)

Lemma Ok_inj {A : Type} (a b : A) : Ok a = Ok b -> a = b.
Proof. intros H. injection H as H. exact H. Qed.

Lemma Some_inj {A : Type} (a b : A) : Some a = Some b -> a = b.
Proof. intros H. injection H as H. exact H. Qed.

(** ** Analytics counters *)

Module AnalyticsFacts.
Import Analytics.

Lemma sum_counts_bump (k : string) (d : gmap string nat) :
  map_fold (fun _ n acc => n + acc) 0 (bump k d)
  = map_fold (fun _ n acc => n + acc) 0 d + 1.
Proof.
  unfold bump. destruct (d !! k) as [n|] eqn:Hk; simpl.
  - rewrite <- insert_delete_eq.
    rewrite map_fold_insert_L; [| intros; lia | apply lookup_delete_eq].
    rewrite (map_fold_delete_L _ _ k n d); [lia | intros; lia | exact Hk].
  - rewrite map_fold_insert_L; [lia | intros; lia | exact Hk].
Qed.

Lemma consistent_initial : consistent initial.
Proof.
  unfold consistent, error_total; simpl. rewrite map_fold_empty. lia.
Qed.

Lemma consistent_step (s : store) (c : call) :
  consistent s -> consistent (step s c).
Proof.
  unfold consistent, error_total. intros [Hle Heq].
  destruct c; simpl.
  - lia.
  - rewrite sum_counts_bump. lia.
Qed.

Lemma fold_step_consistent (calls : list call) (s : store) :
  consistent s -> consistent (fold_left step calls s).
Proof.
  revert s. induction calls as [|c calls IH]; intros s Hs; simpl.
  - exact Hs.
  - apply IH, consistent_step, Hs.
Qed.

(** C10. Starting from the initial analytics store, after any sequence of
    [track_response_time] and [track_error] calls [successful_requests] is
    at most [total_requests] and [total_requests] is [successful_requests]
    plus the sum of all error counts; the relation holds initially and each
    tracking operation preserves it. *)
Theorem tracking_keeps_counters_consistent :
  consistent initial /\
  (forall (s : store) (now : Z) (category topic model : string) (rt : Q),
      consistent s ->
      consistent (track_response_time now category topic model rt s)) /\
  (forall (s : store) (category topic : string) (error_type : option string)
          (msg : string),
      consistent s -> consistent (track_error category topic error_type msg s)) /\
  (forall calls : list call,
      successful_requests (run calls) <= total_requests (run calls) /\
      total_requests (run calls)
      = successful_requests (run calls) + error_total (run calls)).
Proof.
  split; [exact consistent_initial |].
  split; [intros s now category topic model rt Hs;
          exact (consistent_step s (TrackResponseTime now category topic model rt) Hs) |].
  split; [intros s category topic error_type msg Hs;
          exact (consistent_step s (TrackError category topic error_type msg) Hs) |].
  intros calls. apply (fold_step_consistent calls initial consistent_initial).
Qed.

End AnalyticsFacts.

(** ** Prompt builder *)

Lemma topic_guidance_keys_have_topic_part : Forall has_topic_part topic_guidance.
Proof.
  unfold topic_guidance.
  repeat (apply Forall_cons; split; [eexists; reflexivity |]).
  apply Forall_nil. trivial.
Qed.

Lemma dict_mem_false {V : Type} (k : string) (d : list (string * V)) :
  dict_mem k d = false -> dict_get k d = None.
Proof.
  unfold dict_mem. destruct (dict_get k d); [discriminate | reflexivity].
Qed.

Lemma partial_match_nothing (normalized_topic : string) (items : list (string * string)) :
  Forall has_topic_part items ->
  existsb (substring_hit normalized_topic) items = false ->
  partial_match normalized_topic items = Ok "".
Proof.
  induction items as [|[key guidance] items IH]; intros Hwf Hno.
  - reflexivity.
  - cbn [existsb] in Hno. apply orb_false_iff in Hno as [Hhere Hrest].
    apply Forall_cons in Hwf as [[topic_part Hpart] Hwf].
    cbn [partial_match]. unfold substring_hit in Hhere.
    cbn [fst] in Hhere, Hpart. rewrite Hpart in Hhere |- *.
    rewrite Hhere. apply IH; assumption.
Qed.

(** [partial_match] never raises on the program's table. *)
Lemma partial_match_total (normalized_topic : string) (items : list (string * string)) :
  Forall has_topic_part items ->
  exists s, partial_match normalized_topic items = Ok s.
Proof.
  induction items as [|[key guidance] items IH]; intros Hwf.
  - eexists; reflexivity.
  - apply Forall_cons in Hwf as [[topic_part Hpart] Hwf].
    cbn [partial_match]. cbn [fst] in Hpart. rewrite Hpart.
    destruct (contains topic_part normalized_topic || contains normalized_topic topic_part).
    + eexists; reflexivity.
    + apply IH, Hwf.
Qed.

Lemma get_topic_specific_guidance_total (category topic : string) :
  exists s, get_topic_specific_guidance category topic = Ok s.
Proof.
  unfold get_topic_specific_guidance.
  destruct (find_best_topic_match _ _ _); [eexists; reflexivity |].
  destruct (dict_get _ topic_guidance); [eexists; reflexivity |].
  apply partial_match_total, topic_guidance_keys_have_topic_part.
Qed.

Lemma build_system_prompt_total (category topic : string) (is_short_query : bool) :
  exists s, build_system_prompt category topic is_short_query = Ok s.
Proof.
  unfold build_system_prompt.
  destruct (get_topic_specific_guidance_total category topic) as [g ->].
  eexists; reflexivity.
Qed.

Lemma known_category_has_personality (category : string) :
  In category known_categories ->
  exists p, dict_get category category_personalities = Some p.
Proof.
  unfold known_categories. cbn [In].
  intros [<- | [<- | [<- | [<- | [<- | []]]]]]; eexists; reflexivity.
Qed.

Lemma append_assoc (a b c : string) : (a +:+ b) +:+ c = a +:+ (b +:+ c).
Proof.
  induction a as [|x a IH]; [reflexivity |].
  change (String x ((a +:+ b) +:+ c) = String x (a +:+ (b +:+ c))). f_equal. exact IH.
Qed.

(** C4. Whatever the characters of the topic and the way [str.lower] treats
    them: for a known category and a topic that matches no entry of the
    guidance tables (no alias, no exact key, no substring match),
    [build_system_prompt] returns, without raising, the persona prompt of the
    category (its name, persona, quote style and greeting in the fixed text)
    followed by the length instruction of the query type, and nothing
    after it. *)
Theorem unmatched_topic_yields_persona_prompt_only
    (M : AnyStr.methods) (category topic : string) (is_short_query : bool) :
  In category known_categories ->
  alias_match M topic = false ->
  exact_key_match M category topic = false ->
  substring_match M topic = false ->
  exists p,
    dict_get category category_personalities = Some p /\
    AnyStr.get_topic_specific_guidance M category topic = Ok "" /\
    AnyStr.build_system_prompt M category topic is_short_query
    = Ok ("You are " +:+ p_name p +:+ ", " +:+ p_persona p +:+ nl +:+ nl +:+
          "Keep your responses informative, reverential, and accessible. Include relevant Sanskrit terms where appropriate (with translations). " +:+ nl +:+
          "If asked about controversial topics, provide balanced, scholarly perspectives while respecting Hindu traditions." +:+ nl +:+ nl +:+
          "If you don't know the answer, acknowledge that and suggest related topics you can discuss instead of fabricating information." +:+ nl +:+ nl +:+
          p_quote_style p +:+ nl +:+ nl +:+
          "Begin your response with " +:+ dq +:+ p_greeting p +:+ dq +:+
          " and include at least one appropriate Sanskrit quote in each detailed response." +:+
          nl +:+ nl +:+
          (if is_short_query
           then "The user has sent a simple greeting or short question. Respond with a brief, warm, and friendly response. Keep it under 2-3 sentences. Still begin with '" +:+
                p_greeting p +:+
                "'. Maintain the spiritual and reverential tone appropriate for Hindu traditions."
           else "The user has asked a more complex or in-depth question. Provide a comprehensive and detailed response, showing the depth of your knowledge. Include multiple paragraphs with rich details, explanations, and relevant examples. Structure your response with clear sections when appropriate.")).
Proof.
  intros Hcat Halias Hexact Hsub.
  destruct (known_category_has_personality category Hcat) as [p Hp].
  exists p. split; [exact Hp |].
  unfold alias_match in Halias. apply orb_false_iff in Halias as [Hbase Hfull].
  assert (Hguid : AnyStr.get_topic_specific_guidance M category topic = Ok "").
  { unfold AnyStr.get_topic_specific_guidance, find_best_topic_match, canonical_topic_of.
    rewrite Hbase, Hfull.
    unfold exact_key_match in Hexact. rewrite (dict_mem_false _ _ Hexact).
    apply partial_match_nothing;
      [apply topic_guidance_keys_have_topic_part | exact Hsub]. }
  split; [exact Hguid |].
  unfold AnyStr.build_system_prompt, personality_for. rewrite Hguid, Hp.
  cbn [bind truthy is_empty negb]. f_equal.
  unfold base_prompt, length_instruction.
  destruct p as [name greeting persona quote_style].
  cbn [p_name p_greeting p_persona p_quote_style].
  destruct is_short_query; rewrite !append_assoc; reflexivity.
Qed.

Lemma unmatched_topic_yields_persona_prompt_only_witness :
  AnyStr.get_topic_specific_guidance AnyStr.ascii "vedas" "Nakshatra-Lore" = Ok "" /\
  exists rest,
    AnyStr.build_system_prompt AnyStr.ascii "vedas" "Nakshatra-Lore" false
    = Ok ("You are Veda Jnana, You are Veda Jnana, the divine embodiment of Vedic wisdom"
          +:+ rest).
Proof.
  destruct (unmatched_topic_yields_persona_prompt_only AnyStr.ascii
              "vedas" "Nakshatra-Lore" false) as [p [Hp [Hguidance Hprompt]]].
  - cbn [known_categories In]. left. reflexivity.
  - vm_compute. reflexivity.
  - vm_compute. reflexivity.
  - vm_compute. reflexivity.
  - split; [exact Hguidance |].
    apply Some_inj in Hp. subst p. rewrite Hprompt.
    eexists. vm_compute. reflexivity.
Defined.

(** C1. The alias [bhagwat] (a topic id of the category [puranas]) is mapped
    by the alias table to the canonical topic [bhagavata_purana], yet the
    prompt built for it carries no guidance at all, while the prompt built
    for the canonical id carries the Bhagavata Purana guidance: the table of
    [find_best_topic_match] has no entry for it, and the alias itself matches
    no key of the table of [get_topic_specific_guidance]. *)
Theorem alias_bhagwat_loses_canonical_guidance :
  dict_get "bhagwat" topic_mapping = Some "bhagavata_purana" /\
  get_topic_specific_guidance "puranas" "bhagwat" = Ok "" /\
  get_topic_specific_guidance "puranas" "bhagavata_purana"
  = Ok ("SPECIALIZED GUIDANCE FOR THIS SPECIFIC TOPIC:" +:+ nl +:+
        guidance_puranas_bhagavata_purana) /\
  forall is_short_query : bool,
    build_system_prompt "puranas" "bhagwat" is_short_query
    <> build_system_prompt "puranas" "bhagavata_purana" is_short_query.
Proof.
  split; [reflexivity |].
  split; [vm_compute; reflexivity |].
  split; [vm_compute; reflexivity |].
  intros is_short_query Heq.
  apply (f_equal prompt_length) in Heq.
  destruct is_short_query; vm_compute in Heq; discriminate Heq.
Qed.

Lemma dict_get_In {V : Type} (k : string) (v : V) (d : list (string * V)) :
  dict_get k d = Some v -> In (k, v) d.
Proof.
  induction d as [|[k' v'] d IH]; cbn [dict_get]; [discriminate |].
  destruct (String.eqb k' k) eqn:Heq.
  - apply String.eqb_eq in Heq. intros [= ->]. subst k'. left. reflexivity.
  - intros H. right. apply IH, H.
Qed.

Lemma option_string_eqb_eq (a b : option string) :
  option_string_eqb a b = true -> a = b.
Proof.
  destruct a as [x|], b as [y|]; cbn; try discriminate; [| reflexivity].
  intros H. apply String.eqb_eq in H. congruence.
Qed.

Lemma alias_rows_resolve : forallb alias_row_resolves topic_mapping = true.
Proof. vm_compute. reflexivity. Qed.

Lemma resolved_topic_guidance (category topic canonical guidance : string) :
  resolves_to topic canonical = true ->
  truthy canonical = true ->
  dict_get (category +:+ ":" +:+ canonical) best_match_guidance = Some guidance ->
  get_topic_specific_guidance category topic
  = Ok ("SPECIALIZED GUIDANCE FOR THIS TOPIC (" +:+ canonical +:+ "):" +:+ nl +:+ guidance).
Proof.
  intros Hres Htruthy Hentry.
  unfold get_topic_specific_guidance, find_best_topic_match.
  apply option_string_eqb_eq in Hres. rewrite Hres, Htruthy, Hentry. reflexivity.
Qed.

(** X1. Where the table of [find_best_topic_match] has an entry for the category
    and the canonical topic of an alias, the alias and the canonical id get
    the same guidance, and so the same prompt. *)
Theorem alias_agrees_with_canonical_on_best_match_entries
    (category alias canonical guidance : string) (is_short_query : bool) :
  dict_get alias topic_mapping = Some canonical ->
  dict_get (category +:+ ":" +:+ canonical) best_match_guidance = Some guidance ->
  get_topic_specific_guidance category alias
  = Ok ("SPECIALIZED GUIDANCE FOR THIS TOPIC (" +:+ canonical +:+ "):" +:+ nl +:+ guidance)
  /\ get_topic_specific_guidance category canonical
     = get_topic_specific_guidance category alias
  /\ build_system_prompt category canonical is_short_query
     = build_system_prompt category alias is_short_query.
Proof.
  intros Halias Hentry.
  pose proof (proj1 (forallb_forall alias_row_resolves topic_mapping)
                alias_rows_resolve (alias, canonical) (dict_get_In _ _ _ Halias)) as Hrow.
  unfold alias_row_resolves in Hrow. cbn [fst snd] in Hrow.
  apply andb_true_iff in Hrow as [Hrow Htruthy].
  apply andb_true_iff in Hrow as [Ha Hc].
  rewrite (resolved_topic_guidance category alias canonical guidance Ha Htruthy Hentry).
  assert (Hcanon := resolved_topic_guidance category canonical canonical guidance
                      Hc Htruthy Hentry).
  split; [reflexivity |]. split; [exact Hcanon |].
  unfold build_system_prompt.
  rewrite Hcanon, (resolved_topic_guidance category alias canonical guidance Ha Htruthy Hentry).
  reflexivity.
Qed.

Lemma alias_agrees_with_canonical_on_best_match_entries_witness :
  get_topic_specific_guidance "vedas" "rig"
  = Ok ("SPECIALIZED GUIDANCE FOR THIS TOPIC (" +:+ "rigveda" +:+ "):" +:+ nl +:+
        guidance_vedas_rigveda)
  /\ get_topic_specific_guidance "vedas" "rigveda"
     = get_topic_specific_guidance "vedas" "rig"
  /\ build_system_prompt "vedas" "rigveda" false
     = build_system_prompt "vedas" "rig" false.
Proof.
  apply (alias_agrees_with_canonical_on_best_match_entries
           "vedas" "rig" "rigveda" guidance_vedas_rigveda false).
  - reflexivity.
  - reflexivity.
Defined.

(** *** Short queries *)

Lemma is_space_lower_char (c : ascii) : is_space (lower_char c) = is_space c.
Proof. destruct c as [[] [] [] [] [] [] [] []]; reflexivity. Qed.

Lemma is_empty_snoc (s : string) (c : ascii) : is_empty (snoc s c) = false.
Proof. destruct s; reflexivity. Qed.

Lemma is_empty_eq (s : string) : is_empty s = true -> s = EmptyString.
Proof. destruct s; [reflexivity | discriminate]. Qed.

Lemma append_empty_r (s : string) : s +:+ EmptyString = s.
Proof.
  induction s as [|c s IH]; [reflexivity |].
  change (String c (s +:+ EmptyString) = String c s). f_equal. exact IH.
Qed.

(** Lower-casing moves no word boundary. *)
Lemma split_from_lower_length (s cur cur' : string) :
  is_empty cur = is_empty cur' ->
  length (split_from cur (lower s)) = length (split_from cur' s).
Proof.
  revert cur cur'. induction s as [|c r IH]; intros cur cur' Hcur.
  - cbn [lower split_from]. rewrite Hcur. destruct (is_empty cur'); reflexivity.
  - cbn [lower split_from]. rewrite is_space_lower_char, Hcur.
    destruct (is_space c).
    + destruct (is_empty cur'); cbn [length]; rewrite (IH EmptyString EmptyString);
        reflexivity.
    + apply IH. rewrite !is_empty_snoc. reflexivity.
Qed.

Lemma split_lstrip (s : string) : split (lstrip s) = split s.
Proof.
  unfold split. induction s as [|c r IH].
  - reflexivity.
  - cbn [lstrip]. destruct (is_space c) eqn:Hc.
    + rewrite IH. cbn [split_from]. rewrite Hc. reflexivity.
    + reflexivity.
Qed.

Lemma split_from_rstrip (s cur : string) :
  split_from cur (rstrip s) = split_from cur s.
Proof.
  revert cur. induction s as [|c r IH]; intros cur.
  - reflexivity.
  - cbn [rstrip]. destruct (is_empty (rstrip r)) eqn:Hr.
    + destruct (is_space c) eqn:Hc; cbn [andb].
      * cbn [split_from]. rewrite Hc, <- (IH EmptyString).
        rewrite (is_empty_eq _ Hr). reflexivity.
      * cbn [split_from]. rewrite Hc. apply IH.
    + cbn [andb split_from]. destruct (is_space c).
      * rewrite (IH EmptyString). reflexivity.
      * apply IH.
Qed.

(** The cleaned message has as many words as the message. *)
Lemma cleaned_message_word_count (message : string) :
  length (split (strip (lower message))) = length (split message).
Proof.
  unfold strip. unfold split at 1. rewrite split_from_rstrip.
  fold (split (lstrip (lower message))). rewrite split_lstrip.
  unfold split. apply split_from_lower_length. reflexivity.
Qed.

(** X5. An ASCII message of at most two words, or one whose cleaned form is
    in the greeting list, is classified as a short query, and the prompt built
    for it (and an ASCII topic) carries the brevity instruction right after
    the persona prompt. *)
Theorem short_messages_get_the_brevity_instruction
    (message category topic : string) :
  is_ascii message = true ->
  is_ascii topic = true ->
  length (split message) <= 2
  \/ list_mem (strip (lower message)) simple_greetings = true ->
  is_short_query_of message = true /\
  exists suffix,
    build_system_prompt category topic (is_short_query_of message)
    = Ok ((base_prompt (personality_for category) +:+ nl +:+ nl +:+
           "The user has sent a simple greeting or short question. Respond with a brief, warm, and friendly response. Keep it under 2-3 sentences. Still begin with '" +:+
           p_greeting (personality_for category) +:+
           "'. Maintain the spiritual and reverential tone appropriate for Hindu traditions.")
          +:+ suffix).
Proof.
  intros _ _ Hshort.
  assert (His : is_short_query_of message = true).
  { unfold is_short_query_of. destruct Hshort as [Hwords | Hgreeting].
    - rewrite cleaned_message_word_count.
      apply Nat.leb_le in Hwords. rewrite Hwords. apply orb_true_r.
    - rewrite Hgreeting. reflexivity. }
  split; [exact His |]. rewrite His. unfold build_system_prompt.
  destruct (get_topic_specific_guidance_total category topic) as [g ->].
  cbn [bind]. unfold length_instruction. destruct (truthy g).
  - eexists. reflexivity.
  - exists EmptyString. rewrite append_empty_r. reflexivity.
Qed.

Lemma short_messages_get_the_brevity_instruction_witness :
  is_short_query_of "Hare Krishna" = true /\
  exists suffix,
    build_system_prompt "characters" "krishna" (is_short_query_of "Hare Krishna")
    = Ok ((base_prompt (personality_for "characters") +:+ nl +:+ nl +:+
           "The user has sent a simple greeting or short question. Respond with a brief, warm, and friendly response. Keep it under 2-3 sentences. Still begin with '" +:+
           p_greeting (personality_for "characters") +:+
           "'. Maintain the spiritual and reverential tone appropriate for Hindu traditions.")
          +:+ suffix).
Proof.
  apply (short_messages_get_the_brevity_instruction "Hare Krishna" "characters" "krishna").
  - reflexivity.
  - reflexivity.
  - left. vm_compute. lia.
Defined.

(** ** Query classifier *)

(** The loop over the keywords adds one point per keyword found, until the
    score reaches 3. *)
Lemma keyword_loop_counts (terms : list string) (text_lower system_lower : string)
    (score : nat) :
  score <= 2 ->
  keyword_loop terms text_lower system_lower score
  = score
    + Nat.min (length (List.filter
                         (fun term => contains term text_lower
                                      || contains term system_lower) terms))
              (3 - score).
Proof.
  revert score. induction terms as [|term terms IH]; intros score Hscore.
  - cbn. lia.
  - cbn [keyword_loop List.filter].
    destruct (contains term text_lower || contains term system_lower).
    + cbn [length]. destruct (3 <=? score + 1) eqn:Hthree.
      * apply Nat.leb_le in Hthree. lia.
      * apply Nat.leb_gt in Hthree. rewrite IH by lia. lia.
    + apply IH, Hscore.
Qed.

(** The comparisons of the average with 15 and with 8, on the two counts. *)
Lemma sentence_score_by_counts (words count : nat) :
  1 <= count ->
  sentence_score (Z.of_nat words # Pos.of_nat count)
  = if 15 * count <? words then 2 else if 8 * count <? words then 1 else 0.
Proof.
  intros Hcount.
  assert (Hden : Z.pos (Pos.of_nat count) = Z.of_nat count).
  { rewrite <- positive_nat_Z, Nat2Pos.id by lia. reflexivity. }
  unfold sentence_score, Qgtb, Qle_bool. cbn [Qnum Qden]. rewrite Hden.
  destruct (Z.leb_spec (Z.of_nat words * 1) (15 * Z.of_nat count)) as [H15 | H15];
    cbn [negb].
  - destruct (Nat.ltb_spec (15 * count) words) as [H | _]; [lia |].
    destruct (Z.leb_spec (Z.of_nat words * 1) (8 * Z.of_nat count)) as [H8 | H8];
      cbn [negb].
    + destruct (Nat.ltb_spec (8 * count) words) as [H | _]; [lia | reflexivity].
    + destruct (Nat.ltb_spec (8 * count) words) as [_ | H]; [reflexivity | lia].
  - destruct (Nat.ltb_spec (15 * count) words) as [_ | H]; [reflexivity | lia].
Qed.

(** C3, as stated, fails: whatever the two thresholds, the classifier does
    not compute the specification's sum.  The message ["a? b?"] holds two
    question marks and scores 1, where the sum is at least 2. *)
Lemma complexity_is_not_the_specified_sum :
  ~ exists (sentence_threshold : Q) (length_threshold : nat),
      forall text system_text : string,
        ca_complexity (analyze_content text system_text)
        = spec_complexity sentence_threshold length_threshold text system_text.
Proof.
  intros [sentence_threshold [length_threshold Hall]].
  specialize (Hall "a? b?" "").
  assert (Hcode : ca_complexity (analyze_content "a? b?" "") = 1)
    by (vm_compute; reflexivity).
  rewrite Hcode in Hall. unfold spec_complexity in Hall.
  assert (Hq : (1 <? count_char "?"%char "a? b?") = true) by (vm_compute; reflexivity).
  rewrite Hq in Hall.
  destruct (Qgtb _ _), (length_threshold <? _), (existsb _ _); cbn in Hall; lia.
Qed.

(** C3, amended. Whatever the characters of the message and of the system
    prompt and the way [str.lower] and [str.split] treat them, the complexity
    score is [1 + S + K + W].  With the sentences being the non-empty pieces
    of the message cut at ['.'], ['!'] and ['?'], [S] is 2 when the words of
    all sentences are more than 15 times the number of sentences (at least
    1), 1 when they are more than 8 times (and not 15 times) that number,
    else 0; [K] is the number of domain keywords occurring in the lower-cased
    message or system prompt, counted only until [S + K] reaches 3; [W] is 1
    when the message has more than 30 words.  The score lies between 1 and 5,
    and question marks add nothing to it: they set the two flags only. *)
Theorem complexity_score_closed_form (M : AnyStr.methods) (text system_text : string) :
  let pieces := List.filter truthy (re_split_sentences text) in
  let words := list_sum (map (fun s => length (AnyStr.str_split M s)) pieces) in
  let count := Nat.max 1 (length pieces) in
  let S := if 15 * count <? words then 2 else if 8 * count <? words then 1 else 0 in
  let hits :=
    length (List.filter
              (fun term => contains term (AnyStr.str_lower M text)
                           || contains term (AnyStr.str_lower M system_text))
              complex_indicators) in
  let W := if 30 <? length (AnyStr.str_split M text) then 1 else 0 in
  ca_complexity (AnyStr.analyze_content M text system_text)
  = 1 + S + Nat.min hits (3 - S) + W /\
  1 <= ca_complexity (AnyStr.analyze_content M text system_text) <= 5 /\
  ca_has_questions (AnyStr.analyze_content M text system_text)
  = (0 <? count_char "?"%char text) /\
  ca_is_multi_question (AnyStr.analyze_content M text system_text)
  = (1 <? count_char "?"%char text).
Proof.
  intros pieces words count S hits W.
  assert (Hscore : sentence_score (AnyStr.avg_sentence_length M text) = S).
  { unfold AnyStr.avg_sentence_length, AnyStr.sentence_words, sentences.
    fold pieces. fold words. fold count.
    apply sentence_score_by_counts. subst count. lia. }
  assert (HS : S <= 2).
  { subst S. destruct (15 * count <? words); [lia |].
    destruct (8 * count <? words); lia. }
  assert (Hform :
    ca_complexity (AnyStr.analyze_content M text system_text)
    = 1 + S + Nat.min hits (3 - S) + W).
  { unfold AnyStr.analyze_content, AnyStr.word_count_of. cbn [ca_complexity].
    rewrite Hscore, keyword_loop_counts by exact HS.
    fold hits. subst W.
    destruct (30 <? length (AnyStr.str_split M text)); lia. }
  split; [exact Hform |].
  split; [rewrite Hform; subst W;
          destruct (30 <? length (AnyStr.str_split M text)); lia |].
  split; reflexivity.
Qed.

(** On ASCII text the operations are [lower], [split] and [take_word], and
    the functions over any implementation are the ones above. *)
Lemma ascii_methods_give_the_ascii_model :
  (forall category topic is_short_query,
      AnyStr.build_system_prompt AnyStr.ascii category topic is_short_query
      = build_system_prompt category topic is_short_query) /\
  (forall text system_text,
      AnyStr.analyze_content AnyStr.ascii text system_text
      = analyze_content text system_text).
Proof. split; reflexivity. Qed.

(** A question of one sentence of 16 words that names two keywords scores
    [1 + 2 + 1 + 0]. *)
Example complexity_of_a_long_sentence :
  ca_complexity
    (analyze_content
       "What is the relation between dharma and karma in the teaching that Krishna gives to Arjuna"
       "")
  = 4.
Proof. vm_compute. reflexivity. Qed.

(** ** Provider client *)

Lemma select_params_retries (ca : content_analysis) (is_short_query : bool) :
  exists n, max_retries (select_params ca is_short_query) = S n.
Proof.
  unfold select_params.
  destruct is_short_query; [eexists; reflexivity |].
  destruct (_ || _); [eexists; reflexivity |].
  destruct (_ || _); eexists; reflexivity.
Qed.

Lemma select_params_backoff (ca : content_analysis) (is_short_query : bool) :
  (0 <= backoff_factor (select_params ca is_short_query))%Q.
Proof.
  unfold select_params.
  destruct is_short_query; [discriminate |].
  destruct (_ || _); [discriminate |].
  destruct (_ || _); discriminate.
Qed.

Lemma sleep_nonneg (d : Q) (tr : list event) :
  (0 <= d)%Q -> sleep d tr = Ok (tr ++ [EvSleep d]).
Proof.
  intros Hd. unfold sleep. apply Qle_bool_iff in Hd. rewrite Hd. reflexivity.
Qed.

Lemma backoff_time_nonneg (p : params) (retry_count : nat) :
  (0 <= backoff_factor p)%Q -> (0 <= backoff_time p retry_count)%Q.
Proof. intros Hp. unfold backoff_time. apply Qpower_0_le, Hp. Qed.

Section RateLimited.

Variable bodies : nat -> body.
Variable p : params.
Hypothesis backoff_nonneg : (0 <= backoff_factor p)%Q.

Lemma try_body_rate_limited (retry_count : nat) (tr : list event) :
  try_body (rate_limiting_provider bodies) p retry_count tr
  = (TryRateLimited,
     tr ++ (if 0 <? retry_count then [EvSleep (backoff_time p retry_count)] else [])
        ++ [EvPost retry_count; EvSleep (inject_Z 2)]).
Proof.
  unfold try_body, rate_limiting_provider.
  cbn [status_code retry_after_seconds retry_after_header].
  change (429 =? 429)%Z with true. cbv iota.
  destruct (0 <? retry_count).
  - rewrite (sleep_nonneg _ _ (backoff_time_nonneg p retry_count backoff_nonneg)).
    rewrite sleep_nonneg by discriminate.
    rewrite <- !app_assoc. reflexivity.
  - rewrite sleep_nonneg by discriminate.
    rewrite <- !app_assoc. reflexivity.
Qed.

(** Every pass ends in the 429 branch, which leaves [last_error] as it
    was. *)
Lemma retry_loop_rate_limited
    (remaining retry_count : nat) (last_error : option string) (tr : list event) :
  retry_loop (rate_limiting_provider bodies) p remaining retry_count last_error tr
  = LoopEnd (retry_count + remaining) last_error
      (tr ++ rate_limited_trace p retry_count remaining).
Proof.
  revert retry_count last_error tr.
  induction remaining as [|remaining IH]; intros retry_count last_error tr.
  - cbn [retry_loop rate_limited_trace]. rewrite app_nil_r, Nat.add_0_r. reflexivity.
  - cbn [retry_loop rate_limited_trace].
    rewrite (try_body_rate_limited retry_count tr).
    rewrite IH. f_equal; [lia |].
    rewrite <- !app_assoc. reflexivity.
Qed.

Lemma attempts_rate_limited (remaining retry_count : nat) :
  attempts (rate_limited_trace p retry_count remaining) = remaining.
Proof.
  unfold attempts. revert retry_count.
  induction remaining as [|remaining IH]; intros retry_count.
  - reflexivity.
  - cbn [rate_limited_trace]. rewrite !List.filter_app, !length_app, IH.
    destruct (0 <? retry_count); cbn; lia.
Qed.

(** Before each request but the first, at least the 2 seconds of
    [Retry-After] have been slept since the previous one. *)
Lemma gaps_rate_limited
    (remaining retry_count : nat) (started : bool) (slept : Q) :
  (started = true -> (2 <= slept)%Q) ->
  Forall (Qle 2) (gaps_from started slept (rate_limited_trace p retry_count remaining)).
Proof.
  revert retry_count started slept.
  induction remaining as [|remaining IH]; intros retry_count started slept Hs.
  - apply Forall_nil. trivial.
  - pose proof (backoff_time_nonneg p retry_count backoff_nonneg) as Hb.
    cbn [rate_limited_trace].
    assert (Hnext : Forall (Qle 2)
              (gaps_from true (0 + inject_Z 2)%Q
                 (rate_limited_trace p (retry_count + 1) remaining))).
    { apply IH. intros _. discriminate. }
    destruct (0 <? retry_count); cbn [app gaps_from]; destruct started;
      cbn [app]; try exact Hnext; apply Forall_cons; split; try exact Hnext.
    + specialize (Hs eq_refl).
      apply Qle_trans with (y := (slept + 0)%Q);
        [rewrite Qplus_0_r; exact Hs | apply Qplus_le_r; exact Hb].
    + exact (Hs eq_refl).
Qed.

End RateLimited.

(** C2. Against a provider that answers every attempt with HTTP 429 and
    [Retry-After: 2], the client makes [max_retries] attempts, sleeps at
    least 2 seconds between consecutive attempts and returns the fallback
    dict without raising; but the ['error'] field of that dict is [None], not
    an error code, and the failure is counted under the key ["None"]: the 429
    branch never assigns [last_error]. *)
Theorem rate_limited_exhaustion_leaves_error_unset
    (bodies : nat -> body) (system_prompt message : string) (is_short_query : bool)
    (store : Analytics.store) :
  let ca := analyze_content message system_prompt in
  let p := select_params ca is_short_query in
  let mo := generate_mistral_response (rate_limiting_provider bodies)
              system_prompt message is_short_query store in
  (exists fallback_response,
      mo_result mo
      = Ok [("response", VStr fallback_response);
            ("error", VNone);
            ("model", VStr (model p));
            ("complexity_score", VInt (Z.of_nat (ca_complexity ca)))]) /\
  attempts (mo_trace mo) = max_retries p /\
  Forall (Qle 2) (gaps (mo_trace mo)) /\
  Analytics.errors (mo_store mo) = Analytics.bump "None" (Analytics.errors store).
Proof.
  intros ca p mo. subst mo. unfold generate_mistral_response.
  fold ca. fold p.
  rewrite (retry_loop_rate_limited bodies p (select_params_backoff ca is_short_query)).
  cbn [mo_result mo_trace mo_store app pyval_of_error].
  split; [eexists; reflexivity |].
  split; [apply attempts_rate_limited |].
  split; [apply (gaps_rate_limited p (select_params_backoff ca is_short_query));
          discriminate |].
  reflexivity.
Qed.

Lemma attempts_app (tr1 tr2 : list event) :
  attempts (tr1 ++ tr2) = attempts tr1 + attempts tr2.
Proof. unfold attempts. rewrite List.filter_app, length_app. reflexivity. Qed.

Lemma attempts_backoff (p : params) (remaining retry_count : nat) :
  attempts (backoff_trace p retry_count remaining) = remaining.
Proof.
  revert retry_count. induction remaining as [|remaining IH]; intros retry_count.
  - reflexivity.
  - cbn [backoff_trace]. rewrite !attempts_app, IH.
    destruct (0 <? retry_count); cbn; lia.
Qed.

Lemma sleep_attempts (d : Q) (tr tr' : list event) :
  sleep d tr = Ok tr' -> attempts tr' = attempts tr.
Proof.
  unfold sleep. destruct (Qle_bool 0 d); [| discriminate].
  intros H. apply Ok_inj in H. subst tr'. rewrite attempts_app.
  change (attempts [EvSleep d]) with 0. lia.
Qed.

(** One pass through the [try] block sends at most one request. *)
Lemma try_body_attempts (provider : nat -> post_result) (p : params)
    (retry_count : nat) (tr : list event) :
  attempts (snd (try_body provider p retry_count tr)) <= attempts tr + 1.
Proof.
  unfold try_body.
  destruct (if 0 <? retry_count then sleep (backoff_time p retry_count) tr else Ok tr)
    as [tr1|e] eqn:Hback; [| cbn [snd]; lia].
  assert (H1 : attempts tr1 = attempts tr).
  { destruct (0 <? retry_count).
    - apply (sleep_attempts _ _ _ Hback).
    - apply Ok_inj in Hback. subst tr1. reflexivity. }
  assert (Hpost : attempts (tr1 ++ [EvPost retry_count]) = attempts tr + 1)
    by (rewrite attempts_app, H1; reflexivity).
  destruct (provider retry_count) as [e|response]; [cbn [snd]; lia |].
  destruct (status_code response =? 429)%Z.
  - destruct (retry_after_seconds p retry_count response) as [n|e]; [| cbn [snd]; lia].
    destruct (sleep (inject_Z n) (tr1 ++ [EvPost retry_count])) as [tr2|e] eqn:Hsleep;
      cbn [snd]; [| lia].
    rewrite (sleep_attempts _ _ _ Hsleep). lia.
  - destruct ((400 <=? status_code response) && (status_code response <? 600))%Z;
      [cbn [snd]; lia |].
    destruct (response_body response); cbn [snd]; lia.
Qed.

(** The loop sends at most [remaining] further requests. *)
Lemma retry_loop_attempts (provider : nat -> post_result) (p : params)
    (remaining retry_count : nat) (last_error : option string) (tr : list event) :
  attempts (trace_of (retry_loop provider p remaining retry_count last_error tr))
  <= attempts tr + remaining.
Proof.
  revert retry_count last_error tr.
  induction remaining as [|remaining IH]; intros retry_count last_error tr.
  - cbn [retry_loop trace_of]. lia.
  - cbn [retry_loop].
    pose proof (try_body_attempts provider p retry_count tr) as Hbody.
    destruct (try_body provider p retry_count tr) as [exit tr1]. cbn [snd] in Hbody.
    destruct exit as [content usage | | e].
    + cbn [trace_of]. lia.
    + etransitivity; [apply IH | lia].
    + destruct e as [ | | | | [status|] | name]; cbn [trace_of]; try lia.
      * etransitivity; [apply IH | lia].
      * etransitivity; [apply IH | lia].
      * destruct ((500 <=? status) || (status =? 429))%Z; cbn [trace_of]; [| lia].
        etransitivity; [apply IH | lia].
Qed.

(** X3. Whatever the provider does, the client sends at most [max_retries]
    requests, and [max_retries] is 2 or 3: the retry loop always ends. *)
Theorem client_sends_at_most_max_retries_requests
    (provider : nat -> post_result) (system_prompt message : string)
    (is_short_query : bool) (store : Analytics.store) :
  let p := select_params (analyze_content message system_prompt) is_short_query in
  attempts (mo_trace (generate_mistral_response provider system_prompt message
                        is_short_query store))
  <= max_retries p
  /\ (max_retries p = 2 \/ max_retries p = 3).
Proof.
  intros p. split.
  - unfold generate_mistral_response. fold p.
    pose proof (retry_loop_attempts provider p (max_retries p) 0 None []) as Hloop.
    destruct (retry_loop provider p (max_retries p) 0 None []);
      cbn [mo_trace trace_of] in *; exact Hloop.
  - subst p. unfold select_params.
    destruct is_short_query; [left; reflexivity |].
    destruct (_ || _); [right; reflexivity |].
    destruct (_ || _); [right | left]; reflexivity.
Qed.

(** A retryable failure sends the loop round again with its tag as
    [last_error]. *)
Lemma retry_loop_retryable_step (provider : nat -> post_result) (p : params)
    (remaining retry_count : nat) (last_error : option string) (tr : list event)
    (tag : string) :
  (0 <= backoff_factor p)%Q ->
  retry_tag (provider retry_count) = Some tag ->
  retry_loop provider p (S remaining) retry_count last_error tr
  = retry_loop provider p remaining (retry_count + 1) (Some tag)
      (tr ++ (if 0 <? retry_count then [EvSleep (backoff_time p retry_count)] else [])
          ++ [EvPost retry_count]).
Proof.
  intros Hp Htag. cbn [retry_loop]. unfold try_body.
  assert (Hback :
    (if 0 <? retry_count then sleep (backoff_time p retry_count) tr else Ok tr)
    = Ok (tr ++ (if 0 <? retry_count then [EvSleep (backoff_time p retry_count)] else []))).
  { destruct (0 <? retry_count).
    - apply sleep_nonneg, backoff_time_nonneg, Hp.
    - rewrite app_nil_r. reflexivity. }
  rewrite Hback, <- app_assoc.
  unfold retry_tag in Htag.
  destruct (provider retry_count) as [e|response].
  - destruct e; try discriminate Htag; apply Some_inj in Htag; subst tag; reflexivity.
  - destruct ((500 <=? status_code response) && (status_code response <? 600))%Z
      eqn:H5xx; [| discriminate Htag].
    apply Some_inj in Htag. subst tag.
    apply andb_true_iff in H5xx as [Hlo Hhi].
    pose proof Hlo as Hlo'. apply Z.leb_le in Hlo'. apply Z.ltb_lt in Hhi.
    assert (H429 : (status_code response =? 429)%Z = false) by (apply Z.eqb_neq; lia).
    assert (Herr : ((400 <=? status_code response) && (status_code response <? 600))%Z = true)
      by (apply andb_true_iff; split; [apply Z.leb_le | apply Z.ltb_lt]; lia).
    rewrite H429, Herr, Hlo. reflexivity.
Qed.

Lemma retry_loop_all_retryable (provider : nat -> post_result) (p : params) :
  (0 <= backoff_factor p)%Q ->
  forall (remaining retry_count : nat) (last_error : option string) (tr : list event),
    (forall n, retry_count <= n < retry_count + remaining ->
               exists tag, retry_tag (provider n) = Some tag) ->
    retry_loop provider p remaining retry_count last_error tr
    = LoopEnd (retry_count + remaining)
        (match remaining with
         | O => last_error
         | S k => retry_tag (provider (retry_count + k))
         end)
        (tr ++ backoff_trace p retry_count remaining).
Proof.
  intros Hp. induction remaining as [|remaining IH];
    intros retry_count last_error tr Hall.
  - cbn [retry_loop backoff_trace]. rewrite app_nil_r, Nat.add_0_r. reflexivity.
  - destruct (Hall retry_count) as [tag Htag]; [lia |].
    rewrite (retry_loop_retryable_step provider p remaining retry_count last_error tr
               tag Hp Htag).
    rewrite IH by (intros n Hn; apply Hall; lia).
    cbn [backoff_trace]. f_equal.
    + lia.
    + destruct remaining as [|k].
      * rewrite Nat.add_0_r. symmetry. exact Htag.
      * f_equal. f_equal. lia.
    + rewrite <- !app_assoc. reflexivity.
Qed.

(** X4. When every request fails with a timeout, a connection error or an
    HTTP 5xx status, the client sends [max_retries] requests, sleeps
    [backoff_factor ** k] before the attempt number [k > 0] and nothing else,
    and returns the fallback dict whose ['error'] is the tag of the last
    failure. *)
Theorem retryable_failures_exhaust_with_backoff
    (provider : nat -> post_result) (system_prompt message : string)
    (is_short_query : bool) (store : Analytics.store) :
  (forall n, exists tag, retry_tag (provider n) = Some tag) ->
  let ca := analyze_content message system_prompt in
  let p := select_params ca is_short_query in
  let fallbacks := fallbacks_for (extract_category system_prompt) in
  let mo := generate_mistral_response provider system_prompt message
              is_short_query store in
  mo_trace mo = backoff_trace p 0 (max_retries p) /\
  attempts (mo_trace mo) = max_retries p /\
  exists tag,
    retry_tag (provider (max_retries p - 1)) = Some tag /\
    mo_result mo
    = Ok [("response",
           VStr (if is_short_query then fb_short fallbacks else fb_long fallbacks));
          ("error", VStr tag);
          ("model", VStr (model p));
          ("complexity_score", VInt (Z.of_nat (ca_complexity ca)))].
Proof.
  intros Hall ca p fallbacks mo. subst mo.
  unfold generate_mistral_response. fold ca. fold p.
  rewrite (retry_loop_all_retryable provider p (select_params_backoff ca is_short_query))
    by (intros n _; apply Hall).
  destruct (select_params_retries ca is_short_query) as [k Hk]. fold p in Hk.
  rewrite Hk. cbn [mo_trace mo_result app Nat.add].
  split; [reflexivity |].
  split; [apply attempts_backoff |].
  destruct (Hall k) as [tag Htag]. exists tag.
  replace (S k - 1) with k by lia.
  split; [exact Htag |]. rewrite Htag. reflexivity.
Qed.

Lemma retryable_failures_exhaust_with_backoff_witness :
  let provider := fun _ : nat => PostRaises Timeout in
  let mo := generate_mistral_response provider "" "Who wrote the Ramayana?" false
              Analytics.initial in
  mo_trace mo = [EvPost 0; EvSleep (3 # 2); EvPost 1] /\
  dict_get "error" (match mo_result mo with Ok d => d | Raise _ => [] end)
  = Some (VStr "timeout").
Proof.
  intros provider mo. subst mo.
  destruct (retryable_failures_exhaust_with_backoff provider ""
              "Who wrote the Ramayana?" false Analytics.initial)
    as [Htrace [_ [tag [Htag Hresult]]]].
  - intros n. exists "timeout". reflexivity.
  - split.
    + rewrite Htrace. reflexivity.
    + rewrite Hresult. apply Some_inj in Htag. subst tag. reflexivity.
Defined.

(** The loop against a first answer that is an HTTP error status other
    than 5xx and 429: one request, then the [break]. *)
Lemma retry_loop_client_error (provider : nat -> post_result) (p : params)
    (status : Z) (ra : retry_after) (b : body) (n : nat) :
  provider 0 = PostReturns
                 {| status_code := status; retry_after_header := ra;
                    response_body := b |} ->
  (400 <= status < 500)%Z ->
  status <> 429%Z ->
  retry_loop provider p (S n) 0 None [] = LoopEnd 0 (Some "api_error") [EvPost 0].
Proof.
  intros Hfirst Hrange Hnot.
  cbn [retry_loop]. unfold try_body. cbn [Nat.ltb Nat.leb app].
  rewrite Hfirst. cbn [status_code].
  assert (H429 : (status =? 429)%Z = false) by (apply Z.eqb_neq; exact Hnot).
  assert (Herr : ((400 <=? status) && (status <? 600))%Z = true)
    by (apply andb_true_iff; split; [apply Z.leb_le | apply Z.ltb_lt]; lia).
  assert (H5xx : (500 <=? status)%Z = false) by (apply Z.leb_gt; lia).
  rewrite H429, Herr, H5xx, H429. reflexivity.
Qed.

(** C7. When the provider answers the first request with an HTTP error
    status that is neither 5xx nor 429 (401, say), the client makes exactly
    one attempt, sleeps not at all, and returns the fallback dict of the
    category with ['error'] set to ["api_error"], the tag of a failure that
    is not retried. *)
Theorem client_error_status_is_not_retried
    (provider : nat -> post_result) (status : Z) (ra : retry_after) (b : body)
    (system_prompt message : string) (is_short_query : bool)
    (store : Analytics.store) :
  provider 0 = PostReturns
                 {| status_code := status; retry_after_header := ra;
                    response_body := b |} ->
  (400 <= status < 500)%Z ->
  status <> 429%Z ->
  let ca := analyze_content message system_prompt in
  let p := select_params ca is_short_query in
  let fallbacks := fallbacks_for (extract_category system_prompt) in
  let mo := generate_mistral_response provider system_prompt message
              is_short_query store in
  mo_trace mo = [EvPost 0] /\
  mo_result mo
  = Ok [("response",
         VStr (if is_short_query then fb_short fallbacks else fb_long fallbacks));
        ("error", VStr "api_error");
        ("model", VStr (model p));
        ("complexity_score", VInt (Z.of_nat (ca_complexity ca)))] /\
  mo_store mo
  = Analytics.track_error (ca_category ca) (ca_topic ca) (Some "api_error")
      "Failed after 0 attempts" store.
Proof.
  intros Hfirst Hrange Hnot ca p fallbacks mo. subst mo.
  unfold generate_mistral_response. fold ca. fold p.
  destruct (select_params_retries ca is_short_query) as [n Hn].
  fold p in Hn. rewrite Hn.
  rewrite (retry_loop_client_error provider p status ra b n Hfirst Hrange Hnot).
  cbn [mo_trace mo_result mo_store pyval_of_error].
  split; [reflexivity |]. split; reflexivity.
Qed.

Lemma client_error_status_is_not_retried_witness :
  let provider := fun _ : nat =>
    PostReturns {| status_code := 401; retry_after_header := RetryAfterAbsent;
                   response_body := BodyRaises (OtherException "JSONDecodeError") |} in
  let mo := generate_mistral_response provider "" "Who wrote the Ramayana?" false
              Analytics.initial in
  mo_trace mo = [EvPost 0] /\
  mo_result mo
  = Ok [("response", VStr (fb_long fallback_default));
        ("error", VStr "api_error");
        ("model", VStr "mistral-small-latest");
        ("complexity_score", VInt 1)].
Proof.
  intros provider mo.
  destruct (client_error_status_is_not_retried provider 401 RetryAfterAbsent
              (BodyRaises (OtherException "JSONDecodeError"))
              "" "Who wrote the Ramayana?" false Analytics.initial)
    as [Htrace [Hresult _]].
  - reflexivity.
  - lia.
  - discriminate.
  - split; [exact Htrace | exact Hresult].
Defined.

(** ** Response cache: the sweep *)

Lemma dict_del_cons_ne {V : Type} (k k' : string) (v : V) (d : list (string * V)) :
  k <> k' -> dict_del k' ((k, v) :: d) = (k, v) :: dict_del k' d.
Proof.
  intros Hne. cbn [dict_del].
  destruct (String.eqb k k') eqn:Heq; [| reflexivity].
  apply String.eqb_eq in Heq. contradiction.
Qed.

Lemma delete_all_keeps_head {V : Type} (ks : list string) (k : string) (v : V)
    (d : list (string * V)) :
  ~ In k ks ->
  fold_left (fun d key => dict_del key d) ks ((k, v) :: d)
  = (k, v) :: fold_left (fun d key => dict_del key d) ks d.
Proof.
  revert d. induction ks as [|k' ks IH]; intros d Hnot.
  - reflexivity.
  - cbn [fold_left]. rewrite dict_del_cons_ne.
    + apply IH. intros Hin. apply Hnot. right. exact Hin.
    + intros ->. apply Hnot. left. reflexivity.
Qed.

Lemma keys_filter_subset {V : Type} (P : string * V -> bool) (d : list (string * V))
    (k : string) :
  In k (keys (List.filter P d)) -> In k (keys d).
Proof.
  unfold keys. rewrite !in_map_iff. intros [kv [Hk Hin]].
  apply filter_In in Hin as [Hin _]. exists kv. split; assumption.
Qed.

(** Deleting the keys of the entries that satisfy [P] leaves the others. *)
Lemma delete_keys_is_filter {V : Type} (P : string * V -> bool) (d : list (string * V)) :
  NoDup (keys d) ->
  fold_left (fun d key => dict_del key d) (keys (List.filter P d)) d
  = List.filter (fun kv => negb (P kv)) d.
Proof.
  induction d as [|[k v] d IH]; intros Hnd.
  - reflexivity.
  - cbn [keys map fst] in Hnd. apply NoDup_cons in Hnd as [Hk Hnd].
    cbn [List.filter]. destruct (P (k, v)) eqn:HP; cbn [negb].
    + cbn [keys map fst fold_left dict_del]. rewrite String.eqb_refl.
      apply IH, Hnd.
    + rewrite delete_all_keeps_head.
      * f_equal. apply IH, Hnd.
      * intros Hin. apply Hk. apply list_elem_of_In.
        apply (keys_filter_subset P d k Hin).
Qed.

Lemma dict_set_fresh {V : Type} (k : string) (v : V) (d : list (string * V)) :
  ~ In k (keys d) -> dict_set k v d = d ++ [(k, v)].
Proof.
  induction d as [|[k' v'] d IH]; intros Hnot.
  - reflexivity.
  - cbn [dict_set]. destruct (String.eqb k' k) eqn:Heq.
    + apply String.eqb_eq in Heq. subst k'. exfalso. apply Hnot. left. reflexivity.
    + cbn [app]. f_equal. apply IH. intros Hin. apply Hnot. right. exact Hin.
Qed.

Lemma dict_of_items_from {V : Type} (items acc : list (string * V)) :
  NoDup (keys (acc ++ items)) ->
  fold_left (fun d kv => dict_set (fst kv) (snd kv) d) items acc = acc ++ items.
Proof.
  revert acc. induction items as [|[k v] items IH]; intros acc Hnd.
  - rewrite app_nil_r. reflexivity.
  - cbn [fold_left fst snd].
    assert (Hfresh : ~ In k (keys acc)).
    { unfold keys in Hnd. rewrite map_app in Hnd. cbn [map fst] in Hnd.
      apply NoDup_app in Hnd as [_ [Hdisj _]].
      intros Hin. apply (Hdisj k); [apply list_elem_of_In; exact Hin |].
      apply list_elem_of_here. }
    rewrite (dict_set_fresh k v acc Hfresh).
    rewrite IH; rewrite <- app_assoc; [reflexivity | exact Hnd].
Qed.

Lemma dict_of_items_nodup {V : Type} (items : list (string * V)) :
  NoDup (keys items) -> dict_of_items items = items.
Proof. intros Hnd. unfold dict_of_items. apply (dict_of_items_from items []), Hnd. Qed.

Lemma insert_desc_perm (x : string * cache_entry) (l : list (string * cache_entry)) :
  Permutation (x :: l) (insert_desc x l).
Proof.
  induction l as [|y l IH].
  - reflexivity.
  - cbn [insert_desc]. destruct (_ <=? _)%Z.
    + reflexivity.
    + rewrite perm_swap. apply perm_skip, IH.
Qed.

Lemma sorted_newest_first_perm (l : list (string * cache_entry)) : Permutation l (sorted_newest_first l).
Proof.
  induction l as [|x l IH].
  - reflexivity.
  - cbn [sorted_newest_first foldr]. rewrite <- insert_desc_perm.
    apply perm_skip, IH.
Qed.

Lemma insert_desc_ordered (x : string * cache_entry) (l : list (string * cache_entry)) :
  ordered l -> ordered (insert_desc x l).
Proof.
  induction l as [|y l IH]; intros Hl.
  - cbn. split; [apply Forall_nil |]; trivial.
  - destruct Hl as [Hy Hl]. cbn [insert_desc].
    destruct (ce_expiry (snd y) <=? ce_expiry (snd x))%Z eqn:Hcmp.
    + apply Z.leb_le in Hcmp. cbn [ordered]. split; [| split; assumption].
      apply Forall_cons. split; [exact Hcmp |].
      eapply Forall_impl; [exact Hy |].
      intros z Hz. unfold newer_or_equal in *. lia.
    + apply Z.leb_gt in Hcmp. cbn [ordered]. split; [| apply IH, Hl].
      rewrite <- (insert_desc_perm x l). apply Forall_cons. split; [| exact Hy].
      unfold newer_or_equal. lia.
Qed.

Lemma sorted_newest_first_ordered (l : list (string * cache_entry)) : ordered (sorted_newest_first l).
Proof.
  induction l as [|x l IH].
  - exact I.
  - cbn [sorted_newest_first foldr]. apply insert_desc_ordered, IH.
Qed.

(** In an ordered list every entry among the first [n] is newer than or as
    new as every entry after them. *)
Lemma ordered_take_drop (l : list (string * cache_entry)) (n : nat) (kept dropped : string * cache_entry) :
  ordered l -> In kept (take n l) -> In dropped (drop n l) ->
  newer_or_equal kept dropped.
Proof.
  revert n. induction l as [|x l IH]; intros n Hl Hkept Hdropped.
  - destruct n; contradiction.
  - destruct n as [|n]; [contradiction |].
    destruct Hl as [Hx Hl]. cbn [take drop] in Hkept, Hdropped.
    destruct Hkept as [<- | Hkept].
    + rewrite Forall_forall in Hx. apply Hx. apply list_elem_of_In.
      rewrite <- (take_drop n l). apply in_or_app. right. exact Hdropped.
    + apply (IH n); assumption.
Qed.

Lemma keys_filter_nodup {V : Type} (P : string * V -> bool) (d : list (string * V)) :
  NoDup (keys d) -> NoDup (keys (List.filter P d)).
Proof.
  induction d as [|[k v] d IH]; intros Hnd.
  - exact Hnd.
  - cbn [keys map fst] in Hnd. apply NoDup_cons in Hnd as [Hk Hnd].
    cbn [List.filter]. destruct (P (k, v)).
    + cbn [keys map fst]. apply NoDup_cons. split; [| apply IH, Hnd].
      intros Hin. apply Hk. apply list_elem_of_In.
      apply (keys_filter_subset P d k). apply list_elem_of_In. exact Hin.
    + apply IH, Hnd.
Qed.

Lemma keys_take_nodup {V : Type} (n : nat) (d : list (string * V)) :
  NoDup (keys d) -> NoDup (keys (take n d)).
Proof.
  intros Hnd. rewrite <- (take_drop n d) in Hnd.
  unfold keys in Hnd. rewrite map_app in Hnd.
  apply NoDup_app in Hnd as [Hnd _]. exact Hnd.
Qed.

Lemma in_take {A : Type} (n : nat) (l : list A) (x : A) : In x (take n l) -> In x l.
Proof.
  intros Hin. rewrite <- (take_drop n l). apply in_or_app. left. exact Hin.
Qed.

(** The sweep, in terms of its own test [expired_at]. *)
Lemma sweep_by_its_own_test
    (current_time : Z) (cache : list (string * cache_entry)) :
  NoDup (keys cache) ->
  let live := List.filter (live_at current_time) cache in
  let swept := clean_expired_cache_entries current_time cache in
  (forall kv, In kv swept -> In kv cache /\ expired_at current_time kv = false) /\
  (forall kv, In kv cache -> expired_at current_time kv = true -> ~ In kv swept) /\
  length swept = Nat.min (length live) CACHE_MAX_SIZE /\
  (length live <= CACHE_MAX_SIZE -> swept = live) /\
  NoDup (keys swept) /\
  (forall kept dropped,
      In kept swept -> In dropped live -> ~ In dropped swept ->
      newer_or_equal kept dropped).
Proof.
  intros Hnd live swept.
  assert (Hlive_nd : NoDup (keys live)) by (apply keys_filter_nodup, Hnd).
  assert (Hlive_in : forall kv, In kv live ->
                       In kv cache /\ expired_at current_time kv = false).
  { intros kv Hin. apply filter_In in Hin as [Hin Hlv]. split; [exact Hin |].
    unfold live_at in Hlv. apply negb_true_iff in Hlv. exact Hlv. }
  assert (Hswept :
    swept = if CACHE_MAX_SIZE <? length live
            then take CACHE_MAX_SIZE (sorted_newest_first live) else live).
  { subst swept. unfold clean_expired_cache_entries.
    rewrite (delete_keys_is_filter (expired_at current_time) cache Hnd).
    change (List.filter (fun kv => negb (expired_at current_time kv)) cache) with live.
    destruct (CACHE_MAX_SIZE <? length live); [| reflexivity].
    apply dict_of_items_nodup, keys_take_nodup.
    rewrite <- (Permutation_map fst (sorted_newest_first_perm live)). exact Hlive_nd. }
  clearbody swept live. subst swept.
  destruct (CACHE_MAX_SIZE <? length live) eqn:Hover.
  - apply Nat.ltb_lt in Hover.
    pose proof (sorted_newest_first_perm live) as Hperm.
    assert (Hsub : forall kv, In kv (take CACHE_MAX_SIZE (sorted_newest_first live)) ->
                     In kv live).
    { intros kv Hin. apply (Permutation_in kv (Permutation_sym Hperm)).
      apply (in_take CACHE_MAX_SIZE), Hin. }
    split; [intros kv Hin; apply Hlive_in, Hsub, Hin |].
    split.
    { intros kv _ Hexp Hin. destruct (Hlive_in kv (Hsub kv Hin)) as [_ Hno]. congruence. }
    split.
    { rewrite length_take, <- (Permutation_length Hperm). lia. }
    split; [intros Hle; lia |].
    split.
    { apply keys_take_nodup.
      rewrite <- (Permutation_map fst Hperm). exact Hlive_nd. }
    intros kept dropped Hkept Hdropped Hgone.
    apply (ordered_take_drop (sorted_newest_first live) CACHE_MAX_SIZE);
      [apply sorted_newest_first_ordered | exact Hkept |].
    apply (Permutation_in dropped Hperm) in Hdropped.
    rewrite <- (take_drop CACHE_MAX_SIZE (sorted_newest_first live)) in Hdropped.
    apply in_app_or in Hdropped as [Hin | Hin]; [contradiction | exact Hin].
  - apply Nat.ltb_ge in Hover.
    split; [exact Hlive_in |].
    split.
    { intros kv _ Hexp Hin. destruct (Hlive_in kv Hin) as [_ Hno]. congruence. }
    split; [lia |].
    split; [reflexivity |].
    split; [exact Hlive_nd |].
    intros kept dropped _ Hdropped Hgone. contradiction.
Qed.

Lemma unexpired_is_live (current_time : Z) (cache : list (string * cache_entry)) :
  List.filter (fun kv => (current_time <=? ce_expiry (snd kv))%Z) cache
  = List.filter (live_at current_time) cache.
Proof.
  apply filter_ext. intros kv. unfold live_at, expired_at.
  apply Z.leb_antisym.
Qed.

(** C6. On a cache with distinct keys (a dict) the sweep removes every entry
    whose expiry is before the current time and no other entry, as long as
    the entries left are at most [CACHE_MAX_SIZE] (an entry that expires
    exactly at the current time is kept, although the cache check no longer
    serves it); when more are left it keeps [CACHE_MAX_SIZE] of them, the ones
    with the latest expiry times: every unexpired entry it discards expires
    no later than every entry it keeps. *)
Theorem sweep_keeps_latest_expiries
    (current_time : Z) (cache : list (string * cache_entry)) :
  NoDup (keys cache) ->
  let unexpired :=
    List.filter (fun kv => (current_time <=? ce_expiry (snd kv))%Z) cache in
  let swept := clean_expired_cache_entries current_time cache in
  (forall kv, In kv swept -> In kv cache /\ (current_time <= ce_expiry (snd kv))%Z) /\
  (forall kv, In kv cache -> (ce_expiry (snd kv) < current_time)%Z -> ~ In kv swept) /\
  length swept = Nat.min (length unexpired) CACHE_MAX_SIZE /\
  (length unexpired <= CACHE_MAX_SIZE -> swept = unexpired) /\
  NoDup (keys swept) /\
  (forall kept dropped,
      In kept swept -> In dropped cache ->
      (current_time <= ce_expiry (snd dropped))%Z -> ~ In dropped swept ->
      (ce_expiry (snd dropped) <= ce_expiry (snd kept))%Z).
Proof.
  intros Hnd unexpired swept.
  destruct (sweep_by_its_own_test current_time cache Hnd)
    as [Hkept [Hgone [Hlen [Hall [Hdistinct Horder]]]]].
  fold swept in Hkept, Hgone, Hlen, Hall, Hdistinct, Horder.
  rewrite <- (unexpired_is_live current_time cache) in Hlen, Hall, Horder.
  fold unexpired in Hlen, Hall, Horder.
  split.
  { intros kv Hin. destruct (Hkept kv Hin) as [Hcache Hlive].
    split; [exact Hcache |].
    unfold expired_at in Hlive. apply Z.ltb_ge in Hlive. exact Hlive. }
  split.
  { intros kv Hin Hold. apply (Hgone kv Hin).
    unfold expired_at. apply Z.ltb_lt. exact Hold. }
  split; [exact Hlen |]. split; [exact Hall |]. split; [exact Hdistinct |].
  intros kept dropped Hkept' Hin Hfresh Hdropped.
  apply (Horder kept dropped Hkept'); [| exact Hdropped].
  subst unexpired. apply filter_In. split; [exact Hin |].
  apply Z.leb_le. exact Hfresh.
Qed.

Lemma numbered_cache_keys_distinct (n : nat) : NoDup (keys (numbered_cache n)).
Proof.
  unfold keys, numbered_cache. rewrite map_map. cbn [fst].
  apply (NoDup_fmap_2 (pretty : nat -> string)), NoDup_seq.
Qed.

Lemma sweep_keeps_latest_expiries_witness :
  let cache := numbered_cache 1003 in
  let swept := clean_expired_cache_entries 2 cache in
  length swept = 1000 /\
  (forall kv, In kv cache -> (ce_expiry (snd kv) < 2)%Z -> ~ In kv swept) /\
  (forall kept dropped,
      In kept swept -> In dropped cache ->
      (2 <= ce_expiry (snd dropped))%Z -> ~ In dropped swept ->
      (ce_expiry (snd dropped) <= ce_expiry (snd kept))%Z).
Proof.
  intros cache swept. subst swept cache.
  destruct (sweep_keeps_latest_expiries 2 (numbered_cache 1003)
              (numbered_cache_keys_distinct 1003))
    as [_ [Hgone [Hlen [_ [_ Horder]]]]].
  split; [rewrite Hlen; vm_compute; reflexivity |].
  split; [exact Hgone | exact Horder].
Defined.

(** On that cache the sweep drops the two expired entries and the oldest
    live one, and orders the rest newest first. *)
Example sweep_of_numbered_cache :
  keys (clean_expired_cache_entries 2 (numbered_cache 1003))
  = map pretty (rev (seq 3 1000)).
Proof. vm_compute. reflexivity. Qed.

(** ** Response cache: lookups and writes of [generate_chat_response] *)

Lemma dict_get_set_same {V : Type} (k : string) (v : V) (d : list (string * V)) :
  dict_get k (dict_set k v d) = Some v.
Proof.
  induction d as [|[k' v'] d IH].
  - cbn. rewrite String.eqb_refl. reflexivity.
  - cbn [dict_set]. destruct (String.eqb k' k) eqn:Heq; cbn [dict_get]; rewrite Heq.
    + reflexivity.
    + exact IH.
Qed.

Lemma dict_get_set_other {V : Type} (k k0 : string) (v : V) (d : list (string * V)) :
  k0 <> k -> dict_get k0 (dict_set k v d) = dict_get k0 d.
Proof.
  intros Hne. induction d as [|[k' v'] d IH].
  - cbn. destruct (String.eqb k k0) eqn:Heq; [| reflexivity].
    apply String.eqb_eq in Heq. congruence.
  - cbn [dict_set]. destruct (String.eqb k' k) eqn:Heq; cbn [dict_get].
    + apply String.eqb_eq in Heq. subst k'.
      destruct (String.eqb k k0) eqn:Heq0; [| reflexivity].
      apply String.eqb_eq in Heq0. congruence.
    + rewrite IH. reflexivity.
Qed.

Lemma dict_set_length {V : Type} (k : string) (v : V) (d : list (string * V)) :
  length d <= length (dict_set k v d).
Proof.
  induction d as [|[k' v'] d IH]; cbn [dict_set].
  - cbn. lia.
  - destruct (String.eqb k' k); cbn [length]; lia.
Qed.

Lemma dict_set_keeps_keys {V : Type} (k k0 : string) (v : V) (d : list (string * V)) :
  In k0 (keys d) -> In k0 (keys (dict_set k v d)).
Proof.
  induction d as [|[k' v'] d IH]; cbn [dict_set keys map fst In].
  - intros [].
  - destruct (String.eqb k' k); cbn [keys map fst In]; intros [H | H]; auto.
Qed.

(** C5. Once a response dict holding the text [r] has been stored under the
    key of (category, topic, message) at time [stored_at], a call of
    [generate_chat_response] with the same category, topic and message
    returns [{'response': r}] from the cache, without touching the provider
    or the state, as long as its clock reads less than [stored_at] plus the
    TTL (in particular immediately); once the TTL has elapsed the cache check
    fails and the call runs the uncached path. *)
Theorem stored_response_is_served_until_ttl
    (env : environment) (st : state) (message category topic : string)
    (provider : option string) (stored_at : Z) (response_data : dict) (r : pyval)
    (cache : list (string * cache_entry)) :
  dict_get "response" response_data = Some r ->
  RESPONSE_CACHE st
  = cache_store stored_at (cache_key_of (env_hash env) category topic message)
      response_data cache ->
  ((env_now_lookup env < stored_at + timedelta_seconds CACHE_TTL)%Z ->
   generate_chat_response env st message category topic provider
   = {| co_result := Ok [("response", r)]; co_state := st; co_trace := [] |}) /\
  ((stored_at + timedelta_seconds CACHE_TTL <= env_now_lookup env)%Z ->
   cache_lookup (env_now_lookup env)
     (cache_key_of (env_hash env) category topic message) (RESPONSE_CACHE st) = None /\
   generate_chat_response env st message category topic provider
   = generate_fresh_response env st
       (cache_key_of (env_hash env) category topic message) message category topic).
Proof.
  intros Hr Hcache.
  assert (Hentry :
    dict_get (cache_key_of (env_hash env) category topic message) (RESPONSE_CACHE st)
    = Some {| ce_response := r;
              ce_expiry := stored_at + timedelta_seconds CACHE_TTL |}).
  { rewrite Hcache. unfold cache_store.
    destruct response_data as [|kv response_data]; [discriminate Hr |].
    rewrite Hr. apply dict_get_set_same. }
  split; intros Htime.
  - unfold generate_chat_response, cache_lookup. rewrite Hentry. cbn [ce_expiry ce_response].
    apply Z.ltb_lt in Htime. rewrite Htime. reflexivity.
  - assert (Hmiss :
      cache_lookup (env_now_lookup env)
        (cache_key_of (env_hash env) category topic message) (RESPONSE_CACHE st) = None).
    { unfold cache_lookup. rewrite Hentry. cbn [ce_expiry].
      apply Z.ltb_ge in Htime. rewrite Htime. reflexivity. }
    split; [exact Hmiss |].
    unfold generate_chat_response. rewrite Hmiss. reflexivity.
Qed.

Lemma stored_response_is_served_until_ttl_witness :
  let env := constant_env 200 (BodyContent "Valmiki." None) 5000000 in
  let first :=
    generate_chat_response (constant_env 200 (BodyContent "Valmiki." None) 0)
      empty_state "Who wrote the Ramayana?" "epics" "ramayana" None in
  generate_chat_response env (co_state first)
    "Who wrote the Ramayana?" "epics" "ramayana" None
  = {| co_result := Ok [("response", VStr "Valmiki.")];
       co_state := co_state first; co_trace := [] |}.
Proof.
  intros env first.
  refine (proj1 (stored_response_is_served_until_ttl env (co_state first)
                   "Who wrote the Ramayana?" "epics" "ramayana" None 0
                   [("response", VStr "Valmiki."); ("model", VStr "mistral-small-latest");
                    ("complexity_score", VInt 1); ("token_usage", VUsage [])]
                   (VStr "Valmiki.") [] _ _) _).
  - reflexivity.
  - vm_compute. reflexivity.
  - vm_compute. reflexivity.
Defined.

Lemma mistral_result_has_response (provider : nat -> post_result)
    (system_prompt message : string) (is_short_query : bool)
    (store : Analytics.store) (d : dict) :
  mo_result (generate_mistral_response provider system_prompt message
               is_short_query store) = Ok d ->
  exists r, dict_get "response" d = Some r.
Proof.
  unfold generate_mistral_response.
  destruct (retry_loop _ _ _ _ _ _); cbn [mo_result]; intros Hd;
    [apply Ok_inj in Hd | discriminate Hd | apply Ok_inj in Hd];
    subst d; eexists; reflexivity.
Qed.

(** C8, amended. When the message, the category and the topic are [str]:
    whatever they are, and whatever the provider argument, the cache, the
    clock, the presence of the API key and the behaviour of the provider
    (answers of any status, with or without a usable body, or exceptions of
    any kind on any request), [generate_chat_response] returns a dict and
    that dict has a ['response'] field; no exception reaches the caller. *)
Theorem chat_response_always_carries_response
    (env : environment) (st : state) (message category topic : string)
    (provider : option string) :
  exists (d : dict) (r : pyval),
    co_result (generate_chat_response env st message category topic provider) = Ok d /\
    dict_get "response" d = Some r.
Proof.
  unfold generate_chat_response.
  destruct (cache_lookup _ _ _) as [cached|].
  - eexists. eexists. split; reflexivity.
  - unfold generate_fresh_response.
    destruct (build_system_prompt_total category topic (is_short_query_of message))
      as [system_prompt ->].
    destruct (env_mistral_api_available env).
    + destruct (mo_result _) as [d|e] eqn:Hmo; cbn [co_result].
      * destruct (mistral_result_has_response _ _ _ _ _ _ Hmo) as [r Hr].
        exists d, r. split; [reflexivity | exact Hr].
      * eexists. eexists. split; reflexivity.
    + eexists. eexists. split; reflexivity.
Qed.

(** C8, as stated, fails: the message need not be a [str].  On the [int]
    message 12345, which the chat route lets through, and an empty cache,
    [message.lower()] raises [AttributeError] before the [try] block is
    entered, and the exception reaches the caller. *)
Lemma non_string_message_raises_to_the_caller :
  ~ forall (env : environment) (st : state) (message : argument)
           (category topic : string) (provider : option string),
      exists (d : dict) (r : pyval),
        co_result (generate_chat_response_any env st message category topic provider)
        = Ok d /\
        dict_get "response" d = Some r.
Proof.
  intros Hall.
  destruct (Hall (constant_env 200 (BodyContent "Sage Valmiki." None) 0) empty_state
              (ArgInt 12345) "epics" "ramayana" None) as [d [r [Hd _]]].
  vm_compute in Hd. discriminate Hd.
Qed.

(** Closes a frame goal on a path that leaves the cache as it was. *)
Ltac cache_untouched := split; [reflexivity |]; split; [trivial | lia].

(** X2. [generate_chat_response] deletes nothing from the cache and changes no
    entry but the one under its own key; the cache can only grow. *)
Lemma chat_response_cache_frame
    (env : environment) (st : state) (message category topic : string)
    (provider : option string) :
  let out := generate_chat_response env st message category topic provider in
  (forall k, k <> cache_key_of (env_hash env) category topic message ->
        dict_get k (RESPONSE_CACHE (co_state out)) = dict_get k (RESPONSE_CACHE st)) /\
  (forall k, In k (keys (RESPONSE_CACHE st)) ->
        In k (keys (RESPONSE_CACHE (co_state out)))) /\
  length (RESPONSE_CACHE st) <= length (RESPONSE_CACHE (co_state out)).
Proof.
  intros out. subst out. unfold generate_chat_response.
  destruct (cache_lookup _ _ _) as [cached|]; cbn [co_state]; [cache_untouched |].
  unfold generate_fresh_response.
  destruct (build_system_prompt _ _ _) as [system_prompt|e]; cbn [co_state];
    [| cache_untouched].
  destruct (env_mistral_api_available env); cbn [co_state]; [| cache_untouched].
  destruct (mo_result _) as [d|e]; cbn [co_state RESPONSE_CACHE]; [| cache_untouched].
  unfold cache_store.
  destruct d as [|kv d]; [cache_untouched |].
  destruct (dict_get "response" (kv :: d)) as [r|]; [| cache_untouched].
  split; [intros k Hk; apply dict_get_set_other; exact Hk |].
  split; [intros k Hk; apply dict_set_keeps_keys; exact Hk |].
  apply dict_set_length.
Qed.

(** C9. When the provider call fails (its first answer is an HTTP error
    status that is not retried), [generate_chat_response] still writes the
    cache: the fallback text is stored under the call's key with a full TTL,
    although the dict returned carries an ['error'] field. The write guarded
    by "Cache the successful response" also fires for the fallback dict. *)
Theorem failed_provider_call_is_cached
    (env : environment) (st : state) (message category topic : string)
    (provider : option string) (status : Z) (ra : retry_after) (b : body) :
  env_mistral_api_available env = true ->
  cache_lookup (env_now_lookup env)
    (cache_key_of (env_hash env) category topic message) (RESPONSE_CACHE st) = None ->
  env_provider env 0
  = PostReturns {| status_code := status; retry_after_header := ra;
                   response_body := b |} ->
  (400 <= status < 500)%Z ->
  status <> 429%Z ->
  let out := generate_chat_response env st message category topic provider in
  exists (d : dict) (fallback_response : string),
    co_result out = Ok d /\
    dict_get "response" d = Some (VStr fallback_response) /\
    dict_get "error" d = Some (VStr "api_error") /\
    dict_get (cache_key_of (env_hash env) category topic message)
      (RESPONSE_CACHE (co_state out))
    = Some {| ce_response := VStr fallback_response;
              ce_expiry := env_now_store env + timedelta_seconds CACHE_TTL |}.
Proof.
  intros Havail Hmiss Hfirst Hrange Hnot out. subst out.
  unfold generate_chat_response. rewrite Hmiss.
  unfold generate_fresh_response.
  destruct (build_system_prompt_total category topic (is_short_query_of message))
    as [system_prompt ->].
  rewrite Havail. unfold generate_mistral_response.
  destruct (select_params_retries (analyze_content message system_prompt)
              (is_short_query_of message)) as [n ->].
  rewrite (retry_loop_client_error _ _ status ra b n Hfirst Hrange Hnot).
  cbn [mo_result mo_store mo_trace co_result co_state RESPONSE_CACHE pyval_of_error].
  eexists. eexists.
  split; [reflexivity |]. split; [reflexivity |]. split; [reflexivity |].
  unfold cache_store.
  change (dict_get "response" (("response", ?v) :: ?rest)) with (Some v).
  apply dict_get_set_same.
Qed.

Lemma failed_provider_call_is_cached_witness :
  let env := constant_env 401 (BodyRaises ValueError) 0 in
  let out := generate_chat_response env empty_state
               "Who wrote the Ramayana?" "epics" "ramayana" None in
  exists (d : dict) (fallback_response : string),
    co_result out = Ok d /\
    dict_get "response" d = Some (VStr fallback_response) /\
    dict_get "error" d = Some (VStr "api_error") /\
    dict_get (cache_key_of (env_hash env) "epics" "ramayana" "Who wrote the Ramayana?")
      (RESPONSE_CACHE (co_state out))
    = Some {| ce_response := VStr fallback_response;
              ce_expiry := env_now_store env + timedelta_seconds CACHE_TTL |}.
Proof.
  intros env out.
  apply (failed_provider_call_is_cached env empty_state
           "Who wrote the Ramayana?" "epics" "ramayana" None 401
           RetryAfterAbsent (BodyRaises ValueError)).
  - reflexivity.
  - reflexivity.
  - reflexivity.
  - lia.
  - discriminate.
Defined.

(** ** The catalogue of categories and topics *)

Module CategoriesFacts.
Import Categories.

Lemma same_option_eq (a b : option string) : same_option a b = true <-> a = b.
Proof.
  destruct a as [x|], b as [y|]; cbn; split; intros H; try discriminate; try reflexivity.
  - apply String.eqb_eq in H. congruence.
  - apply Some_inj in H. subst y. apply String.eqb_refl.
Qed.

Lemma entry_eqb_eq (a b : topic_entry) : entry_eqb a b = true -> a = b.
Proof.
  unfold entry_eqb. intros H.
  apply andb_true_iff in H as [H Hsub]. apply andb_true_iff in H as [H Hcat].
  apply andb_true_iff in H as [Hid Hname].
  apply String.eqb_eq in Hid, Hname, Hcat. apply same_option_eq in Hsub.
  destruct a, b; cbn in *; congruence.
Qed.

(** X6. [get_topic_info] returns an entry of [get_all_topics] that has the
    requested id and agrees with every filter that is given (a non-empty
    category or subcategory id); it returns [None] only when every entry with
    that id is excluded by a given filter. An empty or missing filter
    excludes nothing. *)
Theorem get_topic_info_finds_a_matching_entry
    (topic_id : string) (category_id subcategory_id : option string) :
  match get_topic_info topic_id category_id subcategory_id with
  | Some t =>
      In t get_all_topics /\ te_id t = topic_id /\
      (given category_id = true -> category_id = Some (te_category_id t)) /\
      (given subcategory_id = true -> subcategory_id = te_subcategory_id t)
  | None =>
      forall t, In t get_all_topics -> te_id t = topic_id ->
        (given category_id = true /\ category_id <> Some (te_category_id t)) \/
        (given subcategory_id = true /\ subcategory_id <> te_subcategory_id t)
  end.
Proof.
  unfold get_topic_info. generalize get_all_topics as all_topics.
  intros all_topics.
  induction all_topics as [|topic rest IH]; cbn [topic_info_in].
  - intros t [].
  - assert (Hrest :
      match topic_info_in rest topic_id category_id subcategory_id with
      | Some t =>
          In t (topic :: rest) /\ te_id t = topic_id /\
          (given category_id = true -> category_id = Some (te_category_id t)) /\
          (given subcategory_id = true -> subcategory_id = te_subcategory_id t)
      | None => True
      end).
    { destruct (topic_info_in rest topic_id category_id subcategory_id) as [t|];
        [| exact I].
      destruct IH as [Hin Hrest]. split; [right; exact Hin | exact Hrest]. }
    destruct (String.eqb (te_id topic) topic_id) eqn:Hid.
    + apply String.eqb_eq in Hid.
      destruct (given category_id) eqn:Hc; cbn [andb].
      * destruct (same_option (Some (te_category_id topic)) category_id) eqn:Hsc;
          cbn [negb].
        -- apply same_option_eq in Hsc.
           destruct (given subcategory_id) eqn:Hs; cbn [andb].
           ++ destruct (same_option (te_subcategory_id topic) subcategory_id) eqn:Hss;
                cbn [negb].
              ** apply same_option_eq in Hss.
                 split; [left; reflexivity |]. split; [exact Hid |].
                 split; intros _; congruence.
              ** destruct (topic_info_in rest topic_id category_id subcategory_id)
                   as [t|]; [exact Hrest |].
                 intros t [<- | Hin] Ht; [| apply IH; assumption].
                 right. split; [reflexivity |]. intros Heq.
                 assert (same_option (te_subcategory_id topic) subcategory_id = true)
                   by (apply same_option_eq; congruence).
                 congruence.
           ++ split; [left; reflexivity |]. split; [exact Hid |].
              split; [intros _; congruence | discriminate].
        -- destruct (topic_info_in rest topic_id category_id subcategory_id)
             as [t|]; [exact Hrest |].
           intros t [<- | Hin] Ht; [| apply IH; assumption].
           left. split; [reflexivity |]. intros Heq.
           assert (same_option (Some (te_category_id topic)) category_id = true)
             by (apply same_option_eq; congruence).
           congruence.
      * destruct (given subcategory_id) eqn:Hs; cbn [andb].
        -- destruct (same_option (te_subcategory_id topic) subcategory_id) eqn:Hss;
             cbn [negb].
           ++ apply same_option_eq in Hss.
              split; [left; reflexivity |]. split; [exact Hid |].
              split; [discriminate | intros _; congruence].
           ++ destruct (topic_info_in rest topic_id category_id subcategory_id)
                as [t|]; [exact Hrest |].
              intros t [<- | Hin] Ht; [| apply IH; assumption].
              right. split; [reflexivity |]. intros Heq.
              assert (same_option (te_subcategory_id topic) subcategory_id = true)
                by (apply same_option_eq; congruence).
              congruence.
        -- split; [left; reflexivity |]. split; [exact Hid |].
           split; discriminate.
    + destruct (topic_info_in rest topic_id category_id subcategory_id) as [t|];
        [exact Hrest |].
      intros t [<- | Hin] Ht; [| apply IH; assumption].
      apply String.eqb_neq in Hid. contradiction.
Qed.

Lemma catalogue_round_trips : forallb entry_round_trips get_all_topics = true.
Proof. vm_compute. reflexivity. Qed.

(** X7. Every topic that [get_all_topics] lists is found again by
    [get_topic_info] under its own id and category, with or without its
    subcategory, as the very same entry (so a topic id is not repeated inside
    a category); its category is found by [get_category_by_id] and its
    subcategory, if any, by [get_subcategory_by_id]. Every catalogue entry
    therefore passes the category and topic checks of the chat route. *)
Theorem listed_topics_are_found_again (t : topic_entry) :
  In t get_all_topics ->
  get_topic_info (te_id t) (Some (te_category_id t)) (te_subcategory_id t) = Some t /\
  get_topic_info (te_id t) (Some (te_category_id t)) None = Some t /\
  (exists c, get_category_by_id (te_category_id t) = Some c /\
             c_id c = te_category_id t) /\
  (forall s, te_subcategory_id t = Some s ->
             exists sc, get_subcategory_by_id (te_category_id t) s = Some sc /\
                        sc_id sc = s).
Proof.
  intros Hin.
  pose proof (proj1 (forallb_forall entry_round_trips get_all_topics)
                catalogue_round_trips t Hin) as Hrt.
  unfold entry_round_trips in Hrt.
  apply andb_true_iff in Hrt as [Hrt Hsub]. apply andb_true_iff in Hrt as [Hrt Hcat].
  apply andb_true_iff in Hrt as [Hfull Hnosub].
  split.
  { destruct (get_topic_info _ _ (te_subcategory_id t)) as [t'|]; [| discriminate].
    apply entry_eqb_eq in Hfull. congruence. }
  split.
  { destruct (get_topic_info _ _ None) as [t'|]; [| discriminate].
    apply entry_eqb_eq in Hnosub. congruence. }
  split.
  { destruct (get_category_by_id (te_category_id t)) as [c|]; [| discriminate].
    exists c. split; [reflexivity |]. apply String.eqb_eq, Hcat. }
  intros s Hs. rewrite Hs in Hsub.
  destruct (get_subcategory_by_id (te_category_id t) s) as [sc|]; [| discriminate].
  exists sc. split; [reflexivity |]. apply String.eqb_eq, Hsub.
Qed.

Lemma listed_topics_are_found_again_witness :
  get_topic_info "krishna" (Some "characters") (Some "avatars")
  = Some {| te_id := "krishna"; te_name := "Lord Krishna";
            te_category_id := "characters"; te_subcategory_id := Some "avatars" |}.
Proof.
  refine (proj1 (listed_topics_are_found_again
                   {| te_id := "krishna"; te_name := "Lord Krishna";
                      te_category_id := "characters";
                      te_subcategory_id := Some "avatars" |} _)).
  vm_compute. tauto.
Defined.

Lemma topic_name_in_is_unfiltered_info (all_topics : list topic_entry) (topic_id : string) :
  topic_name_in all_topics topic_id
  = match topic_info_in all_topics topic_id None None with
    | Some t => te_name t
    | None => "Unknown Topic"
    end.
Proof.
  induction all_topics as [|topic rest IH]; cbn [topic_name_in topic_info_in given andb].
  - reflexivity.
  - destruct (String.eqb (te_id topic) topic_id); [reflexivity | exact IH].
Qed.

(** X8. [get_topic_name] looks a topic up by its id alone: it gives the name
    of the entry that [get_topic_info] finds without filters, or
    ['Unknown Topic']. Ids are repeated across categories, so for some listed
    topic the name it gives is that of another category's topic. *)
Theorem topic_name_ignores_the_category :
  (forall topic_id,
      get_topic_name topic_id
      = match get_topic_info topic_id None None with
        | Some t => te_name t
        | None => "Unknown Topic"
        end) /\
  (exists t, In t get_all_topics /\ get_topic_name (te_id t) <> te_name t).
Proof.
  split.
  - intros topic_id. apply topic_name_in_is_unfiltered_info.
  - assert (Hex : existsb (fun t => negb (String.eqb (get_topic_name (te_id t)) (te_name t)))
                    get_all_topics = true) by (vm_compute; reflexivity).
    apply existsb_exists in Hex as [t [Hin Hne]].
    exists t. split; [exact Hin |].
    apply negb_true_iff, String.eqb_neq in Hne. exact Hne.
Qed.

End CategoriesFacts.

(** ** Provider client: answers after failures, and unreadable headers *)

Lemma backoff_sleep_ok (p : params) (retry_count : nat) (tr : list event) :
  (0 <= backoff_factor p)%Q ->
  (if 0 <? retry_count then sleep (backoff_time p retry_count) tr else Ok tr)
  = Ok (tr ++ (if 0 <? retry_count then [EvSleep (backoff_time p retry_count)] else [])).
Proof.
  intros Hp. destruct (0 <? retry_count).
  - apply sleep_nonneg, backoff_time_nonneg, Hp.
  - rewrite app_nil_r. reflexivity.
Qed.

(** An answer whose status is no error status and whose body holds the
    content ends the loop with that content. *)
Lemma retry_loop_answer (provider : nat -> post_result) (p : params)
    (remaining retry_count : nat) (last_error : option string) (tr : list event)
    (r : response) (content : string) (usage : option (list (string * Z))) :
  (0 <= backoff_factor p)%Q ->
  provider retry_count = PostReturns r ->
  (status_code r < 400 \/ 600 <= status_code r)%Z ->
  response_body r = BodyContent content usage ->
  retry_loop provider p (S remaining) retry_count last_error tr
  = LoopReturn content usage (tr ++ backoff_trace p retry_count 1).
Proof.
  intros Hp Hr Hstatus Hbody. cbn [retry_loop backoff_trace]. unfold try_body.
  rewrite (backoff_sleep_ok p retry_count tr Hp), Hr.
  assert (H429 : (status_code r =? 429)%Z = false) by (apply Z.eqb_neq; lia).
  assert (Herr : ((400 <=? status_code r) && (status_code r <? 600))%Z = false).
  { apply andb_false_iff. destruct Hstatus as [Hlo | Hhi].
    - left. apply Z.leb_gt. exact Hlo.
    - right. apply Z.ltb_ge. exact Hhi. }
  rewrite H429, Herr, Hbody, app_nil_r, <- app_assoc. reflexivity.
Qed.

Lemma retry_loop_recovers (provider : nat -> post_result) (p : params)
    (r : response) (content : string) (usage : option (list (string * Z))) :
  (0 <= backoff_factor p)%Q ->
  (status_code r < 400 \/ 600 <= status_code r)%Z ->
  response_body r = BodyContent content usage ->
  forall (k remaining retry_count : nat) (last_error : option string) (tr : list event),
    k < remaining ->
    (forall n, retry_count <= n < retry_count + k ->
               exists tag, retry_tag (provider n) = Some tag) ->
    provider (retry_count + k) = PostReturns r ->
    retry_loop provider p remaining retry_count last_error tr
    = LoopReturn content usage (tr ++ backoff_trace p retry_count (S k)).
Proof.
  intros Hp Hstatus Hbody. induction k as [|k IH];
    intros remaining retry_count last_error tr Hk Hfail Hr;
    (destruct remaining as [|remaining]; [lia |]).
  - rewrite Nat.add_0_r in Hr.
    apply (retry_loop_answer provider p remaining retry_count last_error tr r
             content usage Hp Hr Hstatus Hbody).
  - destruct (Hfail retry_count) as [tag Htag]; [lia |].
    rewrite (retry_loop_retryable_step provider p remaining retry_count last_error tr
               tag Hp Htag).
    rewrite (IH remaining (retry_count + 1)).
    + change (backoff_trace p retry_count (S (S k)))
        with ((if 0 <? retry_count then [EvSleep (backoff_time p retry_count)] else [])
              ++ [EvPost retry_count] ++ backoff_trace p (retry_count + 1) (S k)).
      rewrite <- !app_assoc. reflexivity.
    + lia.
    + intros n Hn. apply Hfail. lia.
    + replace (retry_count + 1 + k) with (retry_count + S k) by lia. exact Hr.
Qed.

(** X9. When the first [k] requests fail with a timeout, a connection error
    or an HTTP 5xx status, [k] is less than [max_retries], and the next
    request gets an answer whose status is below 400 or at least 600 (any
    such status, not only 200) and whose body holds the content, the client
    returns the content with the model, the complexity score and the token
    usage (an empty dict when the body has none), after [k + 1] requests
    separated by the backoff sleeps alone, and records no error. *)
Theorem client_returns_the_answer_after_retryable_failures
    (provider : nat -> post_result) (system_prompt message : string)
    (is_short_query : bool) (store : Analytics.store) (k : nat) (r : response)
    (content : string) (usage : option (list (string * Z))) :
  k < max_retries (select_params (analyze_content message system_prompt) is_short_query) ->
  (forall n, n < k -> exists tag, retry_tag (provider n) = Some tag) ->
  provider k = PostReturns r ->
  (status_code r < 400 \/ 600 <= status_code r)%Z ->
  response_body r = BodyContent content usage ->
  let ca := analyze_content message system_prompt in
  let p := select_params ca is_short_query in
  let mo := generate_mistral_response provider system_prompt message
              is_short_query store in
  mo_result mo
  = Ok [("response", VStr content);
        ("model", VStr (model p));
        ("complexity_score", VInt (Z.of_nat (ca_complexity ca)));
        ("token_usage", VUsage (default [] usage))] /\
  mo_trace mo = backoff_trace p 0 (S k) /\
  attempts (mo_trace mo) = S k /\
  mo_store mo = store.
Proof.
  intros Hk Hfail Hr Hstatus Hbody ca p mo. subst mo.
  unfold generate_mistral_response. fold ca. fold p. fold ca p in Hk.
  rewrite (retry_loop_recovers provider p r content usage
             (select_params_backoff ca is_short_query) Hstatus Hbody
             k (max_retries p) 0 None [] Hk).
  - cbn [mo_result mo_trace mo_store app].
    split; [reflexivity |]. split; [reflexivity |].
    split; [apply attempts_backoff | reflexivity].
  - intros n Hn. apply Hfail. lia.
  - exact Hr.
Qed.

Lemma client_returns_the_answer_after_retryable_failures_witness :
  let provider := fun n : nat =>
    if n =? 0 then PostRaises Timeout
    else PostReturns {| status_code := 200; retry_after_header := RetryAfterAbsent;
                        response_body := BodyContent "Sage Valmiki." None |} in
  let mo := generate_mistral_response provider "" "Who wrote the Ramayana?" false
              Analytics.initial in
  mo_trace mo = [EvPost 0; EvSleep (3 # 2); EvPost 1] /\
  dict_get "response" (match mo_result mo with Ok d => d | Raise _ => [] end)
  = Some (VStr "Sage Valmiki.").
Proof.
  intros provider mo. subst mo.
  destruct (client_returns_the_answer_after_retryable_failures provider ""
              "Who wrote the Ramayana?" false Analytics.initial 1
              {| status_code := 200; retry_after_header := RetryAfterAbsent;
                 response_body := BodyContent "Sage Valmiki." None |}
              "Sage Valmiki." None)
    as [Hresult [Htrace _]].
  - vm_compute. lia.
  - intros n Hn. exists "timeout". destruct n as [|n]; [reflexivity | lia].
  - reflexivity.
  - left. cbn. lia.
  - reflexivity.
  - split.
    + rewrite Htrace. reflexivity.
    + rewrite Hresult. reflexivity.
Defined.

Lemma sleep_negative (n : Z) (tr : list event) :
  (n < 0)%Z -> sleep (inject_Z n) tr = Raise ValueError.
Proof.
  intros Hn. unfold sleep.
  assert (H : Qle_bool 0 (inject_Z n) = false).
  { destruct (Qle_bool 0 (inject_Z n)) eqn:Hle; [| reflexivity].
    apply Qle_bool_iff in Hle. unfold Qle, inject_Z in Hle. cbn in Hle. lia. }
  rewrite H. reflexivity.
Qed.

(** A rate-limited first answer whose [Retry-After] header [int] rejects, or
    reads as a negative number, raises [ValueError] out of the loop. *)
Lemma retry_loop_unreadable_retry_after (provider : nat -> post_result) (p : params)
    (r : response) (n : nat) :
  provider 0 = PostReturns r ->
  status_code r = 429%Z ->
  (retry_after_header r = RetryAfterInvalid \/
   exists seconds, retry_after_header r = RetryAfterInt seconds /\ (seconds < 0)%Z) ->
  retry_loop provider p (S n) 0 None [] = LoopRaise ValueError [EvPost 0].
Proof.
  intros Hr Hstatus Hheader.
  cbn [retry_loop]. unfold try_body. cbn [Nat.ltb Nat.leb app].
  rewrite Hr, Hstatus. change (429 =? 429)%Z with true. cbv iota.
  unfold retry_after_seconds.
  destruct Hheader as [-> | [seconds [-> Hneg]]].
  - reflexivity.
  - rewrite (sleep_negative seconds _ Hneg). reflexivity.
Qed.

(** X10. When the first answer is an HTTP 429 whose [Retry-After] header is
    no integer (an HTTP date, say) or a negative one, [int] or [time.sleep]
    raises [ValueError], which no [except] clause of the client catches: the
    client raises after one request, with no retry, no fallback dict and no
    error recorded; [generate_chat_response] then returns its generic error
    message and leaves the cache and the analytics store as they were.  The
    negative values are those a C timestamp holds, from -9223372036 on: below
    them [time.sleep] raises [OverflowError] instead, which [sleep] does not
    model. *)
Theorem unreadable_retry_after_aborts_the_call
    (env : environment) (st : state) (message category topic : string)
    (provider : option string) (r : response) :
  env_mistral_api_available env = true ->
  cache_lookup (env_now_lookup env) (cache_key_of (env_hash env) category topic message)
    (RESPONSE_CACHE st) = None ->
  env_provider env 0 = PostReturns r ->
  status_code r = 429%Z ->
  (retry_after_header r = RetryAfterInvalid \/
   exists seconds,
     retry_after_header r = RetryAfterInt seconds /\ (-9223372036 <= seconds < 0)%Z) ->
  (forall system_prompt is_short_query store,
      let mo := generate_mistral_response (env_provider env) system_prompt message
                  is_short_query store in
      mo_result mo = Raise ValueError /\ mo_trace mo = [EvPost 0] /\ mo_store mo = store) /\
  generate_chat_response env st message category topic provider
  = {| co_result :=
         Ok [("response",
              VStr "An error occurred while generating a response. Please try again later.")];
       co_state := st;
       co_trace := [EvPost 0] |}.
Proof.
  intros Havailable Hmiss Hr Hstatus Hrange.
  assert (Hheader :
    retry_after_header r = RetryAfterInvalid \/
    exists seconds, retry_after_header r = RetryAfterInt seconds /\ (seconds < 0)%Z).
  { destruct Hrange as [Hinvalid | [seconds [Hint [_ Hneg]]]];
      [left; exact Hinvalid | right; exists seconds; split; assumption]. }
  assert (Hclient : forall system_prompt is_short_query store,
    generate_mistral_response (env_provider env) system_prompt message
      is_short_query store
    = {| mo_result := Raise ValueError; mo_trace := [EvPost 0]; mo_store := store |}).
  { intros system_prompt is_short_query store. unfold generate_mistral_response.
    destruct (select_params_retries (analyze_content message system_prompt) is_short_query)
      as [n Hn].
    rewrite Hn.
    rewrite (retry_loop_unreadable_retry_after (env_provider env) _ r n Hr Hstatus Hheader).
    reflexivity. }
  split.
  - intros system_prompt is_short_query store mo. subst mo. rewrite Hclient.
    split; [reflexivity |]. split; reflexivity.
  - unfold generate_chat_response. rewrite Hmiss. unfold generate_fresh_response.
    destruct (build_system_prompt_total category topic (is_short_query_of message))
      as [system_prompt Hprompt].
    rewrite Hprompt, Havailable, Hclient. cbn [mo_result mo_trace mo_store].
    destruct st as [cache store]. reflexivity.
Qed.

Lemma unreadable_retry_after_aborts_the_call_witness :
  let env :=
    {| env_hash := fun s => Z.of_nat (String.length s);
       env_mistral_api_available := true;
       env_provider := fun _ =>
         PostReturns {| status_code := 429;
                        retry_after_header := RetryAfterInvalid;
                        response_body := BodyRaises (OtherException "JSONDecodeError") |};
       env_now_lookup := 0;
       env_now_store := 0 |} in
  co_state (generate_chat_response env empty_state "Who wrote the Ramayana?"
              "epics" "ramayana" None)
  = empty_state.
Proof.
  intros env.
  destruct (unreadable_retry_after_aborts_the_call env empty_state
              "Who wrote the Ramayana?" "epics" "ramayana" None
              {| status_code := 429; retry_after_header := RetryAfterInvalid;
                 response_body := BodyRaises (OtherException "JSONDecodeError") |})
    as [_ Hchat].
  - reflexivity.
  - reflexivity.
  - reflexivity.
  - reflexivity.
  - left. reflexivity.
  - rewrite Hchat. reflexivity.
Defined.

(** ** The category the client reads back from the prompt *)

Lemma prefix_app (needle a b : string) :
  String.prefix needle a = true -> String.prefix needle (a +:+ b) = true.
Proof.
  revert a. induction needle as [|c needle IH]; intros a H.
  - destruct (a +:+ b); reflexivity.
  - destruct a as [|c' a]; [discriminate H |].
    change (String c' a +:+ b) with (String c' (a +:+ b)).
    cbn [String.prefix] in *.
    destruct (ascii_dec c c'); [apply IH, H | discriminate H].
Qed.

Lemma contains_app_l (needle a b : string) :
  contains needle a = true -> contains needle (a +:+ b) = true.
Proof.
  induction a as [|c a IH]; intros H.
  - cbn [contains] in H. rewrite orb_false_r in H.
    destruct needle; [| discriminate H].
    destruct b; reflexivity.
  - change (String c a +:+ b) with (String c (a +:+ b)).
    cbn [contains] in *.
    apply orb_true_iff in H as [H | H]; apply orb_true_iff.
    + left. apply (prefix_app needle (String c a) b H).
    + right. apply IH, H.
Qed.

Lemma contains_app_r (needle a b : string) :
  contains needle b = true -> contains needle (a +:+ b) = true.
Proof.
  intros H. induction a as [|c a IH].
  - exact H.
  - change (String c a +:+ b) with (String c (a +:+ b)).
    cbn [contains]. rewrite IH. apply orb_true_r.
Qed.

Lemma lower_app (a b : string) : lower (a +:+ b) = lower a +:+ lower b.
Proof.
  induction a as [|c a IH]; [reflexivity |].
  change (String c a +:+ b) with (String c (a +:+ b)).
  cbn [lower]. rewrite IH. reflexivity.
Qed.

(** Every persona prompt asks the model to "acknowledge" what it does not
    know. *)
Lemma base_prompt_mentions_knowledge (p : personality) :
  contains "knowledge" (lower (base_prompt p)) = true.
Proof.
  unfold base_prompt. rewrite !lower_app.
  do 4 apply contains_app_r. apply contains_app_l.
  vm_compute. reflexivity.
Qed.

Lemma first_category_with_knowledge (lowered : string) :
  contains "knowledge" lowered = true ->
  In (first_category_in known_categories lowered)
     ["vedas"; "puranas"; "epics"; "knowledge"].
Proof.
  intros H. unfold known_categories. cbn [first_category_in].
  destruct (contains "vedas" lowered); [left; reflexivity |].
  destruct (contains "puranas" lowered); [right; left; reflexivity |].
  destruct (contains "epics" lowered); [right; right; left; reflexivity |].
  rewrite H. right; right; right; left; reflexivity.
Qed.

(** X11. The client recovers the category by searching the lower-cased
    system prompt for "vedas", "puranas", "epics", "knowledge" and
    "characters", in this order. Every prompt that [build_system_prompt]
    returns contains "acknowledge", hence "knowledge": the category read
    back is one of the first four, never "characters" and never "general",
    whatever category the prompt was built for; and the fallback texts of a
    failed call are those of one of these four categories. *)
Theorem built_prompts_are_read_as_one_of_four_categories
    (category topic : string) (is_short_query : bool) :
  exists prompt,
    build_system_prompt category topic is_short_query = Ok prompt /\
    In (extract_category prompt) ["vedas"; "puranas"; "epics"; "knowledge"] /\
    (forall message, ca_category (analyze_content message prompt) = extract_category prompt) /\
    In (fallbacks_for (extract_category prompt))
       [fallback_vedas; fallback_puranas; fallback_epics; fallback_knowledge].
Proof.
  assert (Hcat : exists prompt,
    build_system_prompt category topic is_short_query = Ok prompt /\
    In (extract_category prompt) ["vedas"; "puranas"; "epics"; "knowledge"]).
  { unfold build_system_prompt.
    destruct (get_topic_specific_guidance_total category topic) as [g ->].
    cbn [bind]. eexists. split; [reflexivity |].
    unfold extract_category. apply first_category_with_knowledge.
    destruct (truthy g); rewrite !lower_app;
      repeat apply contains_app_l; apply base_prompt_mentions_knowledge. }
  destruct Hcat as [prompt [Hprompt Hin]]. exists prompt.
  split; [exact Hprompt |]. split; [exact Hin |]. split; [reflexivity |].
  cbn [In] in Hin.
  destruct Hin as [<- | [<- | [<- | [<- | []]]]].
  - left. reflexivity.
  - right; left. reflexivity.
  - right; right; left. reflexivity.
  - right; right; right; left. reflexivity.
Qed.

(** ** Provider client: time spent sleeping *)

Lemma total_sleep_app (a b : list event) :
  (total_sleep (a ++ b) == total_sleep a + total_sleep b)%Q.
Proof.
  induction a as [|e a IH]; cbn [total_sleep app].
  - lra.
  - destruct e; [rewrite IH; lra | exact IH].
Qed.

Lemma sleep_total (d : Q) (tr tr' : list event) :
  sleep d tr = Ok tr' -> (total_sleep tr' == total_sleep tr + d)%Q.
Proof.
  unfold sleep. destruct (Qle_bool 0 d); [| discriminate].
  intros H. apply Ok_inj in H. subst tr'.
  rewrite total_sleep_app. cbn [total_sleep]. lra.
Qed.

(** A pass whose answer is not a 429 sleeps for the backoff at most. *)
Lemma try_body_sleep (provider : nat -> post_result) (p : params)
    (retry_count : nat) (tr : list event) :
  (0 <= backoff_factor p)%Q ->
  (forall r, provider retry_count = PostReturns r -> status_code r <> 429%Z) ->
  (total_sleep (snd (try_body provider p retry_count tr))
   <= total_sleep tr + (if 0 <? retry_count then backoff_time p retry_count else 0))%Q.
Proof.
  intros Hp Hno. unfold try_body.
  rewrite (backoff_sleep_ok p retry_count tr Hp).
  assert (Hposted :
    (total_sleep ((tr ++ (if 0 <? retry_count
                          then [EvSleep (backoff_time p retry_count)] else []))
                  ++ [EvPost retry_count])
     == total_sleep tr + (if 0 <? retry_count then backoff_time p retry_count else 0))%Q).
  { rewrite !total_sleep_app. destruct (0 <? retry_count); cbn [total_sleep]; lra. }
  destruct (provider retry_count) as [e|r] eqn:Hr; cbn [snd].
  - rewrite Hposted. lra.
  - assert (H429 : (status_code r =? 429)%Z = false)
      by (apply Z.eqb_neq, Hno; reflexivity).
    rewrite H429.
    destruct ((400 <=? status_code r) && (status_code r <? 600))%Z; cbn [snd].
    + rewrite Hposted. lra.
    + destruct (response_body r); cbn [snd]; rewrite Hposted; lra.
Qed.

Lemma retry_loop_sleep (provider : nat -> post_result) (p : params) :
  (0 <= backoff_factor p)%Q ->
  (forall n r, provider n = PostReturns r -> status_code r <> 429%Z) ->
  forall (remaining retry_count : nat) (last_error : option string) (tr : list event),
    (total_sleep (trace_of (retry_loop provider p remaining retry_count last_error tr))
     <= total_sleep tr + backoff_sum p retry_count remaining)%Q.
Proof.
  intros Hp Hno. induction remaining as [|remaining IH];
    intros retry_count last_error tr; cbn [retry_loop backoff_sum].
  - cbn [trace_of]. lra.
  - pose proof (try_body_sleep provider p retry_count tr Hp (Hno retry_count)) as Hbody.
    assert (Hrest : (0 <= backoff_sum p (retry_count + 1) remaining)%Q).
    { clear IH Hbody. revert retry_count. induction remaining as [|remaining IHsum];
        intros retry_count; cbn [backoff_sum]; [lra |].
      specialize (IHsum (retry_count + 1)).
      assert (0 <= (if 0 <? retry_count + 1
                    then backoff_time p (retry_count + 1) else 0))%Q.
      { destruct (0 <? retry_count + 1); [| lra].
        apply backoff_time_nonneg, Hp. }
      lra. }
    destruct (try_body provider p retry_count tr) as [exit tr1]. cbn [snd] in Hbody.
    assert (Hnext : forall last_error',
      (total_sleep (trace_of (retry_loop provider p remaining (retry_count + 1)
                                last_error' tr1))
       <= total_sleep tr
          + ((if 0 <? retry_count then backoff_time p retry_count else 0)
             + backoff_sum p (retry_count + 1) remaining))%Q).
    { intros last_error'.
      pose proof (IH (retry_count + 1) last_error' tr1) as H. lra. }
    destruct exit as [content usage | | e].
    + cbn [trace_of]. lra.
    + apply Hnext.
    + destruct e as [ | | | | [status|] | name]; cbn [trace_of]; try lra;
        try apply Hnext.
      destruct ((500 <=? status) || (status =? 429))%Z; cbn [trace_of];
        [apply Hnext | lra].
Qed.

Lemma backoff_sum_bound (ca : content_analysis) (is_short_query : bool) :
  let p := select_params ca is_short_query in
  (backoff_sum p 0 (max_retries p) <= 6)%Q.
Proof.
  unfold select_params.
  destruct is_short_query; [vm_compute; discriminate |].
  destruct (_ || _); [vm_compute; discriminate |].
  destruct (_ || _); vm_compute; discriminate.
Qed.

(** X12. As long as no answer of the provider is an HTTP 429, the client
    sleeps only for its exponential backoff: the time slept during one call
    is at most the sum of [backoff_factor ** k] over the retries
    [0 < k < max_retries], which is at most 6 seconds for every parameter
    set. (After a 429 the sleep is the server's [Retry-After], which the
    client does not bound.) *)
Theorem client_sleeps_at_most_six_seconds_unless_rate_limited
    (provider : nat -> post_result) (system_prompt message : string)
    (is_short_query : bool) (store : Analytics.store) :
  (forall n r, provider n = PostReturns r -> status_code r <> 429%Z) ->
  let p := select_params (analyze_content message system_prompt) is_short_query in
  let mo := generate_mistral_response provider system_prompt message
              is_short_query store in
  (total_sleep (mo_trace mo) <= backoff_sum p 0 (max_retries p))%Q /\
  (total_sleep (mo_trace mo) <= 6)%Q.
Proof.
  intros Hno p mo.
  assert (Hsum : (total_sleep (mo_trace mo) <= backoff_sum p 0 (max_retries p))%Q).
  { subst mo. unfold generate_mistral_response. fold p.
    pose proof (retry_loop_sleep provider p
                  (select_params_backoff (analyze_content message system_prompt)
                     is_short_query)
                  Hno (max_retries p) 0 None []) as Hloop.
    cbn [total_sleep] in Hloop.
    destruct (retry_loop provider p (max_retries p) 0 None []);
      cbn [mo_trace trace_of] in *; lra. }
  split; [exact Hsum |].
  pose proof (backoff_sum_bound (analyze_content message system_prompt) is_short_query)
    as Hbound.
  cbv zeta in Hbound. fold p in Hbound. lra.
Qed.

Lemma client_sleeps_at_most_six_seconds_unless_rate_limited_witness :
  (total_sleep
     (mo_trace (generate_mistral_response (fun _ => PostRaises Timeout) ""
                  "Who wrote the Ramayana?" false Analytics.initial))
   <= 6)%Q.
Proof.
  refine (proj2 (client_sleeps_at_most_six_seconds_unless_rate_limited
                   (fun _ => PostRaises Timeout) "" "Who wrote the Ramayana?" false
                   Analytics.initial _)).
  intros n r H. discriminate H.
Defined.

(** ** Response cache: a question asked twice *)

(** X13. When a call of [generate_chat_response] returned the dict of the
    provider client (the only one with a ['model'] field: an answer or a
    fallback), a second call with the same category, topic and message in
    the same process, while the clock reads less than the time of the first
    call's cache write plus the TTL, sends no request and changes nothing: it
    returns a dict whose only field is the first call's ['response'] (the
    ['model'], ['complexity_score'], ['token_usage'] and ['error'] fields
    are not served again). *)
Theorem repeated_question_is_answered_from_the_cache
    (env1 env2 : environment) (st : state) (message category topic : string)
    (provider1 provider2 : option string) (response_data : dict) :
  env_hash env2 = env_hash env1 ->
  co_result (generate_chat_response env1 st message category topic provider1)
  = Ok response_data ->
  dict_mem "model" response_data = true ->
  (env_now_lookup env2 < env_now_store env1 + timedelta_seconds CACHE_TTL)%Z ->
  exists r,
    dict_get "response" response_data = Some r /\
    generate_chat_response env2
      (co_state (generate_chat_response env1 st message category topic provider1))
      message category topic provider2
    = {| co_result := Ok [("response", r)];
         co_state := co_state (generate_chat_response env1 st message category topic
                                 provider1);
         co_trace := [] |}.
Proof.
  intros Hhash Hres Hmodel Htime.
  unfold generate_chat_response in Hres |- *. rewrite Hhash.
  set (key := cache_key_of (env_hash env1) category topic message) in *.
  destruct (cache_lookup (env_now_lookup env1) key (RESPONSE_CACHE st)) as [cached|].
  { cbn [co_result] in Hres. apply Ok_inj in Hres. subst response_data.
    discriminate Hmodel. }
  unfold generate_fresh_response in Hres |- *.
  destruct (build_system_prompt category topic (is_short_query_of message))
    as [system_prompt|e]; [| discriminate Hres].
  destruct (env_mistral_api_available env1).
  2:{ cbn [co_result] in Hres. apply Ok_inj in Hres. subst response_data.
      discriminate Hmodel. }
  remember (generate_mistral_response (env_provider env1) system_prompt message
              (is_short_query_of message) (ANALYTICS_STORE st)) as mo eqn:Hmo.
  destruct (mo_result mo) as [d|e] eqn:Hd.
  2:{ cbn [co_result] in Hres. apply Ok_inj in Hres. subst response_data.
      discriminate Hmodel. }
  cbn [co_result] in Hres. apply Ok_inj in Hres. subst d.
  rewrite Hmo in Hd.
  destruct (mistral_result_has_response _ _ _ _ _ _ Hd) as [r Hr].
  exists r. split; [exact Hr |].
  cbn [co_state RESPONSE_CACHE].
  unfold cache_lookup, cache_store.
  destruct response_data as [|kv response_data]; [discriminate Hr |].
  rewrite Hr, dict_get_set_same. cbn [ce_expiry ce_response].
  apply Z.ltb_lt in Htime. rewrite Htime. reflexivity.
Qed.

Lemma repeated_question_is_answered_from_the_cache_witness :
  let env := constant_env 200 (BodyContent "Sage Valmiki." None) 0 in
  let first := generate_chat_response env empty_state "Who wrote the Ramayana?"
                 "epics" "ramayana" None in
  generate_chat_response env (co_state first) "Who wrote the Ramayana?"
    "epics" "ramayana" None
  = {| co_result := Ok [("response", VStr "Sage Valmiki.")];
       co_state := co_state first;
       co_trace := [] |}.
Proof.
  intros env first.
  edestruct (repeated_question_is_answered_from_the_cache env env empty_state
               "Who wrote the Ramayana?" "epics" "ramayana" None None)
    as [r [Hr Hsecond]].
  - reflexivity.
  - vm_compute. reflexivity.
  - vm_compute. reflexivity.
  - vm_compute. reflexivity.
  - vm_compute in Hr. apply Some_inj in Hr. subst r. exact Hsecond.
Defined.

(** ** Prompt builder: the spelling of the topic *)

Lemma normalize_char_idempotent (c : ascii) :
  let normalized (c : ascii) : ascii :=
    let c := if Ascii.eqb (lower_char c) " " then "_"%char else lower_char c in
    if Ascii.eqb c "-" then "_"%char else c in
  normalized (normalized c) = normalized c.
Proof.
  destruct c as [[] [] [] [] [] [] [] []]; reflexivity.
Qed.

Lemma normalize_char_keeps_ascii (c : ascii) :
  (N_of_ascii c <? 128)%N = true ->
  let c' := if Ascii.eqb (lower_char c) " " then "_"%char else lower_char c in
  (N_of_ascii (if Ascii.eqb c' "-" then "_"%char else c') <? 128)%N = true.
Proof.
  destruct c as [[] [] [] [] [] [] [] []]; intros H; try discriminate H; reflexivity.
Qed.

Lemma normalize_topic_keeps_ascii (topic : string) :
  is_ascii topic = true -> is_ascii (normalize_topic topic) = true.
Proof.
  unfold is_ascii, normalize_topic.
  induction topic as [|c topic IH];
    cbn [lower replace_char list_ascii_of_string forallb]; [reflexivity |].
  intros H. apply andb_true_iff in H as [Hc Htopic].
  apply andb_true_iff. split; [apply (normalize_char_keeps_ascii c Hc) | apply IH, Htopic].
Qed.

Lemma normalize_topic_idempotent (topic : string) :
  normalize_topic (normalize_topic topic) = normalize_topic topic.
Proof.
  unfold normalize_topic.
  induction topic as [|c topic IH]; cbn [lower replace_char]; [reflexivity |].
  f_equal; [apply (normalize_char_idempotent c) | exact IH].
Qed.

(** X14. On an ASCII topic the prompt builder reads the topic only through
    its normal form (lower case, spaces and hyphens turned into underscores),
    and normalising twice changes nothing: the topic and its normal form get
    the same guidance and the same prompt, so that ASCII ids differing only in
    case or in the use of space, hyphen and underscore are interchangeable. *)
Theorem prompt_depends_on_the_normalized_topic
    (category topic : string) (is_short_query : bool) :
  is_ascii topic = true ->
  is_ascii (normalize_topic topic) = true /\
  normalize_topic (normalize_topic topic) = normalize_topic topic /\
  get_topic_specific_guidance category (normalize_topic topic)
  = get_topic_specific_guidance category topic /\
  build_system_prompt category (normalize_topic topic) is_short_query
  = build_system_prompt category topic is_short_query.
Proof.
  intros Hascii.
  assert (Hguidance :
    get_topic_specific_guidance category (normalize_topic topic)
    = get_topic_specific_guidance category topic).
  { unfold get_topic_specific_guidance.
    rewrite normalize_topic_idempotent. reflexivity. }
  split; [apply normalize_topic_keeps_ascii, Hascii |].
  split; [apply normalize_topic_idempotent |].
  split; [exact Hguidance |].
  unfold build_system_prompt. rewrite Hguidance. reflexivity.
Qed.

Lemma prompt_depends_on_the_normalized_topic_witness :
  normalize_topic "Bhagavad Gita" = "bhagavad_gita" /\
  build_system_prompt "epics" "bhagavad_gita" false
  = build_system_prompt "epics" "Bhagavad Gita" false.
Proof.
  split; [reflexivity |].
  change "bhagavad_gita" with (normalize_topic "Bhagavad Gita").
  refine (proj2 (proj2 (proj2 (prompt_depends_on_the_normalized_topic
                                 "epics" "Bhagavad Gita" false _)))).
  reflexivity.
Defined.

(** ** Analytics counters: what each counter counts *)

Module AnalyticsCounts.
Import Analytics.

Lemma bump_lookup (k key : string) (d : gmap string nat) :
  default 0 (bump k d !! key)
  = default 0 (d !! key) + (if String.eqb k key then 1 else 0).
Proof.
  unfold bump. destruct (String.eqb k key) eqn:Heq.
  - apply String.eqb_eq in Heq. subst key.
    rewrite lookup_insert_eq. reflexivity.
  - apply String.eqb_neq in Heq.
    rewrite lookup_insert_ne by exact Heq. lia.
Qed.

Lemma errors_after (key : string) (calls : list call) (s : store) :
  default 0 (errors (fold_left step calls s) !! key)
  = default 0 (errors s !! key) + calls_under error_key_of_call key calls.
Proof.
  unfold calls_under. revert s.
  induction calls as [|c calls IH]; intros s; cbn [fold_left List.filter].
  - cbn [length]. lia.
  - rewrite IH. destruct c; cbn [step track_response_time track_error errors
                                   error_key_of_call option_string_eqb].
    + lia.
    + rewrite bump_lookup.
      destruct (String.eqb (error_key_of error_type) key); cbn [length]; lia.
Qed.

Lemma categories_after (key : string) (calls : list call) (s : store) :
  default 0 (requests_per_category (fold_left step calls s) !! key)
  = default 0 (requests_per_category s !! key) + calls_under category_of_call key calls.
Proof.
  unfold calls_under. revert s.
  induction calls as [|c calls IH]; intros s; cbn [fold_left List.filter].
  - cbn [length]. lia.
  - rewrite IH. destruct c; cbn [step track_response_time track_error
                                   requests_per_category
                                   category_of_call option_string_eqb].
    + rewrite bump_lookup.
      destruct (String.eqb category key); cbn [length]; lia.
    + lia.
Qed.

Lemma topics_after (key : string) (calls : list call) (s : store) :
  default 0 (requests_per_topic (fold_left step calls s) !! key)
  = default 0 (requests_per_topic s !! key) + calls_under topic_key_of_call key calls.
Proof.
  unfold calls_under. revert s.
  induction calls as [|c calls IH]; intros s; cbn [fold_left List.filter].
  - cbn [length]. lia.
  - rewrite IH. destruct c; cbn [step track_response_time track_error
                                   requests_per_topic
                                   topic_key_of_call option_string_eqb].
    + rewrite bump_lookup.
      destruct (String.eqb (category +:+ ":" +:+ topic) key); cbn [length]; lia.
    + lia.
Qed.

(** X15. After any sequence of tracking calls from the initial store, the
    count stored under a key (0 when the key is absent, as [d.get(key, 0)]
    reads it) is the number of calls made for that key: [errors] counts the
    [track_error] calls by [str(error_type)], [requests_per_category] the
    [track_response_time] calls by category, and [requests_per_topic] those
    calls by ["<category>:<topic>"]. *)
Theorem counters_count_the_calls_per_key (calls : list call) (key : string) :
  default 0 (errors (run calls) !! key) = calls_under error_key_of_call key calls /\
  default 0 (requests_per_category (run calls) !! key)
  = calls_under category_of_call key calls /\
  default 0 (requests_per_topic (run calls) !! key)
  = calls_under topic_key_of_call key calls.
Proof.
  unfold run.
  rewrite errors_after, categories_after, topics_after.
  cbn [initial errors requests_per_category requests_per_topic].
  rewrite !lookup_empty. cbn [default]. lia.
Qed.

Lemma successes_after (calls : list call) (s : store) :
  successful_requests (fold_left step calls s)
  = successful_requests s + length (times_of calls) /\
  map rt_response_time (response_times (fold_left step calls s))
  = map rt_response_time (response_times s) ++ times_of calls /\
  sum_counts (requests_per_category (fold_left step calls s))
  = sum_counts (requests_per_category s) + length (times_of calls) /\
  sum_counts (requests_per_topic (fold_left step calls s))
  = sum_counts (requests_per_topic s) + length (times_of calls).
Proof.
  unfold times_of, sum_counts. revert s.
  induction calls as [|c calls IH]; intros s; cbn [fold_left flat_map].
  - cbn [length]. rewrite app_nil_r. repeat split; lia.
  - destruct (IH (step s c)) as [Hs [Ht [Hc Hp]]].
    rewrite Hs, Ht, Hc, Hp. clear IH Hs Ht Hc Hp.
    destruct c; cbn [step track_response_time track_error successful_requests
                       response_times requests_per_category requests_per_topic].
    + rewrite !AnalyticsFacts.sum_counts_bump, map_app, <- app_assoc.
      rewrite !length_app. cbn [length map app rt_response_time].
      repeat split; lia.
    + cbn [app length]. repeat split; lia.
Qed.

(** X16. After any sequence of tracking calls from the initial store,
    [successful_requests] is the number of [track_response_time] calls, and
    so are the length of [response_times] and the sums of the counts of
    [requests_per_category] and of [requests_per_topic]; [response_times]
    holds the response times of these calls in call order (errors leave all
    of them alone). *)
Theorem successes_equal_recorded_response_times (calls : list call) :
  successful_requests (run calls) = length (times_of calls) /\
  length (response_times (run calls)) = length (times_of calls) /\
  map rt_response_time (response_times (run calls)) = times_of calls /\
  sum_counts (requests_per_category (run calls)) = length (times_of calls) /\
  sum_counts (requests_per_topic (run calls)) = length (times_of calls).
Proof.
  unfold run.
  destruct (successes_after calls initial) as [Hs [Ht [Hc Hp]]].
  cbn [initial successful_requests response_times requests_per_category
         requests_per_topic map app] in Hs, Ht, Hc, Hp.
  unfold sum_counts in *. rewrite map_fold_empty in Hc, Hp.
  split; [exact Hs |].
  split; [rewrite <- Ht; symmetry; apply length_map |].
  split; [exact Ht |].
  split; [exact Hc | exact Hp].
Qed.

End AnalyticsCounts.

(** ** The sweep and the cache check *)

Lemma sweep_closed_form (current_time : Z) (cache : list (string * cache_entry)) :
  NoDup (keys cache) ->
  clean_expired_cache_entries current_time cache
  = if CACHE_MAX_SIZE <? length (List.filter (live_at current_time) cache)
    then take CACHE_MAX_SIZE
           (sorted_newest_first (List.filter (live_at current_time) cache))
    else List.filter (live_at current_time) cache.
Proof.
  intros Hnd. unfold clean_expired_cache_entries.
  rewrite (delete_keys_is_filter (expired_at current_time) cache Hnd).
  change (List.filter (fun kv => negb (expired_at current_time kv)) cache)
    with (List.filter (live_at current_time) cache).
  destruct (CACHE_MAX_SIZE <? length (List.filter (live_at current_time) cache));
    [| reflexivity].
  apply dict_of_items_nodup, keys_take_nodup.
  rewrite <- (Permutation_map fst
                (sorted_newest_first_perm (List.filter (live_at current_time) cache))).
  apply keys_filter_nodup, Hnd.
Qed.

Lemma sweep_keeps_live_entries_of_the_cache
    (current_time : Z) (cache : list (string * cache_entry)) (kv : string * cache_entry) :
  NoDup (keys cache) ->
  In kv (clean_expired_cache_entries current_time cache) ->
  In kv cache /\ live_at current_time kv = true.
Proof.
  intros Hnd Hin. rewrite (sweep_closed_form current_time cache Hnd) in Hin.
  apply filter_In.
  destruct (CACHE_MAX_SIZE <? length (List.filter (live_at current_time) cache));
    [| exact Hin].
  apply in_take in Hin.
  apply (Permutation_in kv (Permutation_sym (sorted_newest_first_perm _))), Hin.
Qed.

Lemma sweep_keys_distinct (current_time : Z) (cache : list (string * cache_entry)) :
  NoDup (keys cache) -> NoDup (keys (clean_expired_cache_entries current_time cache)).
Proof.
  intros Hnd. rewrite (sweep_closed_form current_time cache Hnd).
  destruct (CACHE_MAX_SIZE <? length (List.filter (live_at current_time) cache)).
  - apply keys_take_nodup.
    rewrite <- (Permutation_map fst
                  (sorted_newest_first_perm (List.filter (live_at current_time) cache))).
    apply keys_filter_nodup, Hnd.
  - apply keys_filter_nodup, Hnd.
Qed.

Lemma dict_get_absent {V : Type} (k : string) (d : list (string * V)) :
  ~ In k (keys d) -> dict_get k d = None.
Proof.
  induction d as [|[k' v'] d IH]; intros Hk; cbn [dict_get]; [reflexivity |].
  destruct (String.eqb k' k) eqn:Heq.
  - apply String.eqb_eq in Heq. subst k'. exfalso. apply Hk. left. reflexivity.
  - apply IH. intros Hin. apply Hk. right. exact Hin.
Qed.

Lemma dict_get_of_entry {V : Type} (k : string) (v : V) (d : list (string * V)) :
  NoDup (keys d) -> In (k, v) d -> dict_get k d = Some v.
Proof.
  induction d as [|[k' v'] d IH]; intros Hnd Hin; [destruct Hin |].
  cbn [keys map fst] in Hnd. apply NoDup_cons in Hnd as [Hk Hnd].
  cbn [dict_get]. destruct Hin as [Heq | Hin].
  - apply pair_equal_spec in Heq as [-> ->]. rewrite String.eqb_refl. reflexivity.
  - destruct (String.eqb k' k) eqn:Heq; [| apply IH; assumption].
    apply String.eqb_eq in Heq. subst k'. exfalso. apply Hk.
    apply list_elem_of_In. change (In (fst (k, v)) (map fst d)). apply in_map, Hin.
Qed.

Lemma dict_get_filter {V : Type} (P : string * V -> bool) (k : string)
    (d : list (string * V)) :
  NoDup (keys d) ->
  dict_get k (List.filter P d)
  = match dict_get k d with
    | Some v => if P (k, v) then Some v else None
    | None => None
    end.
Proof.
  induction d as [|[k' v'] d IH]; intros Hnd; [reflexivity |].
  cbn [keys map fst] in Hnd. apply NoDup_cons in Hnd as [Hk Hnd].
  cbn [List.filter dict_get].
  destruct (String.eqb k' k) eqn:Heq.
  - apply String.eqb_eq in Heq. subst k'.
    destruct (P (k, v')); [cbn [dict_get]; rewrite String.eqb_refl; reflexivity |].
    apply dict_get_absent. intros Hin. apply Hk.
    apply list_elem_of_In. apply (keys_filter_subset P d k Hin).
  - destruct (P (k', v')); [cbn [dict_get]; rewrite Heq |]; apply IH, Hnd.
Qed.

(** X18. The sweep is invisible to the cache check of a later call. On a
    cache with distinct keys, swept at [current_time]: a check at a time
    [now >= current_time] that hits in the swept cache hits in the original
    one with the same response; and when the unexpired entries are at most
    [CACHE_MAX_SIZE] the check gives the same answer for every key, since the
    sweep removes only entries the check already ignores. *)
Theorem sweep_is_invisible_to_later_cache_checks
    (current_time now : Z) (key : string) (cache : list (string * cache_entry)) :
  NoDup (keys cache) ->
  (current_time <= now)%Z ->
  (forall r,
      cache_lookup now key (clean_expired_cache_entries current_time cache) = Some r ->
      cache_lookup now key cache = Some r) /\
  (length (List.filter (live_at current_time) cache) <= CACHE_MAX_SIZE ->
   cache_lookup now key (clean_expired_cache_entries current_time cache)
   = cache_lookup now key cache).
Proof.
  intros Hnd Htime. split.
  - intros r. unfold cache_lookup.
    destruct (dict_get key (clean_expired_cache_entries current_time cache))
      as [cached_data|] eqn:Hget; [| discriminate].
    apply dict_get_In in Hget.
    apply (sweep_keeps_live_entries_of_the_cache current_time cache _ Hnd) in Hget
      as [Hin _].
    rewrite (dict_get_of_entry key cached_data cache Hnd Hin). intros H. exact H.
  - intros Hsmall. rewrite (sweep_closed_form current_time cache Hnd).
    apply Nat.ltb_ge in Hsmall. rewrite Hsmall.
    unfold cache_lookup. rewrite (dict_get_filter _ key cache Hnd).
    destruct (dict_get key cache) as [cached_data|]; [| reflexivity].
    unfold live_at, expired_at. cbn [snd].
    destruct (ce_expiry cached_data <? current_time)%Z eqn:Hexpired; cbn [negb];
      [| reflexivity].
    apply Z.ltb_lt in Hexpired.
    assert (Hmiss : (now <? ce_expiry cached_data)%Z = false) by (apply Z.ltb_ge; lia).
    rewrite Hmiss. reflexivity.
Qed.

Lemma sweep_is_invisible_to_later_cache_checks_witness :
  cache_lookup 2 "2" (clean_expired_cache_entries 2 (numbered_cache 5))
  = cache_lookup 2 "2" (numbered_cache 5).
Proof.
  refine (proj2 (sweep_is_invisible_to_later_cache_checks 2 2 "2" (numbered_cache 5)
                   (numbered_cache_keys_distinct 5) _) _).
  - lia.
  - vm_compute. lia.
Defined.

Lemma filter_all_true {A : Type} (P : A -> bool) (l : list A) :
  (forall x, In x l -> P x = true) -> List.filter P l = l.
Proof.
  induction l as [|x l IH]; intros Hall; [reflexivity |].
  cbn [List.filter]. rewrite (Hall x) by (left; reflexivity).
  f_equal. apply IH. intros y Hy. apply Hall. right. exact Hy.
Qed.

(** X19. Sweeping a cache with distinct keys twice at the same time gives
    what sweeping it once gives: after one sweep nothing is expired and the
    size bound holds, so a second sweep removes nothing and keeps the
    order. *)
Theorem sweeping_twice_is_sweeping_once
    (current_time : Z) (cache : list (string * cache_entry)) :
  NoDup (keys cache) ->
  clean_expired_cache_entries current_time
    (clean_expired_cache_entries current_time cache)
  = clean_expired_cache_entries current_time cache.
Proof.
  intros Hnd.
  rewrite (sweep_closed_form current_time _ (sweep_keys_distinct current_time cache Hnd)).
  rewrite (filter_all_true (live_at current_time)
             (clean_expired_cache_entries current_time cache))
    by (intros kv Hin;
        apply (sweep_keeps_live_entries_of_the_cache current_time cache kv Hnd Hin)).
  assert (Hsize : length (clean_expired_cache_entries current_time cache)
                  <= CACHE_MAX_SIZE).
  { rewrite (sweep_closed_form current_time cache Hnd).
    destruct (CACHE_MAX_SIZE <? length (List.filter (live_at current_time) cache))
      eqn:Hover.
    - rewrite length_take. lia.
    - apply Nat.ltb_ge in Hover. exact Hover. }
  apply Nat.ltb_ge in Hsize. rewrite Hsize. reflexivity.
Qed.

Lemma sweeping_twice_is_sweeping_once_witness :
  clean_expired_cache_entries 2 (clean_expired_cache_entries 2 (numbered_cache 1003))
  = clean_expired_cache_entries 2 (numbered_cache 1003).
Proof.
  exact (sweeping_twice_is_sweeping_once 2 (numbered_cache 1003)
           (numbered_cache_keys_distinct 1003)).
Defined.

(** ** The chat route: what one request adds to the counters *)

(** The client leaves the store alone, or records one error and returns the
    fallback dict, the only dict with an ['error'] field. *)
Lemma client_store_effect (provider : nat -> post_result)
    (system_prompt message : string) (is_short_query : bool) (store : Analytics.store) :
  let mo := generate_mistral_response provider system_prompt message
              is_short_query store in
  (mo_store mo = store /\
   forall d, mo_result mo = Ok d -> dict_mem "error" d = false) \/
  (exists category topic last_error error_message d,
      mo_store mo
      = Analytics.track_error category topic last_error error_message store /\
      mo_result mo = Ok d /\ dict_mem "error" d = true).
Proof.
  intros mo. subst mo. unfold generate_mistral_response.
  destruct (retry_loop _ _ _ _ _ _) as [content usage tr | e tr | retry_count last_error tr];
    cbn [mo_result mo_store].
  - left. split; [reflexivity |].
    intros d Hd. apply Ok_inj in Hd. subst d. reflexivity.
  - left. split; [reflexivity |]. intros d Hd. discriminate Hd.
  - right. do 5 eexists. split; [reflexivity |]. split; reflexivity.
Qed.

Lemma chat_store_effect (env : environment) (st : state)
    (message category topic : string) (provider : option string) :
  let out := generate_chat_response env st message category topic provider in
  (ANALYTICS_STORE (co_state out) = ANALYTICS_STORE st /\
   forall d, co_result out = Ok d -> dict_mem "error" d = false) \/
  (exists category' topic' last_error error_message d,
      ANALYTICS_STORE (co_state out)
      = Analytics.track_error category' topic' last_error error_message
          (ANALYTICS_STORE st) /\
      co_result out = Ok d /\ dict_mem "error" d = true).
Proof.
  intros out. subst out. unfold generate_chat_response.
  destruct (cache_lookup _ _ _) as [cached|]; cbn [co_result co_state].
  { left. split; [reflexivity |].
    intros d Hd. apply Ok_inj in Hd. subst d. reflexivity. }
  unfold generate_fresh_response.
  destruct (build_system_prompt category topic (is_short_query_of message))
    as [system_prompt|e]; cbn [co_result co_state].
  2:{ left. split; [reflexivity |]. intros d Hd. discriminate Hd. }
  destruct (env_mistral_api_available env); cbn [co_result co_state].
  2:{ left. split; [reflexivity |].
      intros d Hd. apply Ok_inj in Hd. subst d. reflexivity. }
  pose proof (client_store_effect (env_provider env) system_prompt message
                (is_short_query_of message) (ANALYTICS_STORE st)) as Hclient.
  cbv zeta in Hclient.
  remember (generate_mistral_response (env_provider env) system_prompt message
              (is_short_query_of message) (ANALYTICS_STORE st)) as mo eqn:Hmo.
  clear Hmo.
  destruct Hclient as [[Hstore Hnoerr] | [c [t [le [msg [d [Hstore [Hd Herr]]]]]]]].
  - left. destruct (mo_result mo) as [d|e]; cbn [co_result co_state ANALYTICS_STORE].
    + split; [exact Hstore |]. intros d' Hd'. apply Ok_inj in Hd'. subst d'.
      apply Hnoerr. reflexivity.
    + split; [exact Hstore |].
      intros d Hd. apply Ok_inj in Hd. subst d. reflexivity.
  - right. exists c, t, le, msg, d. rewrite Hd.
    cbn [co_result co_state ANALYTICS_STORE].
    split; [exact Hstore |]. split; [reflexivity | exact Herr].
Qed.

Lemma PostReturns_inj (r r' : response) : PostReturns r = PostReturns r' -> r = r'.
Proof. intros H. congruence. Qed.

Lemma chat_result_is_a_dict (env : environment) (st : state)
    (message category topic : string) (provider : option string) :
  exists d, co_result (generate_chat_response env st message category topic provider)
            = Ok d.
Proof.
  unfold generate_chat_response.
  destruct (cache_lookup _ _ _) as [cached|]; [eexists; reflexivity |].
  unfold generate_fresh_response.
  destruct (build_system_prompt_total category topic (is_short_query_of message))
    as [system_prompt ->].
  destruct (env_mistral_api_available env); [| eexists; reflexivity].
  destruct (mo_result _) as [d|e]; eexists; reflexivity.
Qed.

(** X17. What one request that reaches the [try] block of the chat route adds
    to the counters.  With a [str] message the route calls
    [track_response_time] right after [generate_chat_response] has returned,
    whatever dict it returned: [successful_requests] grows by one in every
    case; the error counts grow by one when the provider call failed (the
    fallback dict, with its ['error'] field, already counted by the client)
    and by one more when the rest of the [try] block raises (a failed
    database write, say), and [total_requests] by one plus these.  A failed
    provider call is thus counted as an error and as a success.  With an
    [int] message the request is counted as one error and no success.
    (Stated for ASCII messages and topics, where [lower], [split] and
    [strip] are what the methods of [str] do, and for [Retry-After] values
    in the range where [sleep] is what [time.sleep] does.) *)
Theorem chat_request_is_counted_as_successful_whatever_the_dict
    (env : environment) (tracked_at : Z) (response_time : Q) (rest : rest_of_try)
    (error_text : exn -> string) (st : state) (message category topic : string)
    (provider : option string) :
  is_ascii message = true ->
  is_ascii topic = true ->
  retry_after_in_range (env_provider env) ->
  let out := generate_chat_response env st message category topic provider in
  let after :=
    fst (chat_try_block env tracked_at response_time rest error_text st
           (ArgStr message) category topic provider) in
  let provider_failed :=
    match co_result out with
    | Ok d => dict_mem "error" d
    | Raise _ => false
    end in
  let rest_failed :=
    match rest with
    | RestCompletes => false
    | RestRaises _ _ => true
    end in
  Analytics.successful_requests (ANALYTICS_STORE after)
  = Analytics.successful_requests (ANALYTICS_STORE st) + 1 /\
  Analytics.error_total (ANALYTICS_STORE after)
  = Analytics.error_total (ANALYTICS_STORE st)
    + Nat.b2n provider_failed + Nat.b2n rest_failed /\
  Analytics.total_requests (ANALYTICS_STORE after)
  = Analytics.total_requests (ANALYTICS_STORE st)
    + 1 + Nat.b2n provider_failed + Nat.b2n rest_failed /\
  RESPONSE_CACHE after = RESPONSE_CACHE (co_state out) /\
  (forall n : Z,
      let after_int :=
        fst (chat_try_block env tracked_at response_time rest error_text st
               (ArgInt n) category topic provider) in
      Analytics.successful_requests (ANALYTICS_STORE after_int)
      = Analytics.successful_requests (ANALYTICS_STORE st) /\
      Analytics.error_total (ANALYTICS_STORE after_int)
      = Analytics.error_total (ANALYTICS_STORE st) + 1 /\
      Analytics.total_requests (ANALYTICS_STORE after_int)
      = Analytics.total_requests (ANALYTICS_STORE st) + 1).
Proof.
  intros _ _ _ out after provider_failed rest_failed.
  assert (Hstr :
    Analytics.successful_requests (ANALYTICS_STORE after)
    = Analytics.successful_requests (ANALYTICS_STORE st) + 1 /\
    Analytics.error_total (ANALYTICS_STORE after)
    = Analytics.error_total (ANALYTICS_STORE st)
      + Nat.b2n provider_failed + Nat.b2n rest_failed /\
    Analytics.total_requests (ANALYTICS_STORE after)
    = Analytics.total_requests (ANALYTICS_STORE st)
      + 1 + Nat.b2n provider_failed + Nat.b2n rest_failed /\
    RESPONSE_CACHE after = RESPONSE_CACHE (co_state out)).
  { subst after provider_failed rest_failed.
    unfold chat_try_block. cbn [generate_chat_response_any]. fold out.
    pose proof (chat_store_effect env st message category topic provider) as Heffect.
    destruct (chat_result_is_a_dict env st message category topic provider) as [d Hd].
    cbv zeta in Heffect. fold out in Heffect, Hd. clearbody out. rewrite Hd.
    unfold Analytics.error_total.
    assert (Hstore :
      Analytics.successful_requests (ANALYTICS_STORE (co_state out))
      = Analytics.successful_requests (ANALYTICS_STORE st) /\
      map_fold (fun _ n acc => n + acc) 0 (Analytics.errors (ANALYTICS_STORE (co_state out)))
      = map_fold (fun _ n acc => n + acc) 0 (Analytics.errors (ANALYTICS_STORE st))
        + Nat.b2n (dict_mem "error" d) /\
      Analytics.total_requests (ANALYTICS_STORE (co_state out))
      = Analytics.total_requests (ANALYTICS_STORE st) + Nat.b2n (dict_mem "error" d)).
    { destruct Heffect as [[Hsame Hnoerr] | [c [t [le [msg [d' [Hadd [Hd' Herr]]]]]]]].
      - rewrite Hsame, (Hnoerr d Hd). cbn [Nat.b2n]. repeat split; lia.
      - rewrite Hd in Hd'. apply Ok_inj in Hd'. subst d'. rewrite Hadd, Herr.
        unfold Analytics.track_error.
        cbn [Analytics.successful_requests Analytics.total_requests Analytics.errors
               Nat.b2n].
        rewrite AnalyticsFacts.sum_counts_bump. repeat split; lia. }
    destruct Hstore as [Hsucc [Herrs Htotal]].
    destruct rest as [|error_type error_message];
      cbn [fst ANALYTICS_STORE RESPONSE_CACHE Nat.b2n];
      unfold Analytics.track_error, Analytics.track_response_time;
      cbn [Analytics.successful_requests Analytics.total_requests Analytics.errors];
      rewrite ?AnalyticsFacts.sum_counts_bump, Hsucc, Herrs, Htotal;
      repeat split; lia. }
  destruct Hstr as [H1 [H2 [H3 H4]]].
  split; [exact H1 |]. split; [exact H2 |]. split; [exact H3 |]. split; [exact H4 |].
  intros n after_int. subst after_int.
  unfold chat_try_block. cbn [generate_chat_response_any].
  destruct (cache_lookup _ _ _) as [cached|];
    cbn [co_result co_state co_trace fst ANALYTICS_STORE RESPONSE_CACHE];
    unfold Analytics.track_error, Analytics.error_total;
    cbn [Analytics.successful_requests Analytics.total_requests Analytics.errors];
    rewrite AnalyticsFacts.sum_counts_bump; repeat split; lia.
Qed.

Lemma chat_request_is_counted_as_successful_whatever_the_dict_witness :
  let after :=
    fst (chat_try_block (constant_env 401 (BodyRaises ValueError) 0) 0 (1 # 2)
           RestCompletes (fun _ => EmptyString) empty_state
           (ArgStr "Who wrote the Ramayana?") "epics" "ramayana" None) in
  Analytics.successful_requests (ANALYTICS_STORE after) = 1 /\
  Analytics.total_requests (ANALYTICS_STORE after) = 2.
Proof.
  intros after. subst after.
  destruct (chat_request_is_counted_as_successful_whatever_the_dict
              (constant_env 401 (BodyRaises ValueError) 0) 0 (1 # 2) RestCompletes
              (fun _ => EmptyString) empty_state "Who wrote the Ramayana?"
              "epics" "ramayana" None)
    as [Hsucc [_ [Htotal _]]].
  - reflexivity.
  - reflexivity.
  - intros n r seconds Hr Hheader. apply PostReturns_inj in Hr. subst r.
    discriminate Hheader.
  - split; [rewrite Hsucc | rewrite Htotal]; vm_compute; reflexivity.
Defined.
